(** * Constellation Overwatch: durable event distribution

    A shallow embedding of the Go sources of the event-distribution core
    (pkg/shared, pkg/services/embedded-nats, pkg/services/workers,
    api/services/entity.service.go and the microlith entry point), with the
    properties of the design document stated over it.

    Conventions.
    - Go strings are [string]; [int64], [int32] and [time.Duration] are [Z]
      (a duration counts nanoseconds, as in package time).
    - A [float64] is carried as its 64-bit pattern; the code never computes
      with one.
    - Code that logs returns the lines it printed, oldest first, without the
      date prefix that package log adds.
    - The JetStream server is external to the repository.  It is represented
      by the state the calls used here can observe (the stream table, the
      consumer table and the messages it took) together with what it refuses
      for reasons of its own, which is left open. *)

From Stdlib Require Import ZArith Ascii String List Lia.
From stdpp Require Import base strings pretty gmap list.

Open Scope Z_scope.
Open Scope string_scope.
Open Scope list_scope.

(* ===================================================================== *)
(** ** fmt.Sprintf, for the verbs the sources use *)
(* ===================================================================== *)

Module Fmt.

(** An operand of [Sprintf]: a string (also an error, through its
    message), an integer or a slice of strings. *)
Inductive arg : Type :=
  | Str (s : string)
  | Int (z : Z)
  | Strs (l : list string).

(** [%v] of a []string: the elements between brackets, space separated. *)
Fixpoint spaced (l : list string) : string :=
  match l with
  | [] => ""
  | [s] => s
  | s :: rest => s +:+ " " +:+ spaced rest
  end.

Definition type_and_value (a : arg) : string :=
  match a with
  | Str s => "string=" +:+ s
  | Int z => "int=" +:+ pretty z
  | Strs l => "[]string=[" +:+ spaced l +:+ "]"
  end.

(** What one verb prints for one operand.  A verb applied to an operand of
    the wrong kind prints Go's [%!verb(type=value)] notice. *)
Definition verb (c : Ascii.ascii) (a : arg) : string :=
  match c, a with
  | "s"%char, Str s => s
  | "v"%char, Str s => s
  | "d"%char, Int z => pretty z
  | "v"%char, Int z => pretty z
  | "w"%char, Str s => s
  | "v"%char, Strs l => "[" +:+ spaced l +:+ "]"
  | _, _ => "%!" +:+ String c ("(" +:+ type_and_value a +:+ ")")
  end.

Fixpoint extra (args : list arg) : string :=
  match args with
  | [] => ""
  | [a] => type_and_value a
  | a :: rest => type_and_value a +:+ ", " +:+ extra rest
  end.

Fixpoint Sprintf (format : string) (args : list arg) : string :=
  match format with
  | EmptyString =>
      match args with
      | [] => ""
      | _ :: _ => "%!(EXTRA " +:+ extra args +:+ ")"
      end
  | String "%"%char EmptyString => "%!(NOVERB)"
  | String "%"%char (String "%"%char rest) => String "%"%char (Sprintf rest args)
  | String "%"%char (String c rest) =>
      match args with
      | [] => "%!" +:+ String c ("(MISSING)" +:+ Sprintf rest [])
      | a :: args' => verb c a +:+ Sprintf rest args'
      end
  | String c rest => String c (Sprintf rest args)
  end.

End Fmt.

(* ===================================================================== *)
(** ** pkg/shared: subjects, stream and consumer names, event kinds *)
(* ===================================================================== *)

Module Shared.

Definition SubjectPrefix := "constellation".

Definition SubjectEntities := "constellation.entities".
Definition SubjectEntitiesAll := "constellation.entities.>".
Definition SubjectEntityCreated := "constellation.entities.%s.created".
Definition SubjectEntityUpdated := "constellation.entities.%s.updated".
Definition SubjectEntityDeleted := "constellation.entities.%s.deleted".
Definition SubjectEntityStatus := "constellation.entities.%s.status".
Definition SubjectEntityTelemetry := "constellation.entities.%s.telemetry".

Definition SubjectEvents := "constellation.events".
Definition SubjectEventsAll := "constellation.events.>".

Definition SubjectTelemetry := "constellation.telemetry".
Definition SubjectTelemetryAll := "constellation.telemetry.>".
Definition SubjectTelemetryEntity := "constellation.telemetry.%s.%s".

Definition SubjectCommands := "constellation.commands".
Definition SubjectCommandsAll := "constellation.commands.>".
Definition SubjectCommandEntity := "constellation.commands.%s.%s".
Definition SubjectCommandBroadcast := "constellation.commands.%s.broadcast".

Definition StreamEntities := "CONSTELLATION_ENTITIES".
Definition StreamEvents := "CONSTELLATION_EVENTS".
Definition StreamTelemetry := "CONSTELLATION_TELEMETRY".
Definition StreamCommands := "CONSTELLATION_COMMANDS".

Definition ConsumerEntityProcessor := "entity-processor".
Definition ConsumerEventProcessor := "event-processor".
Definition ConsumerCommandProcessor := "command-processor".
Definition ConsumerTelemetryProcessor := "telemetry-processor".

Definition EntityCreatedSubject (orgID : string) : string :=
  Fmt.Sprintf SubjectEntityCreated [Fmt.Str orgID].

Definition EntityUpdatedSubject (orgID : string) : string :=
  Fmt.Sprintf SubjectEntityUpdated [Fmt.Str orgID].

Definition EntityDeletedSubject (orgID : string) : string :=
  Fmt.Sprintf SubjectEntityDeleted [Fmt.Str orgID].

Definition EntityStatusSubject (orgID : string) : string :=
  Fmt.Sprintf SubjectEntityStatus [Fmt.Str orgID].

Definition EntityTelemetrySubject (orgID : string) : string :=
  Fmt.Sprintf SubjectEntityTelemetry [Fmt.Str orgID].

Definition TelemetryEntitySubject (orgID entityID : string) : string :=
  Fmt.Sprintf SubjectTelemetryEntity [Fmt.Str orgID; Fmt.Str entityID].

Definition CommandEntitySubject (orgID entityID : string) : string :=
  Fmt.Sprintf SubjectCommandEntity [Fmt.Str orgID; Fmt.Str entityID].

Definition CommandBroadcastSubject (orgID : string) : string :=
  Fmt.Sprintf SubjectCommandBroadcast [Fmt.Str orgID].

Definition StatusUnknown := "unknown".
Definition PriorityNormal := "normal".

Definition EventTypeCreated := "created".
Definition EventTypeUpdated := "updated".
Definition EventTypeDeleted := "deleted".
Definition EventTypeStatus := "status_changed".
Definition EventTypeAlert := "alert".

End Shared.

(* ===================================================================== *)
(** ** pkg/ontology: the entity record *)
(* ===================================================================== *)

Module Ontology.

Record Entity : Type := mkEntity {
  EntityID : string;
  OrgID : string;
  EntityType : string;
  Status : string;
  Priority : string;
  IsLive : bool;
  Latitude : option Z;
  Longitude : option Z;
  Altitude : option Z;
  Heading : option Z;
  Velocity : option Z;
  Components : string;
  Tags : string;
  Metadata : string;
  CreatedAt : Z;
  UpdatedAt : Z
}.

End Ontology.

(* ===================================================================== *)
(** ** Results of calls that can fail *)
(* ===================================================================== *)

(** A Go call returning [(value, error)]: a value, an error with its message,
    or a run-time panic that unwinds the caller. *)
Inductive res (A : Type) : Type :=
| Ok (a : A)
| Error (msg : string)
| Panic (msg : string).

Arguments Ok {A} a.
Arguments Error {A} msg.
Arguments Panic {A} msg.

(** The units of package time, in nanoseconds. *)
Module Time.
Definition Nanosecond : Z := 1.
Definition Second : Z := 1000000000.
Definition Minute : Z := 60 * Second.
Definition Hour : Z := 60 * Minute.
End Time.

(* ===================================================================== *)
(** ** The nats.go client API, as far as the sources call it *)
(* ===================================================================== *)

Module Nats.

Inductive RetentionPolicy : Type := LimitsPolicy | InterestPolicy | WorkQueuePolicy.
Inductive DiscardPolicy : Type := DiscardOld | DiscardNew.
Inductive AckPolicy : Type := AckNonePolicy | AckAllPolicy | AckExplicitPolicy.
Inductive DeliverPolicy : Type := DeliverAllPolicy | DeliverLastPolicy | DeliverNewPolicy.
Inductive ReplayPolicy : Type := ReplayInstantPolicy | ReplayOriginalPolicy.

#[global] Instance RetentionPolicy_eq_dec : EqDecision RetentionPolicy.
Proof. solve_decision. Defined.
#[global] Instance DiscardPolicy_eq_dec : EqDecision DiscardPolicy.
Proof. solve_decision. Defined.
#[global] Instance AckPolicy_eq_dec : EqDecision AckPolicy.
Proof. solve_decision. Defined.
#[global] Instance DeliverPolicy_eq_dec : EqDecision DeliverPolicy.
Proof. solve_decision. Defined.
#[global] Instance ReplayPolicy_eq_dec : EqDecision ReplayPolicy.
Proof. solve_decision. Defined.

Module StreamConfig.
Record t : Type := mk {
  Name : string;
  Subjects : list string;
  Retention : RetentionPolicy;
  MaxMsgs : Z;
  MaxBytes : Z;
  MaxAge : Z;
  MaxMsgSize : Z;
  Replicas : Z;
  Duplicates : Z;
  AllowRollup : bool;
  AllowDirect : bool;
  Discard : DiscardPolicy
}.
#[global] Instance eq_dec : EqDecision t.
Proof. solve_decision. Defined.
End StreamConfig.

Module ConsumerConfig.
Record t : Type := mk {
  Durable : string;
  FilterSubject : string;
  AckPolicy : Nats.AckPolicy;
  AckWait : Z;
  MaxDeliver : Z;
  MaxAckPending : Z;
  DeliverPolicy : Nats.DeliverPolicy;
  ReplayPolicy : Nats.ReplayPolicy
}.
#[global] Instance eq_dec : EqDecision t.
Proof. solve_decision. Defined.
End ConsumerConfig.

(** A message: subject, payload and headers.  [Header.Set] replaces the
    values of a key, so a header is a finite map. *)
Record Msg : Type := mkMsg {
  Subject : string;
  Data : string;
  Header : gmap string string
}.

Definition NewMsg (subject : string) : Msg :=
  {| Subject := subject; Data := ""; Header := ∅ |}.

Definition MsgIdHdr := "Nats-Msg-Id".

Definition ErrTimeout := "nats: timeout".
Definition ErrStreamNotFound := "nats: stream not found".
Definition ErrConsumerNotFound := "nats: consumer not found".
Definition ErrStreamNameAlreadyInUse := "nats: stream name already in use".
Definition ErrNoStreamResponse := "nats: no response from stream".

(** *** Subjects and wildcards *)

(** The tokens of a subject, split at the dots. *)
Fixpoint tokens_from (cur : string) (s : string) : list string :=
  match s with
  | EmptyString => [cur]
  | String c rest =>
      if Ascii.eqb c "."%char then cur :: tokens_from "" rest
      else tokens_from (cur +:+ String c "") rest
  end.

Definition tokens (s : string) : list string := tokens_from "" s.

(** A filter token [*] stands for one token, a final [>] for one or more.
    The subject of a message is matched only when [literal] holds of it. *)
Fixpoint tokens_match (filter subject : list string) : bool :=
  match filter, subject with
  | [], [] => true
  | [f], _ :: _ =>
      if String.eqb f ">" then true
      else match subject with
           | [t] => String.eqb f "*" || String.eqb f t
           | _ => false
           end
  | f :: filter', t :: subject' =>
      (String.eqb f "*" || String.eqb f t) && tokens_match filter' subject'
  | _, _ => false
  end.

(** The server matches no subject that has an empty token: the empty
    subject, a leading or trailing dot, two dots in a row. *)
Definition literal (subject : list string) : bool :=
  forallb (fun t => negb (String.eqb t "")) subject.

Definition subject_matches (filter subject : string) : bool :=
  literal (tokens subject) && tokens_match (tokens filter) (tokens subject).

(** *** The server side of JetStream

      What the server refuses for reasons of its own, each with the error
      it answers ([None] is acceptance): a stream definition, given the
      streams it holds (a change of what may not change, overlapping
      subjects, limits of the account); a consumer, given the streams and
      consumers it holds (a second consumer with the same filter on a
      work-queue stream); a message for a stream, given the streams and the
      messages taken so far (a message over the size limit, a full stream
      that discards new messages). *)
Record Refusals : Type := mkRefusals {
  stream_refused : gmap string StreamConfig.t -> StreamConfig.t -> option string;
  consumer_refused :
    gmap string StreamConfig.t -> gmap (string * string) ConsumerConfig.t ->
    string -> ConsumerConfig.t -> option string;
  msg_refused :
    gmap string StreamConfig.t -> list (string * Msg) -> string -> Msg -> option string
}.

(** A server that refuses nothing. *)
Definition lenient : Refusals :=
  {| stream_refused := fun _ _ => None;
     consumer_refused := fun _ _ _ _ => None;
     msg_refused := fun _ _ _ _ => None |}.

(** The state of the JetStream server that the calls below read and write:
      the streams by name, the durable consumers by stream and name, and the
      messages each stream took, oldest first, together with what the server
      refuses.  The removal of messages by age or by the limits of a stream
      that discards old ones, and the expiry of the duplicate window, are
      left out: [js_msgs] lists what was taken, and every message taken
      counts as inside the window. *)
Record JetStream : Type := mkJetStream {
  js_streams : gmap string StreamConfig.t;
  js_consumers : gmap (string * string) ConsumerConfig.t;
  js_msgs : list (string * Msg);
  js_refuses : Refusals
}.

Definition empty_server : JetStream :=
  {| js_streams := ∅; js_consumers := ∅; js_msgs := []; js_refuses := lenient |}.

Definition StreamInfo (srv : JetStream) (name : string) : res StreamConfig.t :=
  match js_streams srv !! name with
  | Some cfg => Ok cfg
  | None => Error ErrStreamNotFound
  end.

(** The server with [cfg] under its name. *)
Definition with_stream (srv : JetStream) (cfg : StreamConfig.t) : JetStream :=
  {| js_streams := <[StreamConfig.Name cfg := cfg]> (js_streams srv);
     js_consumers := js_consumers srv;
     js_msgs := js_msgs srv;
     js_refuses := js_refuses srv |}.

(** Adding a stream under a name that is taken succeeds only for the
    definition the server already holds. *)
Definition AddStream (srv : JetStream) (cfg : StreamConfig.t)
  : JetStream * res StreamConfig.t :=
  match js_streams srv !! StreamConfig.Name cfg with
  | Some old =>
      if decide (old = cfg) then (srv, Ok cfg)
      else (srv, Error ErrStreamNameAlreadyInUse)
  | None =>
      match stream_refused (js_refuses srv) (js_streams srv) cfg with
      | Some err => (srv, Error err)
      | None => (with_stream srv cfg, Ok cfg)
      end
  end.

(** An update that changes nothing is accepted as it is; any other is the
    server's to refuse, and a refused update leaves the old definition. *)
Definition UpdateStream (srv : JetStream) (cfg : StreamConfig.t)
  : JetStream * res StreamConfig.t :=
  match js_streams srv !! StreamConfig.Name cfg with
  | Some old =>
      if decide (old = cfg) then (srv, Ok cfg)
      else
        match stream_refused (js_refuses srv) (js_streams srv) cfg with
        | Some err => (srv, Error err)
        | None => (with_stream srv cfg, Ok cfg)
        end
  | None => (srv, Error ErrStreamNotFound)
  end.

Definition ConsumerInfo (srv : JetStream) (stream consumer : string)
  : res ConsumerConfig.t :=
  match js_streams srv !! stream with
  | None => Error ErrStreamNotFound
  | Some _ =>
      match js_consumers srv !! (stream, consumer) with
      | Some cfg => Ok cfg
      | None => Error ErrConsumerNotFound
      end
  end.

Definition AddConsumer (srv : JetStream) (stream : string) (cfg : ConsumerConfig.t)
  : JetStream * res ConsumerConfig.t :=
  match js_streams srv !! stream with
  | None => (srv, Error ErrStreamNotFound)
  | Some _ =>
      match consumer_refused (js_refuses srv) (js_streams srv) (js_consumers srv)
              stream cfg with
      | Some err => (srv, Error err)
      | None =>
          ({| js_streams := js_streams srv;
              js_consumers :=
                <[(stream, ConsumerConfig.Durable cfg) := cfg]> (js_consumers srv);
              js_msgs := js_msgs srv;
              js_refuses := js_refuses srv |}, Ok cfg)
      end
  end.

(** The streams whose subject filters admit a subject. *)
Definition streams_for (srv : JetStream) (subject : string) : list string :=
  map fst
    (filter (fun p => existsb (fun f => subject_matches f subject)
                              (StreamConfig.Subjects (snd p)))
            (map_to_list (js_streams srv))).

Definition stored_ids (srv : JetStream) (stream : string) : list string :=
  omap (fun p => if String.eqb (fst p) stream then Header (snd p) !! MsgIdHdr else None)
       (js_msgs srv).

(** What the server answers to a publish: the stream that took the message
    and whether it was recognised as a duplicate. *)
Record PubAck : Type := mkPubAck { Stream : string; Duplicate : bool }.

(** Whether the server has taken a message of that identifier into the
    stream.  An empty identifier identifies nothing. *)
Definition duplicate (srv : JetStream) (stream : string) (m : Msg) : bool :=
  match Header m !! MsgIdHdr with
  | Some id => negb (String.eqb id "") && bool_decide (id ∈ stored_ids srv stream)
  | None => false
  end.

(** A publish with no stream for the subject gets no response.  A duplicate
    is acknowledged and dropped; any other message is the server's to refuse,
    and is appended to the stream otherwise. *)
Definition PublishMsg (srv : JetStream) (m : Msg) : JetStream * res PubAck :=
  match streams_for srv (Subject m) with
  | [] => (srv, Error ErrNoStreamResponse)
  | stream :: _ =>
      if duplicate srv stream m
      then (srv, Ok {| Stream := stream; Duplicate := true |})
      else
        match msg_refused (js_refuses srv) (js_streams srv) (js_msgs srv) stream m with
        | Some err => (srv, Error err)
        | None =>
            ({| js_streams := js_streams srv;
                js_consumers := js_consumers srv;
                js_msgs := js_msgs srv ++ [(stream, m)];
                js_refuses := js_refuses srv |},
             Ok {| Stream := stream; Duplicate := false |})
        end
  end.

End Nats.

(* ===================================================================== *)
(** ** Lifecycle events of the process *)
(* ===================================================================== *)

(** Who performs a step on the shared client connection. *)
Inductive Component : Type :=
| WorkerManager
| BrokerBootstrap.

(** The externally visible steps of start-up and shutdown, in the order the
    process performs them. *)
Inductive Step : Type :=
| CancelWorkers
| DrainSubscription (worker : string)
| WaitWorkersStopped
| CloseConnection (by_ : Component)
| ServerShutdown
| ServerWaitForShutdown
| HTTPServerShutdown
| LogLine (line : string).

#[global] Instance Component_eq_dec : EqDecision Component.
Proof. solve_decision. Defined.
#[global] Instance Step_eq_dec : EqDecision Step.
Proof. solve_decision. Defined.

(* ===================================================================== *)
(** ** pkg/services/embedded-nats *)
(* ===================================================================== *)

Module EmbeddedNats.

Record Config : Type := mkConfig {
  Port : Z;
  WSPort : Z;
  DataDir : string;
  MaxMemory : Z;
  MaxFileStore : Z;
  JetStreamDomain : string;
  EnableTLS : bool;
  TLSCert : string;
  TLSKey : string
}.

Record StreamConfig : Type := mkStreamConfig {
  Name : string;
  Subjects : list string;
  Retention : Nats.RetentionPolicy;
  MaxMsgs : Z;
  MaxBytes : Z;
  MaxAge : Z;
  MaxMsgSize : Z;
  Replicas : Z;
  DuplicateWindow : Z;
  AllowRollup : bool;
  AllowDirect : bool;
  DiscardPolicy : Nats.DiscardPolicy
}.

#[global] Instance StreamConfig_eq_dec : EqDecision StreamConfig.
Proof. solve_decision. Defined.

(** The handles [server], [nc] and [js] are pointers: [None] is nil.  What
    they point to is outside the struct: the JetStream server is passed
    next to it, the connection and the server process appear through the
    lifecycle steps taken on them. *)
Record EmbeddedNATS : Type := mkEmbeddedNATS {
  server : option unit;
  nc : option unit;
  js : option unit;
  config : Config;
  streams : gmap string StreamConfig
}.

Definition DefaultConfig : Config :=
  {| Port := 4222;
     WSPort := 8222;
     DataDir := "./data/nats";
     MaxMemory := 256 * 1024 * 1024;
     MaxFileStore := 2 * 1024 * 1024 * 1024;
     JetStreamDomain := "constellation";
     EnableTLS := false;
     TLSCert := "";
     TLSKey := "" |}.

Definition New (cfg : option Config) : EmbeddedNATS :=
  {| server := None; nc := None; js := None;
     config := match cfg with Some c => c | None => DefaultConfig end;
     streams := ∅ |}.

(** What starting the broker meets outside the program: whether the server
  can be created, whether it is ready in time, whether the client connects
  and whether it obtains a JetStream context ([None] is success, otherwise
  the error). *)
Record Boot : Type := mkBoot {
  new_server : option string;
  ready : bool;
  connected : option string;
  jetstream : option string
}.

(** [connect], followed by what it logs and returns. *)
Definition connect (en : EmbeddedNATS) (b : Boot) : EmbeddedNATS * option string :=
  match connected b with
  | Some err => (en, Some (Fmt.Sprintf "failed to connect to NATS: %w" [Fmt.Str err]))
  | None =>
      match jetstream b with
      | Some err =>
          (en, Some (Fmt.Sprintf "failed to create JetStream context: %w" [Fmt.Str err]))
      | None =>
          ({| server := server en; nc := Some tt; js := Some tt;
              config := config en; streams := streams en |}, None)
      end
  end.

Definition Start (en : EmbeddedNATS) (b : Boot)
  : EmbeddedNATS * list string * option string :=
  match new_server b with
  | Some err =>
      (en, [], Some (Fmt.Sprintf "failed to create NATS server: %w" [Fmt.Str err]))
  | None =>
      if negb (ready b) then (en, [], Some "NATS server not ready for connections")
      else
        let en := {| server := Some tt; nc := nc en; js := js en;
                     config := config en; streams := streams en |} in
        match connect en b with
        | (en, Some err) =>
            (en, [], Some (Fmt.Sprintf "failed to connect to embedded NATS: %w"
                             [Fmt.Str err]))
        | (en, None) =>
            (en,
             [Fmt.Sprintf "Embedded NATS server started on port %d"
                [Fmt.Int (Port (config en))]],
             None)
        end
  end.

(** The outcome of a method: the struct and the server after the call, the
      lines logged, and how the call ended: it returned nil ([Ok tt]), it
      returned an error, or it panicked. *)
Record Outcome : Type := mkOutcome {
  en_after : EmbeddedNATS;
  srv_after : Nats.JetStream;
  logged : list string;
  returned : res unit
}.

Definition with_stream (en : EmbeddedNATS) (sc : StreamConfig) : EmbeddedNATS :=
  {| server := server en; nc := nc en; js := js en; config := config en;
     streams := <[Name sc := sc]> (streams en) |}.

(** The [nats.StreamConfig] literal that [AddStream] fills in from its
    argument. *)
Definition nats_config (streamConfig : StreamConfig) : Nats.StreamConfig.t :=
  {| Nats.StreamConfig.Name := Name streamConfig;
     Nats.StreamConfig.Subjects := Subjects streamConfig;
     Nats.StreamConfig.Retention := Retention streamConfig;
     Nats.StreamConfig.MaxMsgs := MaxMsgs streamConfig;
     Nats.StreamConfig.MaxBytes := MaxBytes streamConfig;
     Nats.StreamConfig.MaxAge := MaxAge streamConfig;
     Nats.StreamConfig.MaxMsgSize := MaxMsgSize streamConfig;
     Nats.StreamConfig.Replicas := Replicas streamConfig;
     Nats.StreamConfig.Duplicates := DuplicateWindow streamConfig;
     Nats.StreamConfig.AllowRollup := AllowRollup streamConfig;
     Nats.StreamConfig.AllowDirect := AllowDirect streamConfig;
     Nats.StreamConfig.Discard := DiscardPolicy streamConfig |}.

Definition AddStream (en : EmbeddedNATS) (srv : Nats.JetStream)
    (streamConfig : StreamConfig) : Outcome :=
  match js en with
  | None => mkOutcome en srv [] (Error "JetStream not initialized")
  | Some _ =>
      let config := nats_config streamConfig in
      let finish srv' stream first_line :=
        mkOutcome (with_stream en streamConfig) srv'
          [ first_line;
            Fmt.Sprintf "Created stream: %s with subjects: %v"
              [Fmt.Str (Nats.StreamConfig.Name stream);
               Fmt.Strs (Nats.StreamConfig.Subjects stream)] ]
          (Ok tt) in
      match Nats.StreamInfo srv (Name streamConfig) with
      | Ok _ =>
          match Nats.UpdateStream srv config with
          | (srv', Ok stream) =>
              finish srv' stream
                (Fmt.Sprintf "Updated existing stream: %s" [Fmt.Str (Name streamConfig)])
          | (srv', Error err) | (srv', Panic err) =>
              mkOutcome en srv' []
                (Error (Fmt.Sprintf "failed to update stream %s: %w"
                          [Fmt.Str (Name streamConfig); Fmt.Str err]))
          end
      | Error _ | Panic _ =>
          match Nats.AddStream srv config with
          | (srv', Ok stream) =>
              finish srv' stream
                (Fmt.Sprintf "Created new stream: %s" [Fmt.Str (Name streamConfig)])
          | (srv', Error err) | (srv', Panic err) =>
              mkOutcome en srv' []
                (Error (Fmt.Sprintf "failed to add stream %s: %w"
                          [Fmt.Str (Name streamConfig); Fmt.Str err]))
          end
      end
  end.

(** The slice literal of [CreateConstellationStreams]. *)
Definition constellation_streams : list StreamConfig :=
  [ {| Name := "CONSTELLATION_ENTITIES";
       Subjects := ["constellation.entities.>"];
       Retention := Nats.LimitsPolicy;
       MaxMsgs := 100000;
       MaxBytes := 256 * 1024 * 1024;
       MaxAge := 7 * 24 * Time.Hour;
       MaxMsgSize := 1024 * 1024;
       Replicas := 1;
       DuplicateWindow := 2 * Time.Minute;
       AllowRollup := true;
       AllowDirect := true;
       DiscardPolicy := Nats.DiscardOld |};
    {| Name := "CONSTELLATION_EVENTS";
       Subjects := ["constellation.events.>"];
       Retention := Nats.WorkQueuePolicy;
       MaxMsgs := 50000;
       MaxBytes := 128 * 1024 * 1024;
       MaxAge := 24 * Time.Hour;
       MaxMsgSize := 256 * 1024;
       Replicas := 1;
       DuplicateWindow := 2 * Time.Minute;
       AllowRollup := false;
       AllowDirect := true;
       DiscardPolicy := Nats.DiscardOld |};
    {| Name := "CONSTELLATION_TELEMETRY";
       Subjects := ["constellation.telemetry.>"];
       Retention := Nats.InterestPolicy;
       MaxMsgs := 25000;
       MaxBytes := 64 * 1024 * 1024;
       MaxAge := 1 * Time.Hour;
       MaxMsgSize := 64 * 1024;
       Replicas := 1;
       DuplicateWindow := 30 * Time.Second;
       AllowRollup := true;
       AllowDirect := true;
       DiscardPolicy := Nats.DiscardOld |};
    {| Name := "CONSTELLATION_COMMANDS";
       Subjects := ["constellation.commands.>"];
       Retention := Nats.WorkQueuePolicy;
       MaxMsgs := 10000;
       MaxBytes := 32 * 1024 * 1024;
       MaxAge := 15 * Time.Minute;
       MaxMsgSize := 32 * 1024;
       Replicas := 1;
       DuplicateWindow := 1 * Time.Minute;
       AllowRollup := false;
       AllowDirect := false;
       DiscardPolicy := Nats.DiscardNew |} ].

(** The loop of [CreateConstellationStreams]: declare each stream in turn
    and return the first error. *)
Fixpoint add_streams (en : EmbeddedNATS) (srv : Nats.JetStream)
    (todo : list StreamConfig) : Outcome :=
  match todo with
  | [] => mkOutcome en srv [] (Ok tt)
  | stream :: rest =>
      let o := AddStream en srv stream in
      match returned o with
      | Error _ | Panic _ => o
      | Ok _ =>
          let o' := add_streams (en_after o) (srv_after o) rest in
          mkOutcome (en_after o') (srv_after o') (logged o ++ logged o') (returned o')
      end
  end.

Definition CreateConstellationStreams (en : EmbeddedNATS) (srv : Nats.JetStream)
  : Outcome :=
  add_streams en srv constellation_streams.

(** [PublishWithDedup] calls a method on [en.js] without a nil check: with
    a nil [js] the call panics. *)
Definition PublishWithDedup (en : EmbeddedNATS) (srv : Nats.JetStream)
    (subject data msgID : string) : Nats.JetStream * res unit :=
  let msg := Nats.NewMsg subject in
  let msg := {| Nats.Subject := Nats.Subject msg; Nats.Data := data;
                Nats.Header := Nats.Header msg |} in
  let msg := {| Nats.Subject := Nats.Subject msg; Nats.Data := Nats.Data msg;
                Nats.Header := <[Nats.MsgIdHdr := msgID]> (Nats.Header msg) |} in
  match js en with
  | None => (srv, Panic "invalid memory address or nil pointer dereference")
  | Some _ =>
      match Nats.PublishMsg srv msg with
      | (srv', Ok _) => (srv', Ok tt)
      | (srv', Error err) | (srv', Panic err) =>
          (srv', Error (Fmt.Sprintf "failed to publish message: %w" [Fmt.Str err]))
      end
  end.

(** The [nats.ConsumerConfig] literal of [CreateDurableConsumer]. *)
Definition consumer_config (consumerName filterSubject : string)
  : Nats.ConsumerConfig.t :=
  {| Nats.ConsumerConfig.Durable := consumerName;
     Nats.ConsumerConfig.FilterSubject := filterSubject;
     Nats.ConsumerConfig.AckPolicy := Nats.AckExplicitPolicy;
     Nats.ConsumerConfig.AckWait := 30 * Time.Second;
     Nats.ConsumerConfig.MaxDeliver := 3;
     Nats.ConsumerConfig.MaxAckPending := 1000;
     Nats.ConsumerConfig.DeliverPolicy := Nats.DeliverAllPolicy;
     Nats.ConsumerConfig.ReplayPolicy := Nats.ReplayInstantPolicy |}.

(** [CreateDurableConsumer] calls [en.js.ConsumerInfo] without a nil check:
    with a nil [js] the call panics. *)
Definition CreateDurableConsumer (en : EmbeddedNATS) (srv : Nats.JetStream)
    (streamName consumerName filterSubject : string) : Outcome :=
  let config := consumer_config consumerName filterSubject in
  match js en with
  | None =>
      mkOutcome en srv [] (Panic "invalid memory address or nil pointer dereference")
  | Some _ =>
      match Nats.ConsumerInfo srv streamName consumerName with
      | Ok _ =>
          mkOutcome en srv
            [Fmt.Sprintf "Durable consumer already exists: %s on stream: %s"
               [Fmt.Str consumerName; Fmt.Str streamName]]
            (Ok tt)
      | Error _ | Panic _ =>
          match Nats.AddConsumer srv streamName config with
          | (srv', Ok _) =>
              mkOutcome en srv'
                [Fmt.Sprintf "Created durable consumer: %s on stream: %s"
                   [Fmt.Str consumerName; Fmt.Str streamName]]
                (Ok tt)
          | (srv', Error err) | (srv', Panic err) =>
              mkOutcome en srv' []
                (Error (Fmt.Sprintf "failed to create consumer %s: %w"
                          [Fmt.Str consumerName; Fmt.Str err]))
          end
      end
  end.

Definition Connection (en : EmbeddedNATS) : option unit := nc en.

Definition JetStream (en : EmbeddedNATS) : option unit := js en.

(** [Shutdown]: close the client connection if there is one, then stop the
    server process if there is one and wait for it. *)
Definition Shutdown (en : EmbeddedNATS) : list Step :=
  (match nc en with
   | Some _ => [CloseConnection BrokerBootstrap]
   | None => []
   end)
  ++
  (match server en with
   | Some _ => [ServerShutdown; ServerWaitForShutdown]
   | None => []
   end).

End EmbeddedNats.

(* ===================================================================== *)
(** ** pkg/services/workers *)
(* ===================================================================== *)

Module Workers.

Record BaseWorker : Type := mkBaseWorker {
  name : string;
  nc : option unit;
  js : option unit;
  sub : option unit;
  consumer : string;
  stream : string;
  subject : string
}.

Definition NewBaseWorker (name : string) (nc js : option unit)
    (stream consumer subject : string) : BaseWorker :=
  {| name := name; nc := nc; js := js; sub := None;
     consumer := consumer; stream := stream; subject := subject |}.

Definition BaseWorker_Name (w : BaseWorker) : string := name w.

(** [Stop] drains the subscription when there is one; [drain] is what
    [Drain] answers. *)
Definition BaseWorker_Stop (w : BaseWorker) (drain : option string)
  : list Step * option string :=
  match sub w with
  | Some _ => ([DrainSubscription (name w)], drain)
  | None => ([], None)
  end.

(** *** The pull loop *)

(** A fetched message together with what its [Ack] will answer. *)
Record Delivery : Type := mkDelivery {
  msg : Nats.Msg;
  ack : option string
}.

(** What one turn of the loop finds: the context cancelled, or the answer
    of [Fetch]. *)
Inductive Observation : Type :=
  | Cancelled (err : string)
  | Fetched (msgs : list Delivery) (err : option string).

(** What a handler call does: the lines it logs and, when it panics, the
    panic value. *)
Record Handled : Type := mkHandled {
  lines : list string;
  panicked : option string
}.

Definition Handler : Type := Nats.Msg -> Handled.

(** What the worker does that others can see. *)
Inductive Effect : Type :=
  | Log (line : string)
  | Ack (m : Nats.Msg).

(** How a turn of the loop ends. *)
Inductive Next : Type :=
  | Continue
  | Return (err : string)
  | Unwind (panic : string).

(** [for _, msg := range msgs { handler(msg); msg.Ack() ... }] *)
Fixpoint range_msgs (w : BaseWorker) (handler : Handler) (msgs : list Delivery)
  : list Effect * Next :=
  match msgs with
  | [] => ([], Continue)
  | d :: rest =>
      let h := handler (msg d) in
      match panicked h with
      | Some p => (map Log (lines h), Unwind p)
      | None =>
          let acked :=
            Ack (msg d) ::
            match ack d with
            | Some err =>
                [Log (Fmt.Sprintf "[%s] Error acknowledging message: %v"
                        [Fmt.Str (name w); Fmt.Str err])]
            | None => []
            end in
          let '(effects, next) := range_msgs w handler rest in
          (map Log (lines h) ++ acked ++ effects, next)
      end
  end.

(** One turn of the [for { select { ... } }] loop. *)
Definition turn (w : BaseWorker) (handler : Handler) (o : Observation)
  : list Effect * Next :=
  match o with
  | Cancelled err =>
      ([Log (Fmt.Sprintf "[%s] Worker stopping" [Fmt.Str (name w)])], Return err)
  | Fetched msgs err =>
      match err with
      | Some e =>
          if String.eqb e Nats.ErrTimeout then range_msgs w handler msgs
          else ([Log (Fmt.Sprintf "[%s] Error fetching messages: %v"
                        [Fmt.Str (name w); Fmt.Str e])], Continue)
      | None => range_msgs w handler msgs
      end
  end.

(** How far the loop got on a finite run of observations. *)
Inductive LoopEnd : Type :=
  | Fetching
  | Returned (err : string)
  | Panicking (panic : string).

Fixpoint loop (w : BaseWorker) (handler : Handler) (run : list Observation)
  : list Effect * LoopEnd :=
  match run with
  | [] => ([], Fetching)
  | o :: rest =>
      match turn w handler o with
      | (effects, Continue) =>
          let '(later, e) := loop w handler rest in (effects ++ later, e)
      | (effects, Return err) => (effects, Returned err)
      | (effects, Unwind p) => (effects, Panicking p)
      end
  end.

(** [js.PullSubscribe] with [Bind(stream, consumer)] attaches to an existing
    durable consumer and fails when there is none.  The call is a method
    call on the interface value [js]: on a nil [js] it panics. *)
Definition PullSubscribe (js : option unit) (srv : Nats.JetStream)
    (stream consumer : string) : res unit :=
  match js with
  | None => Panic "invalid memory address or nil pointer dereference"
  | Some _ =>
      match Nats.ConsumerInfo srv stream consumer with
      | Ok _ => Ok tt
      | Error err => Error err
      | Panic p => Panic p
      end
  end.

Definition with_sub (w : BaseWorker) : BaseWorker :=
  {| name := name w; nc := nc w; js := js w; sub := Some tt;
     consumer := consumer w; stream := stream w; subject := subject w |}.

Definition processMessages (w : BaseWorker) (srv : Nats.JetStream)
    (handler : Handler) (run : list Observation)
  : BaseWorker * list Effect * LoopEnd :=
  match PullSubscribe (js w) srv (stream w) (consumer w) with
  | Error err => (w, [], Returned err)
  | Panic p => (w, [], Panicking p)
  | Ok _ =>
      let w := with_sub w in
      let '(effects, e) := loop w handler run in
      (w,
       Log (Fmt.Sprintf "[%s] Starting worker for stream: %s, consumer: %s"
              [Fmt.Str (name w); Fmt.Str (stream w); Fmt.Str (consumer w)])
       :: effects,
       e)
  end.

(** *** The four workers *)

Record TelemetryWorker : Type := mkTelemetryWorker { telemetry_base : BaseWorker }.
Record EntityWorker : Type := mkEntityWorker { entity_base : BaseWorker }.
Record EventWorker : Type := mkEventWorker { event_base : BaseWorker }.
Record CommandWorker : Type := mkCommandWorker { command_base : BaseWorker }.

Definition NewTelemetryWorker (nc js : option unit) : TelemetryWorker :=
  {| telemetry_base :=
       NewBaseWorker "TelemetryWorker" nc js Shared.StreamTelemetry
         Shared.ConsumerTelemetryProcessor Shared.SubjectTelemetryAll |}.

Definition NewEntityWorker (nc js : option unit) : EntityWorker :=
  {| entity_base :=
       NewBaseWorker "EntityWorker" nc js Shared.StreamEntities
         Shared.ConsumerEntityProcessor Shared.SubjectEntitiesAll |}.

Definition NewEventWorker (nc js : option unit) : EventWorker :=
  {| event_base :=
       NewBaseWorker "EventWorker" nc js Shared.StreamEvents
         Shared.ConsumerEventProcessor Shared.SubjectEventsAll |}.

Definition NewCommandWorker (nc js : option unit) : CommandWorker :=
  {| command_base :=
       NewBaseWorker "CommandWorker" nc js Shared.StreamCommands
         Shared.ConsumerCommandProcessor Shared.SubjectCommandsAll |}.

Section Handlers.

    (** encoding/json is taken as given: [json_Unmarshal] decodes a payload
        into a map or fails, [json_MarshalIndent] prints a decoded map. *)
Variable JSON : Type.
Variable json_Unmarshal : string -> option JSON.
Variable json_MarshalIndent : JSON -> string.

Definition telemetry_handler (w : TelemetryWorker) : Handler := fun m =>
  let n := BaseWorker_Name (telemetry_base w) in
  {| lines :=
       [ Fmt.Sprintf "[%s] Received telemetry message on subject: %s"
           [Fmt.Str n; Fmt.Str (Nats.Subject m)];
         match json_Unmarshal (Nats.Data m) with
         | None =>
             Fmt.Sprintf "[%s] Raw message data: %s" [Fmt.Str n; Fmt.Str (Nats.Data m)]
         | Some data =>
             Fmt.Sprintf ("[%s] Telemetry data:" +:+ String "010" "%s")
               [Fmt.Str n; Fmt.Str (json_MarshalIndent data)]
         end ];
     panicked := None |}.

Definition entity_handler (w : EntityWorker) : Handler := fun m =>
  let n := BaseWorker_Name (entity_base w) in
  {| lines :=
       [ Fmt.Sprintf "[%s] Received entity message on subject: %s"
           [Fmt.Str n; Fmt.Str (Nats.Subject m)];
         match json_Unmarshal (Nats.Data m) with
         | None =>
             Fmt.Sprintf "[%s] Raw message data: %s" [Fmt.Str n; Fmt.Str (Nats.Data m)]
         | Some data =>
             Fmt.Sprintf ("[%s] Entity data:" +:+ String "010" "%s")
               [Fmt.Str n; Fmt.Str (json_MarshalIndent data)]
         end ];
     panicked := None |}.

Definition event_handler (w : EventWorker) : Handler := fun m =>
  let n := BaseWorker_Name (event_base w) in
  {| lines :=
       [ Fmt.Sprintf "[%s] Received event message on subject: %s"
           [Fmt.Str n; Fmt.Str (Nats.Subject m)];
         match json_Unmarshal (Nats.Data m) with
         | None =>
             Fmt.Sprintf "[%s] Raw message data: %s" [Fmt.Str n; Fmt.Str (Nats.Data m)]
         | Some data =>
             Fmt.Sprintf ("[%s] Event data:" +:+ String "010" "%s")
               [Fmt.Str n; Fmt.Str (json_MarshalIndent data)]
         end ];
     panicked := None |}.

Definition command_handler (w : CommandWorker) : Handler := fun m =>
  let n := BaseWorker_Name (command_base w) in
  {| lines :=
       [ Fmt.Sprintf "[%s] Received command message on subject: %s"
           [Fmt.Str n; Fmt.Str (Nats.Subject m)];
         match json_Unmarshal (Nats.Data m) with
         | None =>
             Fmt.Sprintf "[%s] Raw message data: %s" [Fmt.Str n; Fmt.Str (Nats.Data m)]
         | Some data =>
             Fmt.Sprintf ("[%s] Command data:" +:+ String "010" "%s")
               [Fmt.Str n; Fmt.Str (json_MarshalIndent data)]
         end ];
     panicked := None |}.

    (** The [Worker] interface over its four implementations. *)
Inductive Worker : Type :=
  | OfTelemetry (w : TelemetryWorker)
  | OfEntity (w : EntityWorker)
  | OfEvent (w : EventWorker)
  | OfCommand (w : CommandWorker).

Definition base (w : Worker) : BaseWorker :=
  match w with
  | OfTelemetry w => telemetry_base w
  | OfEntity w => entity_base w
  | OfEvent w => event_base w
  | OfCommand w => command_base w
  end.

Definition handler_of (w : Worker) : Handler :=
  match w with
  | OfTelemetry w => telemetry_handler w
  | OfEntity w => entity_handler w
  | OfEvent w => event_handler w
  | OfCommand w => command_handler w
  end.

Definition Name (w : Worker) : string := BaseWorker_Name (base w).

Definition Stop (w : Worker) (drain : option string) : list Step * option string :=
  BaseWorker_Stop (base w) drain.

Definition Start (w : Worker) (srv : Nats.JetStream) (run : list Observation)
  : Worker * list Effect * LoopEnd :=
  let '(b, effects, e) := processMessages (base w) srv (handler_of w) run in
  (match w with
   | OfTelemetry _ => OfTelemetry {| telemetry_base := b |}
   | OfEntity _ => OfEntity {| entity_base := b |}
   | OfEvent _ => OfEvent {| event_base := b |}
   | OfCommand _ => OfCommand {| command_base := b |}
   end, effects, e).

    (** *** The manager *)

Record Manager : Type := mkManager {
  workers : list Worker;
  m_nc : option unit;
  m_js : option unit
}.

    (** [NewManager] takes the connection and the JetStream context from the
        embedded broker: the manager's [nc] is the broker's connection, not a
        second one. *)
Definition NewManager (natsClient : EmbeddedNats.EmbeddedNATS) : res Manager :=
  match EmbeddedNats.Connection natsClient with
  | None => Error "NATS connection not initialized"
  | Some c =>
      match EmbeddedNats.JetStream natsClient with
      | None => Error "JetStream not initialized"
      | Some j =>
          Ok {| workers := [ OfTelemetry (NewTelemetryWorker (Some c) (Some j));
                             OfEntity (NewEntityWorker (Some c) (Some j));
                             OfEvent (NewEventWorker (Some c) (Some j));
                             OfCommand (NewCommandWorker (Some c) (Some j)) ];
                m_nc := Some c;
                m_js := Some j |}
      end
  end.

    (** [Manager.Start] runs every worker in a goroutine of its own; [runs]
    gives, by worker name, what that worker's loop observes.  The workers
    afterwards carry the subscriptions their loops opened. *)
Definition Manager_Start (m : Manager) (srv : Nats.JetStream)
    (runs : string -> list Observation)
  : Manager * list (string * list Effect * LoopEnd) :=
  let started := map (fun w => Start w srv (runs (Name w))) (workers m) in
  ({| workers := map (fun r => fst (fst r)) started; m_nc := m_nc m; m_js := m_js m |},
   map (fun r => (Name (fst (fst r)), snd (fst r), snd r)) started).

(** The loop of [Manager.Stop] over the workers; [drain] gives, by worker
        name, what [Drain] answers. *)
Fixpoint stop_each (ws : list Worker) (drain : string -> option string)
  : list Step :=
  match ws with
  | [] => []
  | w :: rest =>
      let '(steps, err) := Stop w (drain (Name w)) in
      steps ++
      (match err with
       | Some e =>
           [LogLine (Fmt.Sprintf "Error stopping worker %s: %v"
                       [Fmt.Str (Name w); Fmt.Str e])]
       | None => []
       end) ++
      stop_each rest drain
  end.

Definition Manager_Stop (m : Manager) (drain : string -> option string)
  : list Step :=
  [LogLine "Stopping NATS workers..."; CancelWorkers]
  ++ stop_each (workers m) drain
  ++ [WaitWorkersStopped]
  ++ (match m_nc m with
      | Some _ => [CloseConnection WorkerManager]
      | None => []
      end)
  ++ [LogLine "All workers stopped"].

End Handlers.

End Workers.


(* ===================================================================== *)
(** ** database/sql, as far as the entity service uses it *)
(* ===================================================================== *)

(** A Go [interface{}] value as the service meets it: what encoding/json
    decodes a request body into, and the integers and strings the service
    itself passes as statement arguments. *)
#[warnings="-register-all"]
Inductive GoValue : Type :=
| VNil
| VBool (b : bool)
| VInt (z : Z)
| VFloat (bits : Z)
| VString (s : string)
| VArray (l : list GoValue)
| VMap (m : list (string * GoValue)).

Module Sql.

(** A row of the [entities] table, by column name. *)
Definition Row : Type := gmap string GoValue.

(** The arguments the driver can bind to a placeholder. *)
Definition bindable (v : GoValue) : bool :=
  match v with
  | VArray _ | VMap _ => false
  | _ => true
  end.

(** Whether a float64, given by its bits, is a NaN: the exponent is all ones
    and the fraction is not zero. *)
Definition is_nan (bits : Z) : bool :=
  Z.ltb (2047 * 2 ^ 52) (bits mod 2 ^ 63).

(** What SQLite stores for a bound value: a NaN is stored as NULL. *)
Definition stored (v : GoValue) : GoValue :=
  match v with
  | VFloat bits => if is_nan bits then VNil else v
  | _ => v
  end.

(** Whether two bound values are the same; slices and maps are never bound. *)
Definition same_value (a b : GoValue) : bool :=
  match a, b with
  | VNil, VNil => true
  | VBool x, VBool y => Bool.eqb x y
  | VInt x, VInt y => Z.eqb x y
  | VFloat x, VFloat y => Z.eqb x y
  | VString x, VString y => String.eqb x y
  | _, _ => false
  end.

Definition has (r : Row) (column : string) (v : GoValue) : bool :=
  match r !! column with
  | Some w => same_value w v
  | None => false
  end.

(** [SET c1 = ?, c2 = ?, ...] applied to one row, left to right. *)
Fixpoint assign (r : Row) (columns : list string) (values : list GoValue) : Row :=
  match columns, values with
  | c :: columns', v :: values' => assign (<[c := v]> r) columns' values'
  | _, _ => r
  end.

(** The statement
    [UPDATE entities SET c1 = ?, ..., cn = ? WHERE org_id = ? AND entity_id = ?]
    run with [args]: the table afterwards and the number of rows affected.
    The driver refuses a call whose arguments do not match the placeholders
    in number, or that holds a value it cannot bind. *)
Definition exec_update (table : list Row) (columns : list string)
    (args : list GoValue) : res (list Row * Z) :=
  let n := length columns in
  if negb (Nat.eqb (length args) (n + 2)) then
    Error (Fmt.Sprintf "sql: expected %d arguments, got %d"
             [Fmt.Int (Z.of_nat (n + 2)); Fmt.Int (Z.of_nat (length args))])
  else if negb (forallb bindable args) then
    Error "sql: converting argument type: unsupported type"
  else
    let values := take n args in
    let org := nth n args VNil in
    let ent := nth (S n) args VNil in
    let hit (r : Row) := has r "org_id" org && has r "entity_id" ent in
    Ok (map (fun r => if hit r then assign r columns values else r) table,
        Z.of_nat (length (List.filter hit table))).

(** [SELECT ... FROM entities WHERE org_id = ? AND entity_id = ?], first row. *)
Definition query_row (table : list Row) (org ent : string) : option Row :=
  List.find (fun r => has r "org_id" (VString org) && has r "entity_id" (VString ent))
            table.

End Sql.

(* ===================================================================== *)
(** ** api/services: the entity service *)
(* ===================================================================== *)

Module Services.

(** An [interface{}] stored in an event's [Data]: a string field or the
    entity itself. *)
Inductive DataValue : Type :=
| DString (s : string)
| DEntity (e : Ontology.Entity).

(** [shared.Event]. *)
Record Event : Type := mkEvent {
  ID : string;
  Type_ : string;
  Subject : string;
  Data : gmap string DataValue;
  Timestamp : Z;
  Source : string
}.

Record EntityService : Type := mkEntityService {
  db : list Sql.Row;
  nats : option EmbeddedNats.EmbeddedNATS
}.

(** What a call reads from outside: a fresh UUID and the two readings of the
    clock, [time.Now().UTC()] for the event and [time.Now().UnixNano()] for
    the message identifier. *)
Record Ambient : Type := mkAmbient {
  uuid : string;
  now_utc : Z;
  now_nano : Z
}.

(** What [publishEntityEvent] hands to [PublishWithDedup]. *)
Record Publish : Type := mkPublish {
  to_subject : string;
  payload : string;
  dedup_key : string
}.

Record Published : Type := mkPublished {
  srv_after : Nats.JetStream;
  logged : list string;
  handed : option Publish
}.

(** The twelve keys [UpdateEntity] has a case for. *)
Definition recognized : list string :=
  [ "status"; "priority"; "entity_type"; "is_live";
    "latitude"; "longitude"; "altitude"; "heading"; "velocity";
    "metadata"; "components"; "tags" ].

Definition is_recognized (key : string) : bool :=
  existsb (String.eqb key) recognized.

Section Service.

(** encoding/json is taken as given. *)
Variable json_Marshal_event : Event -> res string.
Variable json_Marshal : GoValue -> string.

Definition msgID (entity : Ontology.Entity) (eventType : string) (nano : Z) : string :=
  Fmt.Sprintf "%s-%s-%d"
    [Fmt.Str (Ontology.EntityID entity); Fmt.Str eventType; Fmt.Int nano].

Definition publishEntityEvent (s : EntityService) (srv : Nats.JetStream)
    (amb : Ambient) (entity : Ontology.Entity) (eventType : string) : Published :=
  match nats s with
  | None => mkPublished srv ["NATS not available for publishing event"] None
  | Some en =>
      match EmbeddedNats.JetStream en with
      | None => mkPublished srv ["NATS not available for publishing event"] None
      | Some _ =>
          let data : gmap string DataValue :=
            <["priority" := DString (Ontology.Priority entity)]>
            (<["status" := DString (Ontology.Status entity)]>
            (<["entity_type" := DString (Ontology.EntityType entity)]>
            (<["org_id" := DString (Ontology.OrgID entity)]>
            (<["entity_id" := DString (Ontology.EntityID entity)]> ∅)))) in
          let event :=
            {| ID := uuid amb;
               Type_ := eventType;
               Subject := Shared.EntityCreatedSubject (Ontology.OrgID entity);
               Data := data;
               Timestamp := now_utc amb;
               Source := "entity-service" |} in
          let event :=
            if String.eqb eventType Shared.EventTypeCreated
               || String.eqb eventType Shared.EventTypeUpdated
            then {| ID := ID event; Type_ := Type_ event; Subject := Subject event;
                    Data := <["entity" := DEntity entity]> (Data event);
                    Timestamp := Timestamp event; Source := Source event |}
            else event in
          match json_Marshal_event event with
          | Error err | Panic err =>
              mkPublished srv
                [Fmt.Sprintf "Failed to marshal entity event: %v" [Fmt.Str err]] None
          | Ok data =>
              let id := msgID entity eventType (now_nano amb) in
              let handed := Some (mkPublish (Subject event) data id) in
              match EmbeddedNats.PublishWithDedup en srv (Subject event) data id with
              | (srv', Error err) | (srv', Panic err) =>
                  mkPublished srv'
                    [Fmt.Sprintf "Failed to publish entity event: %v" [Fmt.Str err]]
                    handed
              | (srv', Ok _) =>
                  mkPublished srv'
                    [Fmt.Sprintf "Published entity event: %s on subject: %s"
                       [Fmt.Str eventType; Fmt.Str (Subject event)]]
                    handed
              end
          end
      end
  end.

(** *** UpdateEntity *)

(** One pass of the [switch] in the loop over [updates]: the text appended to
    the query and the arguments appended to [args]. *)
Definition update_case (key : string) (value : GoValue) : string * list GoValue :=
  if existsb (String.eqb key) ["status"; "priority"; "entity_type"] then
    (Fmt.Sprintf ", %s = ?" [Fmt.Str key], [value])
  else if String.eqb key "is_live" then
    (", is_live = ?",
     match value with
     | VBool true => [VInt 1]
     | VBool false => [VInt 0]
     | _ => []
     end)
  else if existsb (String.eqb key)
            ["latitude"; "longitude"; "altitude"; "heading"; "velocity"] then
    (Fmt.Sprintf ", %s = ?" [Fmt.Str key], [value])
  else if existsb (String.eqb key) ["metadata"; "components"; "tags"] then
    (Fmt.Sprintf ", %s = ?" [Fmt.Str key], [VString (json_Marshal value)])
  else ("", []).

(** The loop over the map; [updates] lists its entries in the order the
    [range] statement visits them. *)
Fixpoint build_update (query : string) (args : list GoValue)
    (updates : list (string * GoValue)) : string * list GoValue :=
  match updates with
  | [] => (query, args)
  | (key, value) :: rest =>
      let '(text, more) := update_case key value in
      build_update (query +:+ text) (args ++ more) rest
  end.

(** The query text and the arguments handed to [db.Exec]. *)
Definition update_statement (now : string) (orgID entityID : string)
    (updates : list (string * GoValue)) : string * list GoValue :=
  let '(query, args) :=
    build_update "UPDATE entities SET updated_at = ?" [VString now] updates in
  (query +:+ " WHERE org_id = ? AND entity_id = ?",
   args ++ [VString orgID; VString entityID]).

(** The columns the SET clause of that text assigns, in order. *)
Definition set_columns (updates : list (string * GoValue)) : list string :=
  "updated_at" :: List.filter is_recognized (map fst updates).

(** The text of an UPDATE over the given columns. *)
Fixpoint assignments (columns : list string) : string :=
  match columns with
  | [] => ""
  | c :: rest => ", " +:+ c +:+ " = ?" +:+ assignments rest
  end.

Definition update_text (columns : list string) : string :=
  match columns with
  | [] => "UPDATE entities SET"
  | c :: rest => "UPDATE entities SET " +:+ c +:+ " = ?" +:+ assignments rest
  end +:+ " WHERE org_id = ? AND entity_id = ?".

(** The entries of an update whose key has a case. *)
Definition recognized_entries (updates : list (string * GoValue))
  : list (string * GoValue) :=
  List.filter (fun p => is_recognized (fst p)) updates.

Record Updated : Type := mkUpdated {
  db_after : list Sql.Row;
  result : res Sql.Row;
  spawned : option string
}.

(** [UpdateEntity] up to the point where it starts the publisher: [spawned]
    is the event kind given to [go s.publishEntityEvent].  [db.Exec] runs the
    statement whose text is [update_statement]; its SET clause assigns
    [set_columns]. *)
Definition UpdateEntity (s : EntityService) (now : string)
    (orgID entityID : string) (updates : list (string * GoValue)) : Updated :=
  if Nat.eqb (length updates) 0 then
    mkUpdated (db s) (Error "no updates provided") None
  else
    let '(query, args) := update_statement now orgID entityID updates in
    match Sql.exec_update (db s) (set_columns updates) args with
    | Error err | Panic err =>
        mkUpdated (db s)
          (Error (Fmt.Sprintf "failed to update entity: %w" [Fmt.Str err])) None
    | Ok (table, rowsAffected) =>
        if Z.eqb rowsAffected 0 then
          mkUpdated table (Error "entity not found") None
        else
          match Sql.query_row table orgID entityID with
          | None => mkUpdated table (Error "entity not found") None
          | Some row => mkUpdated table (Ok row) (Some Shared.EventTypeUpdated)
          end
    end.

End Service.

End Services.

(* ===================================================================== *)
(** ** The entry point: shutdown *)
(* ===================================================================== *)

Module Main.

(** The consumers [initNATS] provisions: stream, durable name, filter. *)
Definition consumers : list (string * string * string) :=
  [ (Shared.StreamEntities, Shared.ConsumerEntityProcessor, Shared.SubjectEntitiesAll);
    (Shared.StreamCommands, Shared.ConsumerCommandProcessor, Shared.SubjectCommandsAll);
    (Shared.StreamEvents, Shared.ConsumerEventProcessor, Shared.SubjectEventsAll);
    (Shared.StreamTelemetry, Shared.ConsumerTelemetryProcessor,
     Shared.SubjectTelemetryAll) ].

Fixpoint create_consumers (en : EmbeddedNats.EmbeddedNATS) (srv : Nats.JetStream)
    (todo : list (string * string * string)) : EmbeddedNats.Outcome :=
  match todo with
  | [] => EmbeddedNats.mkOutcome en srv [] (Ok tt)
  | (stream, consumer, filter) :: rest =>
      let o := EmbeddedNats.CreateDurableConsumer en srv stream consumer filter in
      match EmbeddedNats.returned o with
      | Error err =>
          EmbeddedNats.mkOutcome (EmbeddedNats.en_after o) (EmbeddedNats.srv_after o)
            (EmbeddedNats.logged o)
            (Error (Fmt.Sprintf "failed to create consumer %s: %w"
                      [Fmt.Str consumer; Fmt.Str err]))
      | Panic p => o
      | Ok _ =>
          let o' := create_consumers (EmbeddedNats.en_after o)
                      (EmbeddedNats.srv_after o) rest in
          EmbeddedNats.mkOutcome (EmbeddedNats.en_after o') (EmbeddedNats.srv_after o')
            (EmbeddedNats.logged o ++ EmbeddedNats.logged o')
            (EmbeddedNats.returned o')
      end
  end.

(** [initNATS]: start the embedded broker, declare the streams, provision the
    consumers.  [srv] is the JetStream state found in the data directory. *)
Definition initNATS (b : EmbeddedNats.Boot) (srv : Nats.JetStream)
  : EmbeddedNats.Outcome :=
  let config := EmbeddedNats.DefaultConfig in
  let config :=
    {| EmbeddedNats.Port := 4222;
       EmbeddedNats.WSPort := EmbeddedNats.WSPort config;
       EmbeddedNats.DataDir := "./data/nats";
       EmbeddedNats.MaxMemory := EmbeddedNats.MaxMemory config;
       EmbeddedNats.MaxFileStore := EmbeddedNats.MaxFileStore config;
       EmbeddedNats.JetStreamDomain := EmbeddedNats.JetStreamDomain config;
       EmbeddedNats.EnableTLS := EmbeddedNats.EnableTLS config;
       EmbeddedNats.TLSCert := EmbeddedNats.TLSCert config;
       EmbeddedNats.TLSKey := EmbeddedNats.TLSKey config |} in
  let nats := EmbeddedNats.New (Some config) in
  match EmbeddedNats.Start nats b with
  | (nats, lines, Some err) =>
      EmbeddedNats.mkOutcome nats srv lines
        (Error (Fmt.Sprintf "failed to start embedded NATS: %w" [Fmt.Str err]))
  | (nats, lines, None) =>
      let o := EmbeddedNats.CreateConstellationStreams nats srv in
      match EmbeddedNats.returned o with
      | Error err =>
          EmbeddedNats.mkOutcome (EmbeddedNats.en_after o) (EmbeddedNats.srv_after o)
            (lines ++ EmbeddedNats.logged o)
            (Error (Fmt.Sprintf "failed to create constellation streams: %w"
                      [Fmt.Str err]))
      | Panic p =>
          EmbeddedNats.mkOutcome (EmbeddedNats.en_after o) (EmbeddedNats.srv_after o)
            (lines ++ EmbeddedNats.logged o) (Panic p)
      | Ok _ =>
          let o' := create_consumers (EmbeddedNats.en_after o)
                      (EmbeddedNats.srv_after o) consumers in
          match EmbeddedNats.returned o' with
          | Error err =>
              EmbeddedNats.mkOutcome (EmbeddedNats.en_after o')
                (EmbeddedNats.srv_after o')
                (lines ++ EmbeddedNats.logged o ++ EmbeddedNats.logged o') (Error err)
          | Panic p =>
              EmbeddedNats.mkOutcome (EmbeddedNats.en_after o')
                (EmbeddedNats.srv_after o')
                (lines ++ EmbeddedNats.logged o ++ EmbeddedNats.logged o') (Panic p)
          | Ok _ =>
              EmbeddedNats.mkOutcome (EmbeddedNats.en_after o')
                (EmbeddedNats.srv_after o')
                (lines ++ EmbeddedNats.logged o ++ EmbeddedNats.logged o'
                 ++ ["NATS JetStream initialized successfully"])
                (Ok tt)
          end
      end
  end.

(** The tail of [main], after the signal: the HTTP server is shut down, the
    workers are stopped, the broker is shut down.  [http] is what the HTTP
    server's [Shutdown] answers; [Manager.Stop] and [EmbeddedNATS.Shutdown]
    always return nil. *)
Definition shutdown (workerManager : option Workers.Manager)
    (nats : option EmbeddedNats.EmbeddedNATS)
    (http : option string) (drain : string -> option string) : list Step :=
  [LogLine "Shutting down server..."; HTTPServerShutdown]
  ++ (match http with
      | Some err =>
          [LogLine (Fmt.Sprintf "Failed to shutdown server gracefully: %v" [Fmt.Str err])]
      | None => []
      end)
  ++ (match workerManager with
      | Some m => Workers.Manager_Stop m drain
      | None => []
      end)
  ++ (match nats with
      | Some en => EmbeddedNats.Shutdown en
      | None => []
      end)
  ++ [LogLine "Server shutdown complete"].

End Main.

(* ===================================================================== *)
(** ** The shutdown signal *)
(* ===================================================================== *)

Module Signals.

(** [EmbeddedNATS.Start] fills [server.Options] without [NoSigs], so the
    embedded server installs a handler of its own for SIGINT and SIGTERM,
    the signals [main] waits for.  On the signal that handler, in a goroutine
    of its own, calls [Shutdown] and [WaitForShutdown] on the server and then
    [os.Exit(0)], while [main] runs its shutdown path. *)
Inductive Actor : Type :=
| MainPath
| ServerHandler.

#[global] Instance Actor_eq_dec : EqDecision Actor.
Proof. solve_decision. Defined.

(** What is observed: a step taken by one of the two, or the end of the
    process, by [os.Exit] in the handler or by the return of [main]. *)
Inductive Event : Type :=
| Does (a : Actor) (s : Step)
| ProcessExit (a : Actor).

Definition handler : list Step := [ServerShutdown; ServerWaitForShutdown].

(** The two side by side; [schedule] says who moves next.  The observation
    ends with the process, or with the schedule. *)
Fixpoint interleave (schedule : list Actor) (path handler : list Step)
  : list Event :=
  match schedule with
  | [] => []
  | MainPath :: schedule' =>
      match path with
      | [] => [ProcessExit MainPath]
      | s :: path' => Does MainPath s :: interleave schedule' path' handler
      end
  | ServerHandler :: schedule' =>
      match handler with
      | [] => [ProcessExit ServerHandler]
      | s :: handler' => Does ServerHandler s :: interleave schedule' path handler'
      end
  end.

(** The steps one of the two takes in an observation, in order. *)
Definition steps_of (a : Actor) (trace : list Event) : list Step :=
  omap (fun e => match e with
                 | Does b s => if decide (a = b) then Some s else None
                 | ProcessExit _ => None
                 end) trace.

End Signals.


(* ===================================================================== *)
(** ** Fixed inputs for the examples *)
(* ===================================================================== *)

Module Examples.

(** A broker that came up, on an empty data directory. *)
Definition boot : EmbeddedNats.Boot :=
  {| EmbeddedNats.new_server := None; EmbeddedNats.ready := true;
     EmbeddedNats.connected := None; EmbeddedNats.jetstream := None |}.

Definition booted : EmbeddedNats.Outcome := Main.initNATS boot Nats.empty_server.

Definition en : EmbeddedNats.EmbeddedNATS := EmbeddedNats.en_after booted.

Definition srv : Nats.JetStream := EmbeddedNats.srv_after booted.

(** Stand-ins for encoding/json in the examples.  The decoder accepts the
    empty object and nothing else; the examples only feed it that payload
    and payloads that are not JSON at all.  The event encoder prints the
    identifier and the kind. *)
Definition decode (payload : string) : option unit :=
  if String.eqb payload "{}" then Some tt else None.

Definition indent (_ : unit) : string := "{}".

Definition encode_event (e : Services.Event) : res string :=
  Ok (Services.ID e +:+ " " +:+ Services.Type_ e).

Definition encode_value (v : GoValue) : string :=
  match v with
  | VString s => s
  | _ => "{}"
  end.

(** The worker manager over that broker, each worker having entered its
    loop and found nothing to fetch so far. *)
Definition manager : Workers.Manager :=
  match Workers.NewManager en with
  | Ok m => fst (Workers.Manager_Start unit decode indent m srv (fun _ => []))
  | _ => {| Workers.workers := []; Workers.m_nc := None; Workers.m_js := None |}
  end.

(** A handler that panics on the payload [boom] and logs nothing. *)
Definition fragile : Workers.Handler := fun m =>
  {| Workers.lines := [];
     Workers.panicked := if String.eqb (Nats.Data m) "boom" then Some "boom" else None |}.

Definition delivery (payload : string) : Workers.Delivery :=
  {| Workers.msg := {| Nats.Subject := "constellation.entities.org1.created";
                       Nats.Data := payload; Nats.Header := ∅ |};
     Workers.ack := None |}.

Definition entity_worker : Workers.Worker :=
  Workers.OfEntity (Workers.NewEntityWorker (Some tt) (Some tt)).

(** A table with one entity, and an update naming one column the service
    knows and one it does not. *)
Definition row : Sql.Row :=
  <["org_id" := VString "org1"]>
  (<["entity_id" := VString "e1"]>
  (<["status" := VString "unknown"]>
  (<["name" := VString "alpha"]> ∅))).

Definition stored : Services.EntityService :=
  {| Services.db := [row]; Services.nats := None |}.

Definition patch : list (string * GoValue) :=
  [("status", VString "active"); ("name", VString "beta")].

Definition entity : Ontology.Entity :=
  {| Ontology.EntityID := "e1";
     Ontology.OrgID := "org1";
     Ontology.EntityType := "drone";
     Ontology.Status := "active";
     Ontology.Priority := "normal";
     Ontology.IsLive := false;
     Ontology.Latitude := None;
     Ontology.Longitude := None;
     Ontology.Altitude := None;
     Ontology.Heading := None;
     Ontology.Velocity := None;
     Ontology.Components := "";
     Ontology.Tags := "";
     Ontology.Metadata := "{}";
     Ontology.CreatedAt := 0;
     Ontology.UpdatedAt := 0 |}.

Definition service : Services.EntityService :=
  {| Services.db := []; Services.nats := Some en |}.

Definition at_ (nano : Z) : Services.Ambient :=
  {| Services.uuid := "u"; Services.now_utc := nano; Services.now_nano := nano |}.

Definition publish (srv : Nats.JetStream) (nano : Z) (kind : string)
  : Services.Published :=
  Services.publishEntityEvent encode_event service srv (at_ nano) entity kind.

End Examples.

(* ===================================================================== *)
(** ** The tuning table of the design document *)
(* ===================================================================== *)

Module Tuning.

Definition KB : Z := 1024.
Definition MB : Z := 1024 * 1024.
Definition minute : Z := 60 * 1000000000.
Definition hour : Z := 60 * minute.
Definition day : Z := 24 * hour.

(** The settings the document lists for a stream. *)
Record Settings : Type := mkSettings {
  stream : string;
  retention : Nats.RetentionPolicy;
  discard : Nats.DiscardPolicy;
  messages : Z;
  bytes : Z;
  age : Z;
  message_size : Z
}.

Definition settings (sc : EmbeddedNats.StreamConfig) : Settings :=
  {| stream := EmbeddedNats.Name sc;
     retention := EmbeddedNats.Retention sc;
     discard := EmbeddedNats.DiscardPolicy sc;
     messages := EmbeddedNats.MaxMsgs sc;
     bytes := EmbeddedNats.MaxBytes sc;
     age := EmbeddedNats.MaxAge sc;
     message_size := EmbeddedNats.MaxMsgSize sc |}.

(** The table: keep-until-limit is [LimitsPolicy], work-queue is
    [WorkQueuePolicy], interest-based is [InterestPolicy]; discard-oldest is
    [DiscardOld], discard-newest is [DiscardNew]. *)
Definition documented : list Settings :=
  [ mkSettings Shared.StreamEntities Nats.LimitsPolicy Nats.DiscardOld
      100000 (256 * MB) (7 * day) (1 * MB);
    mkSettings Shared.StreamEvents Nats.WorkQueuePolicy Nats.DiscardOld
      50000 (128 * MB) (24 * hour) (256 * KB);
    mkSettings Shared.StreamTelemetry Nats.InterestPolicy Nats.DiscardOld
      25000 (64 * MB) (1 * hour) (64 * KB);
    mkSettings Shared.StreamCommands Nats.WorkQueuePolicy Nats.DiscardNew
      10000 (32 * MB) (15 * minute) (32 * KB) ].

(** The settings a stream definition of the server carries. *)
Definition held (cfg : Nats.StreamConfig.t) : Settings :=
  {| stream := Nats.StreamConfig.Name cfg;
     retention := Nats.StreamConfig.Retention cfg;
     discard := Nats.StreamConfig.Discard cfg;
     messages := Nats.StreamConfig.MaxMsgs cfg;
     bytes := Nats.StreamConfig.MaxBytes cfg;
     age := Nats.StreamConfig.MaxAge cfg;
     message_size := Nats.StreamConfig.MaxMsgSize cfg |}.

(** Whether a stream definition of the server is the supplied one, field by
    field. *)
Definition matches (sc : EmbeddedNats.StreamConfig) (cfg : Nats.StreamConfig.t)
  : Prop :=
  Nats.StreamConfig.Name cfg = EmbeddedNats.Name sc
  /\ Nats.StreamConfig.Subjects cfg = EmbeddedNats.Subjects sc
  /\ Nats.StreamConfig.Retention cfg = EmbeddedNats.Retention sc
  /\ Nats.StreamConfig.MaxMsgs cfg = EmbeddedNats.MaxMsgs sc
  /\ Nats.StreamConfig.MaxBytes cfg = EmbeddedNats.MaxBytes sc
  /\ Nats.StreamConfig.MaxAge cfg = EmbeddedNats.MaxAge sc
  /\ Nats.StreamConfig.MaxMsgSize cfg = EmbeddedNats.MaxMsgSize sc
  /\ Nats.StreamConfig.Replicas cfg = EmbeddedNats.Replicas sc
  /\ Nats.StreamConfig.Duplicates cfg = EmbeddedNats.DuplicateWindow sc
  /\ Nats.StreamConfig.AllowRollup cfg = EmbeddedNats.AllowRollup sc
  /\ Nats.StreamConfig.AllowDirect cfg = EmbeddedNats.AllowDirect sc
  /\ Nats.StreamConfig.Discard cfg = EmbeddedNats.DiscardPolicy sc.

(** The stream table after declaring a list of streams over [m]. *)
Definition declared (m : gmap string Nats.StreamConfig.t)
    (l : list EmbeddedNats.StreamConfig) : gmap string Nats.StreamConfig.t :=
  foldl (fun m sc => <[EmbeddedNats.Name sc := EmbeddedNats.nats_config sc]> m) m l.

(** A server that refuses no stream definition. *)
Definition takes_streams (srv : Nats.JetStream) : Prop :=
  forall streams cfg, Nats.stream_refused (Nats.js_refuses srv) streams cfg = None.

End Tuning.

(* ===================================================================== *)
(** ** Reading the effects of a batch *)
(* ===================================================================== *)

Module Batch.

(** The messages a run of effects acknowledges, in order. *)
Definition acks (effects : list Workers.Effect) : list Nats.Msg :=
  omap (fun e => match e with Workers.Ack m => Some m | Workers.Log _ => None end)
       effects.

(** Whether the handler returns normally on a message. *)
Definition handles (handler : Workers.Handler) (d : Workers.Delivery) : bool :=
  match Workers.panicked (handler (Workers.msg d)) with
  | None => true
  | Some _ => false
  end.

(** The deliveries of a batch that precede the first one on which the
    handler panics. *)
Fixpoint unpanicked (handler : Workers.Handler) (batch : list Workers.Delivery)
  : list Workers.Delivery :=
  match batch with
  | [] => []
  | d :: rest => if handles handler d then d :: unpanicked handler rest else []
  end.

(** The line a worker logs for a payload it cannot decode. *)
Definition raw_line (worker payload : string) : string :=
  "[" +:+ worker +:+ "] Raw message data: " +:+ payload.

End Batch.

(* ===================================================================== *)
(** ** Orders on the steps of shutdown *)
(* ===================================================================== *)

Module Order.

(** The rank of a step in the order the design document gives: cancel, wait
    for the workers, drain the subscriptions, close the connection, stop the
    broker.  Steps the document does not order have no rank. *)
Definition documented (s : Step) : option nat :=
  match s with
  | CancelWorkers => Some 0%nat
  | WaitWorkersStopped => Some 1%nat
  | DrainSubscription _ => Some 2%nat
  | CloseConnection _ => Some 3%nat
  | ServerShutdown | ServerWaitForShutdown => Some 4%nat
  | HTTPServerShutdown | LogLine _ => None
  end.

(** The rank of a step in the order the program follows: cancel, drain the
    subscriptions, wait for the workers, close the connection from the
    worker manager, close it again from the broker bootstrap, stop the
    broker, wait for it. *)
Definition performed (s : Step) : option nat :=
  match s with
  | CancelWorkers => Some 0%nat
  | DrainSubscription _ => Some 1%nat
  | WaitWorkersStopped => Some 2%nat
  | CloseConnection WorkerManager => Some 3%nat
  | CloseConnection BrokerBootstrap => Some 4%nat
  | ServerShutdown => Some 5%nat
  | ServerWaitForShutdown => Some 6%nat
  | HTTPServerShutdown | LogLine _ => None
  end.

Fixpoint nondecreasing (l : list nat) : bool :=
  match l with
  | a :: (b :: _) as rest => Nat.leb a b && nondecreasing rest
  | _ => true
  end.

(** A run of steps follows a ranking when the ranks it meets never go down. *)
Definition follows (rank : Step -> option nat) (steps : list Step) : bool :=
  nondecreasing (omap rank steps).

(** Whether a component closes the shared connection in a run of steps. *)
Definition closes (c : Component) (steps : list Step) : bool :=
  existsb (fun s => bool_decide (s = CloseConnection c)) steps.

(** The steps of a run that act on workers, connection or broker. *)
Definition acts (s : Step) : bool :=
  match s with
  | HTTPServerShutdown | LogLine _ => false
  | _ => true
  end.

(** The names of the workers that hold a subscription. *)
Definition subscribed (ws : list Workers.Worker) : list string :=
  map Workers.Name
    (List.filter (fun w => bool_decide (Workers.sub (Workers.base w) <> None)) ws).

End Order.

(* ===================================================================== *)
(** ** api/middleware: bearer authentication *)
(* ===================================================================== *)

Module Middleware.

(** [strings.Split(s, " ")]: the pieces of [s] between single spaces; the
    empty string gives one empty piece. *)
Fixpoint Split (s : string) : list string :=
  match s with
  | EmptyString => [""]
  | String c rest =>
      if Ascii.eqb c " "%char then "" :: Split rest
      else match Split rest with
           | [] => [String c ""]
           | piece :: pieces => String c piece :: pieces
           end
  end.

(** [strings.ToLower] on the letters A to Z; other bytes are kept.  No
    letter outside ASCII has a lower case among the letters of [bearer]. *)
Definition lower (c : Ascii.ascii) : Ascii.ascii :=
  let n := Ascii.N_of_ascii c in
  if (N.leb 65 n && N.leb n 90)%bool then Ascii.ascii_of_N (n + 32) else c.

Fixpoint ToLower (s : string) : string :=
  match s with
  | EmptyString => ""
  | String c rest => String (lower c) (ToLower rest)
  end.

Fixpoint no_space (s : string) : bool :=
  match s with
  | EmptyString => true
  | String c rest => negb (Ascii.eqb c " "%char) && no_space rest
  end.

(** What a middleware does with a request: hand it to the next handler or
    answer 401 with a message. *)
Inductive Verdict : Type :=
| Next
| Unauthorized (message : string).

(** The token requests must carry; [env] is the value of API_BEARER_TOKEN. *)
Definition validToken (env : string) : string :=
  if String.eqb env "" then "constellation-dev-token" else env.

(** [BearerAuth]; [authHeader] is the Authorization header, empty when the
    request has none. *)
Definition BearerAuth (env authHeader : string) : Verdict :=
  if String.eqb authHeader "" then Unauthorized "Missing authorization header"
  else
    let parts := Split authHeader in
    match parts with
    | [scheme; token] =>
        if negb (String.eqb (ToLower scheme) "bearer")
        then Unauthorized "Invalid authorization format"
        else if negb (String.eqb token (validToken env))
        then Unauthorized "Invalid token"
        else Next
    | _ => Unauthorized "Invalid authorization format"
    end.

Definition OptionalAuth (env authHeader : string) : Verdict :=
  if negb (String.eqb authHeader "") then BearerAuth env authHeader else Next.

End Middleware.

(* ===================================================================== *)
(** ** Health of the broker and of the service *)
(* ===================================================================== *)

Module Health.

(** [EmbeddedNATS.HealthCheck]; [connected] is what [nc.IsConnected]
    answers and [running] what [server.Running] answers. *)
Definition HealthCheck (en : EmbeddedNats.EmbeddedNATS) (connected running : bool)
  : option string :=
  match EmbeddedNats.nc en with
  | None => Some "NATS connection not initialized"
  | Some _ =>
      if negb connected then Some "NATS not connected"
      else match EmbeddedNats.server en with
           | Some _ => if negb running then Some "NATS server not running" else None
           | None => None
           end
  end.

(** [shared.HealthStatus], without the time stamp. *)
Record HealthStatus : Type := mkHealthStatus {
  Status : string;
  Service : string;
  Details : gmap string string
}.

(** The handler of [/health]: the status code and the body.  [ping] is what
    the database answers to [Ping]. *)
Definition Handler (ping : option string) (en : EmbeddedNats.EmbeddedNATS)
    (connected running : bool) : Z * HealthStatus :=
  let health := mkHealthStatus "healthy" "constellation-api" ∅ in
  let health :=
    match ping with
    | Some err =>
        mkHealthStatus "unhealthy" (Service health)
          (<["database" := "unhealthy: " +:+ err]> (Details health))
    | None =>
        mkHealthStatus (Status health) (Service health)
          (<["database" := "healthy"]> (Details health))
    end in
  let health :=
    match HealthCheck en connected running with
    | Some err =>
        mkHealthStatus "unhealthy" (Service health)
          (<["nats" := "unhealthy: " +:+ err]> (Details health))
    | None =>
        mkHealthStatus (Status health) (Service health)
          (<["nats" := "healthy"]> (Details health))
    end in
  let statusCode := if String.eqb (Status health) "unhealthy" then 503 else 200 in
  (statusCode, health).

End Health.

(* ===================================================================== *)
(** ** api/services: reading, creating and deleting entities *)
(* ===================================================================== *)

Module Entities.

(** [ontology.Position] and [ontology.CreateEntityRequest]. *)
Record Position : Type := mkPosition {
  Latitude : Z;
  Longitude : Z;
  Altitude : Z
}.

Record CreateEntityRequest : Type := mkCreateEntityRequest {
  EntityType : string;
  Status : string;
  Priority : string;
  Position_ : option Position;
  Metadata : option (list (string * GoValue))
}.

(** Whether a float64, given by its bits, equals zero: plus or minus zero. *)
Definition is_zero (bits : Z) : bool :=
  Z.eqb bits 0 || Z.eqb bits (2 ^ 63).

Definition ErrNoRows := "sql: no rows in result set".

(** What [Scan] fills in for a row of the SELECT of [GetEntity]. *)
Record Scanned : Type := mkScanned {
  entity_id : string;
  org_id : string;
  entity_type : string;
  status : string;
  priority : string;
  isLive : Z;
  lat : option Z;
  lon : option Z;
  alt : option Z;
  heading : option Z;
  velocity : option Z;
  components : string;
  tags : string;
  metadata : string;
  createdAt : string;
  updatedAt : string
}.

(** The two readings of the clock a call makes: the time and its RFC 3339
    text. *)
Record Clock : Type := mkClock {
  now : Z;
  now_text : string
}.

(** [DELETE FROM entities WHERE org_id = ? AND entity_id = ?]: the table
    afterwards and the number of rows affected. *)
Definition exec_delete (table : list Sql.Row) (org ent : string) : list Sql.Row * Z :=
  let hit (r : Sql.Row) :=
    Sql.has r "org_id" (VString org) && Sql.has r "entity_id" (VString ent) in
  (List.filter (fun r => negb (hit r)) table,
   Z.of_nat (length (List.filter hit table))).

Record Created : Type := mkCreated {
  created_db : list Sql.Row;
  created : res Ontology.Entity;
  created_spawned : option (Ontology.Entity * string)
}.

Record Deleted : Type := mkDeleted {
  deleted_db : list Sql.Row;
  deleted : option string;
  deleted_spawned : option (Ontology.Entity * string)
}.

Record StatusUpdated : Type := mkStatusUpdated {
  status_db : list Sql.Row;
  status_returned : option string;
  status_spawned : list string
}.

(** The body of an API answer: [shared.Response] with its status code. *)
Record Response : Type := mkResponse {
  StatusCode : Z;
  Success : bool;
  Code : string;
  Message : string
}.

Definition sendError (statusCode : Z) (code message : string) : Response :=
  mkResponse statusCode false code message.

Definition sendSuccess (statusCode : Z) : Response :=
  mkResponse statusCode true "" "".

Section Service.

(** The driver's conversion of a row into the scanned values, [time.Parse]
    with the RFC 3339 layout (the zero time when the text does not parse),
    and encoding/json are taken as given. *)
Variable scan : Sql.Row -> res Scanned.
Variable time_Parse : string -> Z.
Variable json_Marshal : GoValue -> string.

(** [scanEntity]; the scanner holds a row or, for [QueryRow] on no match,
    none. *)
Definition scanEntity (scanner : option Sql.Row) : res Ontology.Entity :=
  match
    match scanner with
    | None => Error ErrNoRows
    | Some row => scan row
    end
  with
  | Error err | Panic err =>
      Error (Fmt.Sprintf "failed to scan entity: %w" [Fmt.Str err])
  | Ok v =>
      Ok {| Ontology.EntityID := entity_id v;
            Ontology.OrgID := org_id v;
            Ontology.EntityType := entity_type v;
            Ontology.Status := status v;
            Ontology.Priority := priority v;
            Ontology.IsLive := Z.eqb (isLive v) 1;
            Ontology.Latitude := lat v;
            Ontology.Longitude := lon v;
            Ontology.Altitude := alt v;
            Ontology.Heading := heading v;
            Ontology.Velocity := velocity v;
            Ontology.Components := components v;
            Ontology.Tags := tags v;
            Ontology.Metadata := metadata v;
            Ontology.CreatedAt := time_Parse (createdAt v);
            Ontology.UpdatedAt := time_Parse (updatedAt v) |}
  end.

(** [GetEntity].  The test [err == sql.ErrNoRows] compares the error that
    [scanEntity] returned. *)
Definition GetEntity (s : Services.EntityService) (orgID entityID : string)
  : res Ontology.Entity :=
  match scanEntity (Sql.query_row (Services.db s) orgID entityID) with
  | Error err | Panic err =>
      if String.eqb err ErrNoRows then Error "entity not found" else Error err
  | Ok entity => Ok entity
  end.

(** [ListEntities]: the rows of the organisation, scanned in turn; the first
    row that does not scan ends the call. *)
Fixpoint scan_rows (rows : list Sql.Row) : res (list Ontology.Entity) :=
  match rows with
  | [] => Ok []
  | row :: rest =>
      match scanEntity (Some row) with
      | Error err | Panic err => Error err
      | Ok entity =>
          match scan_rows rest with
          | Ok entities => Ok (entity :: entities)
          | Error err | Panic err => Error err
          end
      end
  end.

Definition ListEntities (s : Services.EntityService) (orgID : string)
  : res (list Ontology.Entity) :=
  scan_rows (List.filter (fun r => Sql.has r "org_id" (VString orgID)) (Services.db s)).

(** [CreateEntity], up to the point where it starts the publisher.
    [entityID] is the fresh UUID and [insert] what the INSERT answers. *)
Definition CreateEntity (s : Services.EntityService) (entityID : string)
    (clock : Clock) (insert : option string) (orgID : string)
    (req : CreateEntityRequest) : Created :=
  let status := if negb (String.eqb (Status req) "") then Status req
                else Shared.StatusUnknown in
  let priority := if negb (String.eqb (Priority req) "") then Priority req
                  else Shared.PriorityNormal in
  let metadataJSON :=
    match Metadata req with
    | Some m => json_Marshal (VMap m)
    | None => "{}"
    end in
  let latitude :=
    match Position_ req with Some p => VFloat (Latitude p) | None => VNil end in
  let longitude :=
    match Position_ req with Some p => VFloat (Longitude p) | None => VNil end in
  let altitude :=
    match Position_ req with
    | Some p => if negb (is_zero (Altitude p)) then VFloat (Altitude p) else VNil
    | None => VNil
    end in
  match insert with
  | Some err =>
      mkCreated (Services.db s)
        (Error (Fmt.Sprintf "failed to create entity: %w" [Fmt.Str err])) None
  | None =>
      let row : Sql.Row :=
        <["updated_at" := VString (now_text clock)]>
        (<["created_at" := VString (now_text clock)]>
        (<["metadata" := VString metadataJSON]>
        (<["altitude" := Sql.stored altitude]>
        (<["longitude" := Sql.stored longitude]>
        (<["latitude" := Sql.stored latitude]>
        (<["priority" := VString priority]>
        (<["status" := VString status]>
        (<["entity_type" := VString (EntityType req)]>
        (<["org_id" := VString orgID]>
        (<["entity_id" := VString entityID]> ∅)))))))))) in
      let entity :=
        {| Ontology.EntityID := entityID;
           Ontology.OrgID := orgID;
           Ontology.EntityType := EntityType req;
           Ontology.Status := status;
           Ontology.Priority := priority;
           Ontology.IsLive := false;
           Ontology.Latitude :=
             match Position_ req with Some p => Some (Latitude p) | None => None end;
           Ontology.Longitude :=
             match Position_ req with Some p => Some (Longitude p) | None => None end;
           Ontology.Altitude :=
             match Position_ req with
             | Some p => if negb (is_zero (Altitude p)) then Some (Altitude p) else None
             | None => None
             end;
           Ontology.Heading := None;
           Ontology.Velocity := None;
           Ontology.Components := "";
           Ontology.Tags := "";
           Ontology.Metadata := metadataJSON;
           Ontology.CreatedAt := now clock;
           Ontology.UpdatedAt := now clock |} in
      mkCreated (Services.db s ++ [row]) (Ok entity)
        (Some (entity, Shared.EventTypeCreated))
  end.

(** [DeleteEntity], up to the point where it starts the publisher; [exec]
    is the error of the DELETE, if the database refuses it. *)
Definition DeleteEntity (s : Services.EntityService) (exec : option string)
    (orgID entityID : string) : Deleted :=
  match GetEntity s orgID entityID with
  | Error err | Panic err => mkDeleted (Services.db s) (Some err) None
  | Ok entity =>
      match exec with
      | Some err =>
          mkDeleted (Services.db s)
            (Some (Fmt.Sprintf "failed to delete entity: %w" [Fmt.Str err])) None
      | None =>
          let '(table, rowsAffected) := exec_delete (Services.db s) orgID entityID in
          if Z.eqb rowsAffected 0 then mkDeleted table (Some "entity not found") None
          else mkDeleted table None (Some (entity, Shared.EventTypeDeleted))
      end
  end.

(** [UpdateEntityStatus]: the events started are that of [UpdateEntity] and
    then the status change. *)
Definition UpdateEntityStatus (s : Services.EntityService) (now_text : string)
    (orgID entityID status : string) : StatusUpdated :=
  let updates := [("status", VString status)] in
  let u := Services.UpdateEntity json_Marshal s now_text orgID entityID updates in
  match Services.result u with
  | Error err | Panic err =>
      mkStatusUpdated (Services.db_after u) (Some err)
        (match Services.spawned u with Some k => [k] | None => [] end)
  | Ok _ =>
      mkStatusUpdated (Services.db_after u) None
        (match Services.spawned u with Some k => [k] | None => [] end
         ++ [Shared.EventTypeStatus])
  end.

(** *** The handlers of the entity routes *)

Definition Handlers_GetEntity (s : Services.EntityService) (orgID entityID : string)
  : Response :=
  if String.eqb orgID "" || String.eqb entityID "" then
    sendError 400 "MISSING_PARAMS" "org_id and entity_id are required"
  else
    match GetEntity s orgID entityID with
    | Error err | Panic err =>
        if String.eqb err "entity not found" then sendError 404 "NOT_FOUND" err
        else sendError 500 "GET_FAILED" err
    | Ok _ => sendSuccess 200
    end.

(** [body] is what decoding the request body gives. *)
Definition Handlers_UpdateEntity (s : Services.EntityService) (now_text : string)
    (orgID entityID : string) (body : res (list (string * GoValue)))
  : list Sql.Row * Response :=
  if String.eqb orgID "" || String.eqb entityID "" then
    (Services.db s, sendError 400 "MISSING_PARAMS" "org_id and entity_id are required")
  else
    match body with
    | Error err | Panic err => (Services.db s, sendError 400 "INVALID_REQUEST" err)
    | Ok updates =>
        let u := Services.UpdateEntity json_Marshal s now_text orgID entityID updates in
        match Services.result u with
        | Error err | Panic err =>
            (Services.db_after u,
             if String.eqb err "entity not found" then sendError 404 "NOT_FOUND" err
             else sendError 500 "UPDATE_FAILED" err)
        | Ok _ => (Services.db_after u, sendSuccess 200)
        end
    end.

Definition Handlers_DeleteEntity (s : Services.EntityService) (exec : option string)
    (orgID entityID : string) : list Sql.Row * Response :=
  if String.eqb orgID "" || String.eqb entityID "" then
    (Services.db s, sendError 400 "MISSING_PARAMS" "org_id and entity_id are required")
  else
    let d := DeleteEntity s exec orgID entityID in
    match deleted d with
    | Some err =>
        (deleted_db d,
         if String.eqb err "entity not found" then sendError 404 "NOT_FOUND" err
         else sendError 500 "DELETE_FAILED" err)
    | None => (deleted_db d, sendSuccess 200)
    end.

End Service.

End Entities.

(* ===================================================================== *)
(** ** Reading a run of the pull loop *)
(* ===================================================================== *)

Module Runs.

(** Whether the loop works through the batch of a fetch: it does unless the
    fetch answered an error other than the timeout. *)
Definition worked (err : option string) : bool :=
  match err with
  | None => true
  | Some e => String.eqb e Nats.ErrTimeout
  end.

(** The messages of the batches the loop works through, up to the first
    turn that finds the context cancelled. *)
Fixpoint delivered (run : list Workers.Observation) : list Nats.Msg :=
  match run with
  | [] => []
  | Workers.Cancelled _ :: _ => []
  | Workers.Fetched msgs err :: rest =>
      (if worked err then map Workers.msg msgs else []) ++ delivered rest
  end.

(** The error of the first cancellation in a run, if there is one. *)
Fixpoint cancellation (run : list Workers.Observation) : option string :=
  match run with
  | [] => None
  | Workers.Cancelled err :: _ => Some err
  | Workers.Fetched _ _ :: rest => cancellation rest
  end.

End Runs.

(* ===================================================================== *)
(** ** Reading the outcome of start-up *)
(* ===================================================================== *)

Module Startup.

(** Whether the broker comes up: the server is created and ready in time,
    the client connects and obtains a JetStream context. *)
Definition comes_up (b : EmbeddedNats.Boot) : bool :=
  match EmbeddedNats.new_server b, EmbeddedNats.connected b, EmbeddedNats.jetstream b with
  | None, None, None => EmbeddedNats.ready b
  | _, _, _ => false
  end.

(** A server that refuses no consumer. *)
Definition takes_consumers (srv : Nats.JetStream) : Prop :=
  forall streams consumers stream cfg,
    Nats.consumer_refused (Nats.js_refuses srv) streams consumers stream cfg = None.

End Startup.

(* ===================================================================== *)
(** ** Routing of subjects to the four streams *)
(* ===================================================================== *)

Module Routing.

(** The subject filters of the four streams, as [CreateConstellationStreams]
    declares them. *)
Definition filters : list string :=
  [ Shared.SubjectEntitiesAll; Shared.SubjectEventsAll;
    Shared.SubjectTelemetryAll; Shared.SubjectCommandsAll ].

(** The filters that admit a subject. *)
Definition admitting (subject : string) : list string :=
  List.filter (fun f => Nats.subject_matches f subject) filters.

Fixpoint no_dot (s : string) : bool :=
  match s with
  | EmptyString => true
  | String c rest => negb (Ascii.eqb c "."%char) && no_dot rest
  end.

(** The characters an identifier may hold to make one token of a subject:
    any but the dot, the wildcards and white space. *)
Definition ordinary (c : Ascii.ascii) : bool :=
  negb (existsb (Ascii.eqb c) ["."; "*"; ">"; " "; "009"; "010"; "013"]%char).

Fixpoint all_ordinary (s : string) : bool :=
  match s with
  | EmptyString => true
  | String c rest => ordinary c && all_ordinary rest
  end.

Definition plain (s : string) : bool :=
  negb (String.eqb s "") && all_ordinary s.

End Routing.

(* ===================================================================== *)
(** ** Reading the entities table *)
(* ===================================================================== *)

Module Rows.

(** Whether a row is the one of an entity of an organisation: the WHERE
    clause [org_id = ? AND entity_id = ?]. *)
Definition of_entity (org ent : string) (r : Sql.Row) : bool :=
  Sql.has r "org_id" (VString org) && Sql.has r "entity_id" (VString ent).

(** Whether an update carries an [is_live] that is not a boolean. *)
Definition odd_is_live (p : string * GoValue) : bool :=
  String.eqb (fst p) "is_live"
  && match snd p with VBool _ => false | _ => true end.

(** The column value that stores an optional float: NULL for an absent one
    and for a NaN. *)
Definition nullable (v : option Z) : GoValue :=
  match v with
  | Some bits => if Sql.is_nan bits then VNil else VFloat bits
  | None => VNil
  end.

End Rows.

(* ===================================================================== *)
(** ** More fixed inputs *)
(* ===================================================================== *)

Module Inputs.

Definition text (r : Sql.Row) (column : string) : option string :=
  match r !! column with
  | Some (VString s) => Some s
  | _ => None
  end.

(** A stand-in for the driver's [Scan] in the examples: it wants the
    identifiers as text and takes the other columns as they come, empty when
    absent. *)
Definition scan (r : Sql.Row) : res Entities.Scanned :=
  match text r "entity_id", text r "org_id" with
  | Some ent, Some org =>
      Ok {| Entities.entity_id := ent;
            Entities.org_id := org;
            Entities.entity_type := default "" (text r "entity_type");
            Entities.status := default "" (text r "status");
            Entities.priority := default "" (text r "priority");
            Entities.isLive := 0;
            Entities.lat := None;
            Entities.lon := None;
            Entities.alt := None;
            Entities.heading := None;
            Entities.velocity := None;
            Entities.components := default "" (text r "components");
            Entities.tags := default "" (text r "tags");
            Entities.metadata := default "" (text r "metadata");
            Entities.createdAt := default "" (text r "created_at");
            Entities.updatedAt := default "" (text r "updated_at") |}
  | _, _ => Error "sql: Scan error: converting NULL to string is unsupported"
  end.

(** A stand-in for [time.Parse]: every text reads as the zero time. *)
Definition parse (_ : string) : Z := 0.

End Inputs.

(* ===================================================================== *)
(** ** Formatting lemmas *)
(* ===================================================================== *)

Lemma append_empty_r (s : string) : s +:+ "" = s.
Proof.
  induction s as [|c s IH]; [reflexivity|].
  change (String c (s +:+ "") = String c s). now rewrite IH.
Qed.

Lemma append_assoc (a b c : string) : (a +:+ b) +:+ c = a +:+ (b +:+ c).
Proof.
  induction a as [|x a IH]; [reflexivity|].
  change (String x ((a +:+ b) +:+ c) = String x (a +:+ (b +:+ c))). now rewrite IH.
Qed.

Lemma EntityCreatedSubject_text (orgID : string) :
  Shared.EntityCreatedSubject orgID = "constellation.entities." +:+ orgID +:+ ".created".
Proof. reflexivity. Qed.

Lemma msgID_text (marshal : Services.Event -> res string)
    (e : Ontology.Entity) (kind : string) (nano : Z) :
  Services.msgID e kind nano
  = Ontology.EntityID e +:+ "-" +:+ kind +:+ "-" +:+ pretty nano.
Proof.
  unfold Services.msgID. cbn [Fmt.Sprintf Fmt.verb].
  rewrite append_empty_r. reflexivity.
Qed.

(** Whatever the event kind, what the publisher hands to the bridge carries
    the subject of creations and the key built from the clock. *)
Lemma publishEntityEvent_handed (marshal : Services.Event -> res string)
    (s : Services.EntityService) (srv : Nats.JetStream) (amb : Services.Ambient)
    (e : Ontology.Entity) (kind : string) (p : Services.Publish) :
  Services.handed (Services.publishEntityEvent marshal s srv amb e kind) = Some p ->
  Services.to_subject p = Shared.EntityCreatedSubject (Ontology.OrgID e)
  /\ Services.dedup_key p = Services.msgID e kind (Services.now_nano amb).
Proof.
  unfold Services.publishEntityEvent.
  destruct (Services.nats s) as [en|]; [|discriminate].
  destruct (EmbeddedNats.JetStream en); [|discriminate].
  match goal with |- context [marshal ?ev] => destruct (marshal ev) as [data|err|err] end;
    try discriminate.
  match goal with
  | |- context [EmbeddedNats.PublishWithDedup ?a ?b ?c ?d ?i] =>
      destruct (EmbeddedNats.PublishWithDedup a b c d i) as [srv' [done_|err|err]]
  end; cbn [Services.handed]; intros [= <-]; cbn [Services.to_subject Services.dedup_key];
    (split; [|reflexivity]);
    destruct (String.eqb kind Shared.EventTypeCreated || String.eqb kind Shared.EventTypeUpdated);
    reflexivity.
Qed.

(* ===================================================================== *)
(** ** C1: subjects of entity lifecycle events *)
(* ===================================================================== *)

(** C1.  The design says an update event is published on
    [constellation.entities.<org_id>.updated], a delete event on [.deleted]
    and a status change on [.status].  [publishEntityEvent] takes the subject
    from [EntityCreatedSubject] whatever the kind: for the entity [e1] of
    organisation [org1] the update, delete and status-change events are all
    handed to the bridge on [constellation.entities.org1.created], while the
    helpers written for those kinds give the subjects the design names. *)
Theorem C1_lifecycle_events_all_on_created_subject :
  (Services.to_subject <$> Services.handed (Examples.publish Examples.srv 100 Shared.EventTypeUpdated)
   = Some "constellation.entities.org1.created"
   /\ Services.to_subject <$> Services.handed (Examples.publish Examples.srv 100 Shared.EventTypeDeleted)
      = Some "constellation.entities.org1.created"
   /\ Services.to_subject <$> Services.handed (Examples.publish Examples.srv 100 Shared.EventTypeStatus)
      = Some "constellation.entities.org1.created")
  /\ Shared.EntityUpdatedSubject "org1" = "constellation.entities.org1.updated"
  /\ Shared.EntityDeletedSubject "org1" = "constellation.entities.org1.deleted"
  /\ Shared.EntityStatusSubject "org1" = "constellation.entities.org1.status".
Proof. repeat split; vm_compute; reflexivity. Qed.

(* ===================================================================== *)
(** ** C2: the deduplication key *)
(* ===================================================================== *)

(** C2, as stated, fails.  Two invocations for the same entity and the same
    event kind, one nanosecond apart, hand different keys to the bridge, and
    the stream keeps both messages. *)
Lemma C2_retry_carries_a_new_key :
  let first := Examples.publish Examples.srv 100 Shared.EventTypeCreated in
  let retry := Examples.publish (Services.srv_after first) 101 Shared.EventTypeCreated in
  Services.dedup_key <$> Services.handed first = Some "e1-created-100"
  /\ Services.dedup_key <$> Services.handed retry = Some "e1-created-101"
  /\ length (Nats.js_msgs (Services.srv_after first)) = 1%nat
  /\ length (Nats.js_msgs (Services.srv_after retry)) = 2%nat.
Proof. repeat split; vm_compute; reflexivity. Qed.

(** C2, amended.  The key handed to the bridge is
    [<entity_id>-<event_kind>-<nanoseconds>]: two invocations for the same
    entity identifier and the same event kind hand over the same key exactly
    when they read the same value from the nanosecond clock. *)
Theorem C2_same_key_iff_same_clock_reading
    (marshal : Services.Event -> res string)
    (s1 s2 : Services.EntityService) (srv1 srv2 : Nats.JetStream)
    (amb1 amb2 : Services.Ambient) (e1 e2 : Ontology.Entity) (kind : string)
    (p1 p2 : Services.Publish) :
  Ontology.EntityID e1 = Ontology.EntityID e2 ->
  Services.handed (Services.publishEntityEvent marshal s1 srv1 amb1 e1 kind) = Some p1 ->
  Services.handed (Services.publishEntityEvent marshal s2 srv2 amb2 e2 kind) = Some p2 ->
  Services.dedup_key p1 = Services.dedup_key p2
  <-> Services.now_nano amb1 = Services.now_nano amb2.
Proof.
  intros Hid H1 H2.
  apply publishEntityEvent_handed in H1 as [_ ->].
  apply publishEntityEvent_handed in H2 as [_ ->].
  rewrite !(msgID_text marshal), Hid.
  split.
  - intros H.
    repeat (apply String.app_inj in H).
    now apply (inj pretty) in H.
  - now intros ->.
Qed.

Lemma C2_same_key_iff_same_clock_reading_witness :
  Services.dedup_key
    (Services.mkPublish "constellation.entities.org1.created" "u created" "e1-created-100")
  = Services.dedup_key
      (Services.mkPublish "constellation.entities.org1.created" "u created" "e1-created-100")
  <-> Services.now_nano (Examples.at_ 100) = Services.now_nano (Examples.at_ 100).
Proof.
  apply (C2_same_key_iff_same_clock_reading Examples.encode_event
           Examples.service Examples.service Examples.srv Examples.srv
           (Examples.at_ 100) (Examples.at_ 100) Examples.entity Examples.entity
           Shared.EventTypeCreated).
  - reflexivity.
  - vm_compute. reflexivity.
  - vm_compute. reflexivity.
Defined.

(* ===================================================================== *)
(** ** C3: the order of shutdown *)
(* ===================================================================== *)

Lemma nondecreasing_through_ones (l rest : list nat) (a : nat) :
  (a <= 1)%nat -> Forall (eq 1%nat) l ->
  Order.nondecreasing (a :: l ++ 2%nat :: rest) = Order.nondecreasing (2%nat :: rest).
Proof.
  intros Ha Hl. revert a Ha.
  induction Hl as [|x l <- _ IH]; intros a Ha.
  - cbn [app Order.nondecreasing].
    replace (Nat.leb a 2) with true by (symmetry; apply Nat.leb_le; lia).
    reflexivity.
  - change (Nat.leb a 1 && Order.nondecreasing (1%nat :: l ++ 2%nat :: rest)
            = Order.nondecreasing (2%nat :: rest)).
    replace (Nat.leb a 1) with true by (symmetry; apply Nat.leb_le; lia).
    apply IH. lia.
Qed.

Lemma stop_each_ranks (ws : list Workers.Worker) (drain : string -> option string) :
  Forall (eq 1%nat) (omap Order.performed (Workers.stop_each ws drain)).
Proof.
  induction ws as [|w ws IH]; [constructor|].
  cbn [Workers.stop_each]. unfold Workers.Stop, Workers.BaseWorker_Stop.
  destruct (Workers.sub (Workers.base w));
    destruct (drain (Workers.Name w)); cbn; try constructor; auto.
Qed.

Lemma stop_each_acts (ws : list Workers.Worker) (drain : string -> option string) :
  List.filter Order.acts (Workers.stop_each ws drain)
  = map DrainSubscription (Order.subscribed ws).
Proof.
  induction ws as [|w ws IH]; [reflexivity|].
  cbn [Workers.stop_each]. unfold Workers.Stop, Workers.BaseWorker_Stop, Order.subscribed.
  cbn [List.filter].
  destruct (Workers.sub (Workers.base w)) as [[]|];
    destruct (drain (Workers.Name w)); cbn; rewrite IH; reflexivity.
Qed.

(** C3, as stated, fails.  With the four workers subscribed, shutdown drains
    the subscriptions before it waits for the workers, and the worker manager
    closes the shared connection before the broker bootstrap does. *)
Lemma C3_drain_precedes_wait_and_manager_closes :
  let steps :=
    Main.shutdown (Some Examples.manager) (Some Examples.en) None (fun _ => None) in
  List.filter Order.acts steps
  = [ CancelWorkers;
      DrainSubscription "TelemetryWorker"; DrainSubscription "EntityWorker";
      DrainSubscription "EventWorker"; DrainSubscription "CommandWorker";
      WaitWorkersStopped;
      CloseConnection WorkerManager; CloseConnection BrokerBootstrap;
      ServerShutdown; ServerWaitForShutdown ]
  /\ Order.follows Order.documented steps = false
  /\ Order.closes WorkerManager steps = true.
Proof. repeat split; vm_compute; reflexivity. Qed.

(** The order of the shutdown path of [main]: cancellation, then the drain of
    each subscription, then the wait for the workers, then the worker manager
    closes the connection, then the broker bootstrap closes it again, stops
    the server and waits for it. *)
Lemma shutdown_path_order (m : Workers.Manager) (en : EmbeddedNats.EmbeddedNATS)
    (http : option string) (drain : string -> option string) :
  let steps := Main.shutdown (Some m) (Some en) http drain in
  Order.follows Order.performed steps = true
  /\ List.filter Order.acts steps
     = [CancelWorkers]
       ++ map DrainSubscription (Order.subscribed (Workers.workers m))
       ++ [WaitWorkersStopped]
       ++ (if Workers.m_nc m is Some _ then [CloseConnection WorkerManager] else [])
       ++ (if EmbeddedNats.nc en is Some _ then [CloseConnection BrokerBootstrap] else [])
       ++ (if EmbeddedNats.server en is Some _
           then [ServerShutdown; ServerWaitForShutdown] else []).
Proof.
  cbn zeta. unfold Main.shutdown, Workers.Manager_Stop, EmbeddedNats.Shutdown, Order.follows.
  split.
  - rewrite !omap_app.
    destruct http, (Workers.m_nc m), (EmbeddedNats.nc en), (EmbeddedNats.server en);
      cbn [omap list_omap Order.performed app];
      rewrite <- ?app_assoc; cbn [app];
      rewrite (nondecreasing_through_ones _ _ 0%nat) by (auto using stop_each_ranks);
      reflexivity.
  - rewrite !List.filter_app, stop_each_acts.
    destruct http, (Workers.m_nc m), (EmbeddedNats.nc en), (EmbeddedNats.server en);
      cbn [List.filter Order.acts app]; rewrite <- ?app_assoc, ?app_nil_r;
      reflexivity.
Qed.

(** Of what [main] and the server's handler do side by side, the steps of
    each are an initial part of what it has to do. *)
Lemma interleave_prefixes (schedule : list Signals.Actor) (path handler : list Step) :
  Signals.steps_of Signals.MainPath (Signals.interleave schedule path handler)
    `prefix_of` path
  /\ Signals.steps_of Signals.ServerHandler (Signals.interleave schedule path handler)
       `prefix_of` handler.
Proof.
  revert path handler.
  induction schedule as [|[|] schedule IH]; intros path handler;
    cbn [Signals.interleave].
  - split; apply prefix_nil.
  - destruct path as [|s path]; [split; apply prefix_nil|].
    destruct (IH path handler) as [Hm Hh].
    split; [now apply prefix_cons | exact Hh].
  - destruct handler as [|s handler]; [split; apply prefix_nil|].
    destruct (IH path handler) as [Hm Hh].
    split; [exact Hm | now apply prefix_cons].
Qed.

(** The process ends once: nothing is observed after its exit, and the one
    that ends it has by then done all it had to do. *)
Lemma interleave_exit (schedule : list Signals.Actor) (path handler : list Step)
    (a : Signals.Actor) (before after : list Signals.Event) :
  Signals.interleave schedule path handler = before ++ Signals.ProcessExit a :: after ->
  after = []
  /\ Signals.steps_of a before
     = match a with Signals.MainPath => path | Signals.ServerHandler => handler end.
Proof.
  revert path handler before.
  induction schedule as [|[|] schedule IH]; intros path handler before;
    cbn [Signals.interleave].
  - now destruct before.
  - destruct path as [|s path].
    + destruct before as [|e [|e' before]]; intros [= <- <-]; auto.
    + destruct before as [|e before]; [discriminate|]. intros [= <- H].
      destruct (IH _ _ _ H) as [-> E]. split; [reflexivity|].
      unfold Signals.steps_of in *. destruct a; cbn [omap list_omap]; cbn;
        now rewrite E.
  - destruct handler as [|s handler].
    + destruct before as [|e [|e' before]]; intros [= <- <-]; auto.
    + destruct before as [|e before]; [discriminate|]. intros [= <- H].
      destruct (IH _ _ _ H) as [-> E]. split; [reflexivity|].
      unfold Signals.steps_of in *. destruct a; cbn [omap list_omap]; cbn;
        now rewrite E.
Qed.

(** C3, amended.  The shutdown path of [main] takes its steps in this order:
    cancellation is signalled to all workers, then the subscription of each
    worker that has one is drained, then it waits for every worker to report
    stopped, then the worker manager closes the shared client connection if
    it holds it, then the broker bootstrap closes that connection if it holds
    it, then it stops the broker if there is one and waits for it.  The
    embedded server handles the signal too: it stops the broker and ends
    the process on its own, side by side with that path.  So of the path an
    initial part is performed, in that order; the process ends once, by the
    return of [main] after the whole path or by the handler after it stopped
    the broker; and the broker can be stopped, and the process ended, before
    the first step of the path. *)
Theorem C3_shutdown_order (m : Workers.Manager) (en : EmbeddedNats.EmbeddedNATS)
    (http : option string) (drain : string -> option string)
    (schedule : list Signals.Actor) :
  let path := Main.shutdown (Some m) (Some en) http drain in
  let trace := Signals.interleave schedule path Signals.handler in
  (Order.follows Order.performed path = true
   /\ List.filter Order.acts path
      = [CancelWorkers]
        ++ map DrainSubscription (Order.subscribed (Workers.workers m))
        ++ [WaitWorkersStopped]
        ++ (if Workers.m_nc m is Some _ then [CloseConnection WorkerManager] else [])
        ++ (if EmbeddedNats.nc en is Some _ then [CloseConnection BrokerBootstrap] else [])
        ++ (if EmbeddedNats.server en is Some _
            then [ServerShutdown; ServerWaitForShutdown] else []))
  /\ Signals.steps_of Signals.MainPath trace `prefix_of` path
  /\ Signals.steps_of Signals.ServerHandler trace `prefix_of` Signals.handler
  /\ (forall a before after,
        trace = before ++ Signals.ProcessExit a :: after ->
        after = []
        /\ Signals.steps_of a before
           = match a with
             | Signals.MainPath => path
             | Signals.ServerHandler => Signals.handler
             end)
  /\ Signals.interleave
       [Signals.ServerHandler; Signals.ServerHandler; Signals.ServerHandler]
       path Signals.handler
     = [ Signals.Does Signals.ServerHandler ServerShutdown;
         Signals.Does Signals.ServerHandler ServerWaitForShutdown;
         Signals.ProcessExit Signals.ServerHandler ].
Proof.
  intros path trace.
  split; [apply shutdown_path_order|].
  split; [apply interleave_prefixes|].
  split; [apply interleave_prefixes|].
  split; [|reflexivity].
  intros a before after H. exact (interleave_exit _ _ _ _ _ _ H).
Qed.

(* ===================================================================== *)
(** ** The pull loop: batches *)
(* ===================================================================== *)

Section Loop.

Variable w : Workers.BaseWorker.
Variable handler : Workers.Handler.

Lemma range_msgs_app (l1 l2 : list Workers.Delivery) :
  snd (Workers.range_msgs w handler l1) = Workers.Continue ->
  Workers.range_msgs w handler (l1 ++ l2)
  = (fst (Workers.range_msgs w handler l1) ++ fst (Workers.range_msgs w handler l2),
     snd (Workers.range_msgs w handler l2)).
Proof.
  induction l1 as [|d l1 IH]; cbn [app Workers.range_msgs].
  - intros _. now destruct (Workers.range_msgs w handler l2).
  - destruct (Workers.panicked (handler (Workers.msg d))); [discriminate|].
    destruct (Workers.range_msgs w handler l1) as [e1 n1] eqn:E1.
    cbn [snd fst]. intros ->. rewrite IH by reflexivity.
    cbn [fst snd]. f_equal.
    rewrite <- app_assoc. f_equal. cbn [app]. f_equal.
    now rewrite <- app_assoc.
Qed.

Lemma range_msgs_handled (batch : list Workers.Delivery) :
  forallb (Batch.handles handler) batch = true ->
  snd (Workers.range_msgs w handler batch) = Workers.Continue.
Proof.
  induction batch as [|d batch IH]; cbn [forallb Workers.range_msgs]; [reflexivity|].
  unfold Batch.handles at 1.
  destruct (Workers.panicked (handler (Workers.msg d))); [discriminate|].
  cbn [andb]. intros H. specialize (IH H).
  destruct (Workers.range_msgs w handler batch). exact IH.
Qed.

Lemma acks_app (a b : list Workers.Effect) :
  Batch.acks (a ++ b) = Batch.acks a ++ Batch.acks b.
Proof. apply omap_app. Qed.

Lemma acks_logs (ls : list string) : Batch.acks (map Workers.Log ls) = [].
Proof. induction ls as [|l ls IH]; [reflexivity | exact IH]. Qed.

Lemma acks_range_msgs (batch : list Workers.Delivery) :
  Batch.acks (fst (Workers.range_msgs w handler batch))
  = map Workers.msg (Batch.unpanicked handler batch).
Proof.
  induction batch as [|d batch IH]; cbn [Workers.range_msgs Batch.unpanicked];
    [reflexivity|].
  unfold Batch.handles.
  destruct (Workers.panicked (handler (Workers.msg d))).
  - cbn [fst]. apply acks_logs.
  - destruct (Workers.range_msgs w handler batch) as [effects next].
    cbn [fst] in *. rewrite acks_app, acks_logs. cbn [app map].
    change (Workers.Ack (Workers.msg d) :: ?l ++ effects)
      with ([Workers.Ack (Workers.msg d)] ++ l ++ effects).
    rewrite !acks_app, IH.
    destruct (Workers.ack d); reflexivity.
Qed.

Lemma unpanicked_all (batch : list Workers.Delivery) :
  forallb (Batch.handles handler) batch = true ->
  Batch.unpanicked handler batch = batch.
Proof.
  induction batch as [|d batch IH]; cbn [forallb Batch.unpanicked]; [reflexivity|].
  destruct (Batch.handles handler d); [|discriminate].
  cbn [andb]. intros H. now rewrite IH.
Qed.

Lemma range_msgs_unwinds (batch : list Workers.Delivery) :
  forallb (Batch.handles handler) batch = false ->
  exists p, snd (Workers.range_msgs w handler batch) = Workers.Unwind p.
Proof.
  induction batch as [|d batch IH]; cbn [forallb Workers.range_msgs]; [discriminate|].
  unfold Batch.handles at 1.
  destruct (Workers.panicked (handler (Workers.msg d))) as [p|].
  - intros _. now exists p.
  - cbn [andb]. intros H. destruct (IH H) as [p Hp].
    destruct (Workers.range_msgs w handler batch). now exists p.
Qed.

End Loop.

(* ===================================================================== *)
(** ** C4: acknowledgments within a batch *)
(* ===================================================================== *)

(** C4, as stated, fails.  In a batch of three where the handler panics on
    the second message, the third is never acknowledged although the handler
    would return normally on it: the panic unwinds out of the loop. *)
Lemma C4_panic_leaves_the_rest_unacknowledged :
  let batch := [Examples.delivery "a"; Examples.delivery "boom"; Examples.delivery "c"] in
  let done_ := Workers.range_msgs (Workers.base Examples.entity_worker)
                 Examples.fragile batch in
  Batch.handles Examples.fragile (Examples.delivery "c") = true
  /\ Batch.acks (fst done_) = [Workers.msg (Examples.delivery "a")]
  /\ snd done_ = Workers.Unwind "boom".
Proof. repeat split; vm_compute; reflexivity. Qed.

(** C4, amended.  For every fetched batch the worker attempts to acknowledge,
    in batch order, exactly the messages that precede the first one on which
    the handler panics.  When the handler panics on none, that is every
    message of the batch, whatever the handler made of the payload and
    whatever earlier acknowledgments answered, and the loop goes on; a panic
    is not recovered and unwinds the loop. *)
Theorem C4_acknowledges_up_to_the_first_panic
    (w : Workers.BaseWorker) (handler : Workers.Handler)
    (batch : list Workers.Delivery) :
  let done_ := Workers.range_msgs w handler batch in
  Batch.acks (fst done_) = map Workers.msg (Batch.unpanicked handler batch)
  /\ if forallb (Batch.handles handler) batch
     then Batch.acks (fst done_) = map Workers.msg batch
          /\ snd done_ = Workers.Continue
     else exists p, snd done_ = Workers.Unwind p.
Proof.
  cbn zeta. split; [apply acks_range_msgs|].
  destruct (forallb (Batch.handles handler) batch) eqn:E.
  - split; [|now apply range_msgs_handled].
    now rewrite acks_range_msgs, unpanicked_all.
  - now apply range_msgs_unwinds.
Qed.

(* ===================================================================== *)
(** ** C7: payloads that do not decode *)
(* ===================================================================== *)

Section Decoding.

Variable JSON : Type.
Variable json_Unmarshal : string -> option JSON.
Variable json_MarshalIndent : JSON -> string.

Lemma handler_of_returns (w : Workers.Worker) (m : Nats.Msg) :
  Workers.panicked (Workers.handler_of JSON json_Unmarshal json_MarshalIndent w m) = None.
Proof. destruct w; reflexivity. Qed.

Lemma handler_of_handles (w : Workers.Worker) (batch : list Workers.Delivery) :
  forallb (Batch.handles (Workers.handler_of JSON json_Unmarshal json_MarshalIndent w))
          batch = true.
Proof.
  induction batch as [|d batch IH]; [reflexivity|].
  cbn [forallb]. unfold Batch.handles at 1.
  now rewrite handler_of_returns.
Qed.

(** What a worker logs for a message whose payload does not decode. *)
Lemma handler_of_undecodable (w : Workers.Worker) (m : Nats.Msg) :
  json_Unmarshal (Nats.Data m) = None ->
  exists received,
    Workers.lines (Workers.handler_of JSON json_Unmarshal json_MarshalIndent w m)
    = [received; Batch.raw_line (Workers.Name w) (Nats.Data m)].
Proof.
  intros H. destruct w as [t|t|t|t];
    cbn [Workers.handler_of Workers.telemetry_handler Workers.entity_handler
         Workers.event_handler Workers.command_handler Workers.lines];
    rewrite H; eexists; f_equal; f_equal;
    cbn [Fmt.Sprintf Fmt.verb]; rewrite append_empty_r; reflexivity.
Qed.

(** C7.  When a fetch brings a message whose payload fails JSON decoding, the
    worker logs the raw bytes and then acknowledges the message, the turn of
    the loop ends normally, and the loop goes on with what it observes next. *)
Theorem C7_undecodable_payload_logged_and_acknowledged
    (w : Workers.Worker) (before after : list Workers.Delivery)
    (d : Workers.Delivery) (err : option string) (rest : list Workers.Observation) :
  json_Unmarshal (Nats.Data (Workers.msg d)) = None ->
  err = None \/ err = Some Nats.ErrTimeout ->
  let handler := Workers.handler_of JSON json_Unmarshal json_MarshalIndent w in
  let o := Workers.Fetched (before ++ d :: after) err in
  (exists pre post,
     Workers.turn (Workers.base w) handler o
     = (pre ++ [ Workers.Log (Batch.raw_line (Workers.Name w) (Nats.Data (Workers.msg d)));
                 Workers.Ack (Workers.msg d) ] ++ post,
        Workers.Continue))
  /\ Workers.loop (Workers.base w) handler (o :: rest)
     = (fst (Workers.turn (Workers.base w) handler o)
        ++ fst (Workers.loop (Workers.base w) handler rest),
        snd (Workers.loop (Workers.base w) handler rest)).
Proof.
  intros Hbad Herr handler o. subst o.
  assert (Hturn : Workers.turn (Workers.base w) handler
                    (Workers.Fetched (before ++ d :: after) err)
                  = Workers.range_msgs (Workers.base w) handler (before ++ d :: after)).
  { destruct Herr as [-> | ->]; reflexivity. }
  assert (Hall : forall l, snd (Workers.range_msgs (Workers.base w) handler l)
                           = Workers.Continue).
  { intros l. apply range_msgs_handled, handler_of_handles. }
  destruct (handler_of_undecodable w (Workers.msg d) Hbad) as [received Hlines].
  assert (Hd : Workers.range_msgs (Workers.base w) handler (d :: after)
               = ([Workers.Log received]
                  ++ [ Workers.Log (Batch.raw_line (Workers.Name w)
                                      (Nats.Data (Workers.msg d)));
                       Workers.Ack (Workers.msg d) ]
                  ++ (match Workers.ack d with
                      | Some e =>
                          [Workers.Log
                             (Fmt.Sprintf "[%s] Error acknowledging message: %v"
                                [Fmt.Str (Workers.name (Workers.base w)); Fmt.Str e])]
                      | None => []
                      end
                      ++ fst (Workers.range_msgs (Workers.base w) handler after)),
                  Workers.Continue)).
  { cbn [Workers.range_msgs].
    pose proof (Hall after) as Hafter.
    destruct (Workers.range_msgs (Workers.base w) handler after) as [ea na].
    cbn [snd] in Hafter. subst na.
    unfold handler. rewrite handler_of_returns, Hlines. reflexivity. }
  assert (Hexists : exists pre post,
    Workers.turn (Workers.base w) handler (Workers.Fetched (before ++ d :: after) err)
    = (pre ++ [ Workers.Log (Batch.raw_line (Workers.Name w) (Nats.Data (Workers.msg d)));
                Workers.Ack (Workers.msg d) ] ++ post,
       Workers.Continue)).
  { rewrite Hturn, range_msgs_app by apply Hall.
    rewrite Hd. cbn [fst snd].
    exists (fst (Workers.range_msgs (Workers.base w) handler before)
            ++ [Workers.Log received]).
    eexists. f_equal. rewrite <- app_assoc. reflexivity. }
  split; [exact Hexists|].
  destruct Hexists as (pre & post & E).
  cbn [Workers.loop]. rewrite E. cbn [fst].
  now destruct (Workers.loop (Workers.base w) handler rest).
Qed.

End Decoding.

Lemma C7_undecodable_payload_logged_and_acknowledged_witness :
  let d := Examples.delivery "not json" in
  let handler := Workers.handler_of unit Examples.decode Examples.indent
                   Examples.entity_worker in
  let o := Workers.Fetched ([] ++ d :: []) None in
  Examples.decode (Nats.Data (Workers.msg d)) = None
  /\ (exists pre post,
        Workers.turn (Workers.base Examples.entity_worker) handler o
        = (pre ++ [ Workers.Log (Batch.raw_line "EntityWorker" "not json");
                    Workers.Ack (Workers.msg d) ] ++ post,
           Workers.Continue))
  /\ Workers.loop (Workers.base Examples.entity_worker) handler (o :: [])
     = (fst (Workers.turn (Workers.base Examples.entity_worker) handler o)
        ++ fst (Workers.loop (Workers.base Examples.entity_worker) handler []),
        snd (Workers.loop (Workers.base Examples.entity_worker) handler [])).
Proof.
  split; [reflexivity|].
  apply (C7_undecodable_payload_logged_and_acknowledged unit Examples.decode
           Examples.indent Examples.entity_worker [] []
           (Examples.delivery "not json") None []).
  - reflexivity.
  - left. reflexivity.
Defined.

(* ===================================================================== *)
(** ** C8: a fetch that times out empty *)
(* ===================================================================== *)

(** C8.  In a turn of the loop where the fetch answers a timeout with no
    messages, the worker logs nothing, acknowledges nothing and goes straight
    to the next turn: the loop behaves as if the turn had not been there. *)
Theorem C8_empty_timeout_is_silent
    (w : Workers.BaseWorker) (handler : Workers.Handler)
    (rest : list Workers.Observation) :
  let o := Workers.Fetched [] (Some Nats.ErrTimeout) in
  Workers.turn w handler o = ([], Workers.Continue)
  /\ Batch.acks (fst (Workers.turn w handler o)) = []
  /\ Workers.loop w handler (o :: rest) = Workers.loop w handler rest.
Proof.
  cbn zeta.
  assert (E : Workers.turn w handler (Workers.Fetched [] (Some Nats.ErrTimeout))
              = ([], Workers.Continue)) by reflexivity.
  split; [exact E|]. split; [now rewrite E|].
  cbn [Workers.loop]. rewrite E.
  now destruct (Workers.loop w handler rest).
Qed.

(* ===================================================================== *)
(** ** C5: declaring a stream *)
(* ===================================================================== *)

(** What [AddStream] leaves behind.  It touches neither consumers nor
    messages; when it returns nil the supplied definition is under the
    stream's name, on the server and in the registry; when it returns an
    error nothing has changed. *)
Lemma AddStream_outcome (en : EmbeddedNats.EmbeddedNATS) (srv : Nats.JetStream)
    (sc : EmbeddedNats.StreamConfig) :
  EmbeddedNats.js en = Some tt ->
  let o := EmbeddedNats.AddStream en srv sc in
  Nats.js_consumers (EmbeddedNats.srv_after o) = Nats.js_consumers srv
  /\ Nats.js_msgs (EmbeddedNats.srv_after o) = Nats.js_msgs srv
  /\ Nats.js_refuses (EmbeddedNats.srv_after o) = Nats.js_refuses srv
  /\ EmbeddedNats.srv_after o
     = match Nats.js_streams srv !! EmbeddedNats.Name sc with
       | Some _ => fst (Nats.UpdateStream srv (EmbeddedNats.nats_config sc))
       | None => fst (Nats.AddStream srv (EmbeddedNats.nats_config sc))
       end
  /\ match EmbeddedNats.returned o with
     | Ok _ =>
         EmbeddedNats.returned o = Ok tt
         /\ EmbeddedNats.en_after o = EmbeddedNats.with_stream en sc
         /\ Nats.js_streams (EmbeddedNats.srv_after o)
            = <[EmbeddedNats.Name sc := EmbeddedNats.nats_config sc]> (Nats.js_streams srv)
     | Error _ =>
         EmbeddedNats.en_after o = en /\ EmbeddedNats.srv_after o = srv
         /\ Nats.stream_refused (Nats.js_refuses srv) (Nats.js_streams srv)
              (EmbeddedNats.nats_config sc) <> None
     | Panic _ => False
     end.
Proof.
  intros Hjs. cbn zeta. unfold EmbeddedNats.AddStream. rewrite Hjs.
  unfold Nats.StreamInfo, Nats.UpdateStream, Nats.AddStream.
  change (Nats.StreamConfig.Name (EmbeddedNats.nats_config sc))
    with (EmbeddedNats.Name sc).
  destruct (Nats.js_streams srv !! EmbeddedNats.Name sc) as [old|] eqn:E.
  - destruct (decide (old = EmbeddedNats.nats_config sc)) as [->|Hold].
    + cbn. repeat split. now rewrite insert_id.
    + destruct (Nats.stream_refused (Nats.js_refuses srv) (Nats.js_streams srv)
                  (EmbeddedNats.nats_config sc)) as [err|];
        cbn; repeat split; discriminate.
  - destruct (Nats.stream_refused (Nats.js_refuses srv) (Nats.js_streams srv)
                (EmbeddedNats.nats_config sc)) as [err|];
      cbn; repeat split; discriminate.
Qed.

(** Declaring a definition the server already holds changes nothing. *)
Lemma AddStream_again (en : EmbeddedNats.EmbeddedNATS) (srv : Nats.JetStream)
    (sc : EmbeddedNats.StreamConfig) :
  EmbeddedNats.js en = Some tt ->
  Nats.js_streams srv !! EmbeddedNats.Name sc = Some (EmbeddedNats.nats_config sc) ->
  let o := EmbeddedNats.AddStream en srv sc in
  EmbeddedNats.returned o = Ok tt
  /\ EmbeddedNats.srv_after o = srv
  /\ EmbeddedNats.en_after o = EmbeddedNats.with_stream en sc.
Proof.
  intros Hjs Hheld. cbn zeta. unfold EmbeddedNats.AddStream. rewrite Hjs.
  unfold Nats.StreamInfo, Nats.UpdateStream.
  change (Nats.StreamConfig.Name (EmbeddedNats.nats_config sc))
    with (EmbeddedNats.Name sc).
  rewrite Hheld. cbn. rewrite decide_True by reflexivity.
  repeat split.
Qed.

Lemma nats_config_matches (sc : EmbeddedNats.StreamConfig) :
  Tuning.matches sc (EmbeddedNats.nats_config sc).
Proof. repeat split. Qed.

(** C5.  [AddStream] looks the stream up by name; when it is absent it asks
    the server to create it, when it is present to update it in place.  When
    the call returns nil the server holds, under that name, a definition
    equal to the supplied one field by field, and a second call with the same
    definition returns nil and changes neither the server nor the registry.
    When the server refuses, the call returns the error and nothing has
    changed.  Other streams, the consumers and the messages are never
    touched. *)
Theorem C5_declare_stream_create_or_update_idempotent
    (en : EmbeddedNats.EmbeddedNATS) (srv : Nats.JetStream)
    (sc : EmbeddedNats.StreamConfig) :
  EmbeddedNats.js en = Some tt ->
  let first := EmbeddedNats.AddStream en srv sc in
  let second :=
    EmbeddedNats.AddStream (EmbeddedNats.en_after first)
      (EmbeddedNats.srv_after first) sc in
  EmbeddedNats.srv_after first
  = match Nats.js_streams srv !! EmbeddedNats.Name sc with
    | Some _ => fst (Nats.UpdateStream srv (EmbeddedNats.nats_config sc))
    | None => fst (Nats.AddStream srv (EmbeddedNats.nats_config sc))
    end
  /\ match EmbeddedNats.returned first with
     | Ok _ =>
         (exists cfg,
            Nats.StreamInfo (EmbeddedNats.srv_after first) (EmbeddedNats.Name sc) = Ok cfg
            /\ Tuning.matches sc cfg)
         /\ EmbeddedNats.streams (EmbeddedNats.en_after first) !! EmbeddedNats.Name sc
            = Some sc
         /\ EmbeddedNats.returned second = Ok tt
         /\ EmbeddedNats.srv_after second = EmbeddedNats.srv_after first
         /\ EmbeddedNats.en_after second = EmbeddedNats.en_after first
     | Error _ | Panic _ =>
         EmbeddedNats.srv_after first = srv /\ EmbeddedNats.en_after first = en
     end
  /\ (forall name, name <> EmbeddedNats.Name sc ->
        Nats.js_streams (EmbeddedNats.srv_after first) !! name
        = Nats.js_streams srv !! name)
  /\ Nats.js_consumers (EmbeddedNats.srv_after first) = Nats.js_consumers srv
  /\ Nats.js_msgs (EmbeddedNats.srv_after first) = Nats.js_msgs srv
  /\ (Tuning.takes_streams srv -> EmbeddedNats.returned first = Ok tt).
Proof.
  intros Hjs first second.
  destruct (AddStream_outcome en srv sc Hjs) as (C1 & M1 & R1 & W1 & O1).
  fold first in C1, M1, R1, W1, O1.
  split; [exact W1|].
  destruct (EmbeddedNats.returned first) as [[]|err|p] eqn:Ret; [|destruct O1 as (E1 & S1 & Href)|destruct O1].
  - destruct O1 as (_ & E1 & S1).
    assert (Hheld : Nats.js_streams (EmbeddedNats.srv_after first) !! EmbeddedNats.Name sc
                    = Some (EmbeddedNats.nats_config sc))
      by (rewrite S1; apply lookup_insert_eq).
    assert (Hjs' : EmbeddedNats.js (EmbeddedNats.en_after first) = Some tt)
      by (rewrite E1; exact Hjs).
    destruct (AddStream_again _ _ sc Hjs' Hheld) as (R2 & S2 & E2).
    fold second in R2, S2, E2.
    repeat split; try assumption.
    + exists (EmbeddedNats.nats_config sc). unfold Nats.StreamInfo. rewrite Hheld.
      split; [reflexivity | apply nats_config_matches].
    + rewrite E1. cbn. apply lookup_insert_eq.
    + rewrite E2, E1. unfold EmbeddedNats.with_stream. cbn.
      f_equal. apply insert_insert_eq.
    + intros name Hname. rewrite S1. now apply lookup_insert_ne.
  - repeat split; try assumption.
    + intros name _. now rewrite S1.
    + intros Htakes. now rewrite Htakes in Href.
Qed.

Lemma C5_declare_stream_create_or_update_idempotent_witness :
  let en := Examples.en in
  let srv := Nats.empty_server in
  let sc := hd (EmbeddedNats.mkStreamConfig "" [] Nats.LimitsPolicy 0 0 0 0 0 0
                  false false Nats.DiscardOld)
               EmbeddedNats.constellation_streams in
  let first := EmbeddedNats.AddStream en srv sc in
  let second :=
    EmbeddedNats.AddStream (EmbeddedNats.en_after first)
      (EmbeddedNats.srv_after first) sc in
  EmbeddedNats.srv_after first
  = match Nats.js_streams srv !! EmbeddedNats.Name sc with
    | Some _ => fst (Nats.UpdateStream srv (EmbeddedNats.nats_config sc))
    | None => fst (Nats.AddStream srv (EmbeddedNats.nats_config sc))
    end
  /\ match EmbeddedNats.returned first with
     | Ok _ =>
         (exists cfg,
            Nats.StreamInfo (EmbeddedNats.srv_after first) (EmbeddedNats.Name sc) = Ok cfg
            /\ Tuning.matches sc cfg)
         /\ EmbeddedNats.streams (EmbeddedNats.en_after first) !! EmbeddedNats.Name sc
            = Some sc
         /\ EmbeddedNats.returned second = Ok tt
         /\ EmbeddedNats.srv_after second = EmbeddedNats.srv_after first
         /\ EmbeddedNats.en_after second = EmbeddedNats.en_after first
     | Error _ | Panic _ =>
         EmbeddedNats.srv_after first = srv /\ EmbeddedNats.en_after first = en
     end
  /\ (forall name, name <> EmbeddedNats.Name sc ->
        Nats.js_streams (EmbeddedNats.srv_after first) !! name
        = Nats.js_streams srv !! name)
  /\ Nats.js_consumers (EmbeddedNats.srv_after first) = Nats.js_consumers srv
  /\ Nats.js_msgs (EmbeddedNats.srv_after first) = Nats.js_msgs srv
  /\ (Tuning.takes_streams srv -> EmbeddedNats.returned first = Ok tt).
Proof.
  apply (C5_declare_stream_create_or_update_idempotent Examples.en Nats.empty_server).
  vm_compute. reflexivity.
Defined.

(* ===================================================================== *)
(** ** C6: provisioning a durable consumer *)
(* ===================================================================== *)

Lemma ConsumerInfo_after_AddConsumer (srv : Nats.JetStream) (stream : string)
    (cfg : Nats.ConsumerConfig.t) (srv' : Nats.JetStream) (made : Nats.ConsumerConfig.t) :
  Nats.AddConsumer srv stream cfg = (srv', Ok made) ->
  Nats.ConsumerInfo srv' stream (Nats.ConsumerConfig.Durable cfg) = Ok cfg.
Proof.
  unfold Nats.AddConsumer, Nats.ConsumerInfo.
  destruct (Nats.js_streams srv !! stream) eqn:E; [|discriminate].
  destruct (Nats.consumer_refused _ _ _ _ _); [discriminate|].
  intros [= <- _]. cbn. rewrite E. now rewrite lookup_insert_eq.
Qed.

Lemma AddConsumer_refused (srv : Nats.JetStream) (stream : string)
    (cfg : Nats.ConsumerConfig.t) (srv' : Nats.JetStream) (r : res Nats.ConsumerConfig.t) :
  Nats.AddConsumer srv stream cfg = (srv', r) ->
  (forall made, r <> Ok made) ->
  srv' = srv.
Proof.
  unfold Nats.AddConsumer.
  destruct (Nats.js_streams srv !! stream); [|now intros [= <- <-]].
  destruct (Nats.consumer_refused _ _ _ _ _); intros [= <- <-]; [reflexivity|].
  intros H. now destruct (H cfg).
Qed.

(** The state [CreateDurableConsumer] leaves behind when it has a JetStream
    context. *)
Lemma CreateDurableConsumer_state (en : EmbeddedNats.EmbeddedNATS)
    (srv : Nats.JetStream) (stream consumer filter : string) :
  EmbeddedNats.js en = Some tt ->
  let o := EmbeddedNats.CreateDurableConsumer en srv stream consumer filter in
  EmbeddedNats.en_after o = en
  /\ EmbeddedNats.srv_after o
     = match Nats.ConsumerInfo srv stream consumer with
       | Ok _ => srv
       | Error _ | Panic _ =>
           fst (Nats.AddConsumer srv stream (EmbeddedNats.consumer_config consumer filter))
       end
  /\ EmbeddedNats.returned o
     = match Nats.ConsumerInfo srv stream consumer with
       | Ok _ => Ok tt
       | Error _ | Panic _ =>
           match snd (Nats.AddConsumer srv stream
                        (EmbeddedNats.consumer_config consumer filter)) with
           | Ok _ => Ok tt
           | Error err | Panic err =>
               Error (Fmt.Sprintf "failed to create consumer %s: %w"
                        [Fmt.Str consumer; Fmt.Str err])
           end
       end.
Proof.
  intros Hjs. cbn zeta. unfold EmbeddedNats.CreateDurableConsumer. rewrite Hjs.
  destruct (Nats.ConsumerInfo srv stream consumer);
    [repeat split | |];
    destruct (Nats.AddConsumer srv stream (EmbeddedNats.consumer_config consumer filter))
      as [srv' [made|e'|e']]; repeat split.
Qed.

(** C6.  With a JetStream context: when a consumer of the given durable name
    exists on the stream, [CreateDurableConsumer] returns nil and leaves the
    server as it was, so the existing consumer keeps its configuration
    whatever the call would have created; only when it is absent does the
    call ask the server to add the consumer, which is there afterwards when
    the call returns nil, and a refusal leaves the server as it was.  A
    second call with the same arguments changes nothing, and returns nil
    when the first did.  Without a JetStream context the call panics. *)
Theorem C6_ensure_consumer_idempotent
    (en : EmbeddedNats.EmbeddedNATS) (srv : Nats.JetStream)
    (stream consumer filter : string) :
  let first := EmbeddedNats.CreateDurableConsumer en srv stream consumer filter in
  let second :=
    EmbeddedNats.CreateDurableConsumer (EmbeddedNats.en_after first)
      (EmbeddedNats.srv_after first) stream consumer filter in
  match EmbeddedNats.js en with
  | None =>
      (exists p, EmbeddedNats.returned first = Panic p)
      /\ EmbeddedNats.srv_after first = srv
  | Some _ =>
      match Nats.ConsumerInfo srv stream consumer with
      | Ok existing =>
          EmbeddedNats.returned first = Ok tt
          /\ EmbeddedNats.srv_after first = srv
          /\ Nats.ConsumerInfo (EmbeddedNats.srv_after first) stream consumer
             = Ok existing
      | Error _ | Panic _ =>
          EmbeddedNats.srv_after first
          = fst (Nats.AddConsumer srv stream (EmbeddedNats.consumer_config consumer filter))
          /\ match EmbeddedNats.returned first with
             | Ok _ =>
                 Nats.ConsumerInfo (EmbeddedNats.srv_after first) stream consumer
                 = Ok (EmbeddedNats.consumer_config consumer filter)
             | Error _ | Panic _ => EmbeddedNats.srv_after first = srv
             end
      end
      /\ (EmbeddedNats.returned first = Ok tt -> EmbeddedNats.returned second = Ok tt)
  end
  /\ EmbeddedNats.srv_after second = EmbeddedNats.srv_after first
  /\ EmbeddedNats.en_after second = EmbeddedNats.en_after first
  /\ EmbeddedNats.en_after first = en.
Proof.
  intros first second.
  destruct (EmbeddedNats.js en) as [[]|] eqn:Hjs.
  2:{ subst second first. unfold EmbeddedNats.CreateDurableConsumer.
      rewrite Hjs. cbn. rewrite Hjs. cbn. repeat split. eauto. }
  destruct (CreateDurableConsumer_state en srv stream consumer filter Hjs)
    as (E1 & S1 & R1).
  fold first in E1, S1, R1.
  assert (Hjs' : EmbeddedNats.js (EmbeddedNats.en_after first) = Some tt)
    by (rewrite E1; exact Hjs).
  destruct (CreateDurableConsumer_state (EmbeddedNats.en_after first)
              (EmbeddedNats.srv_after first) stream consumer filter Hjs')
    as (E2 & S2 & R2).
  fold second in E2, S2, R2.
  assert (Hinfo : forall p, Nats.ConsumerInfo srv stream consumer <> Panic p).
  { intros p. unfold Nats.ConsumerInfo.
    destruct (Nats.js_streams srv !! stream); [|discriminate].
    destruct (Nats.js_consumers srv !! (stream, consumer)); discriminate. }
  destruct (Nats.ConsumerInfo srv stream consumer) as [existing|e|e] eqn:Info;
    [| |now destruct (Hinfo e)].
  - rewrite S1 in S2, R2. rewrite Info in S2, R2.
    split; [split; [|intros _; exact R2]|].
    + split; [exact R1|]. split; [exact S1|]. now rewrite S1.
    + split; [now rewrite S2, S1|]. split; [exact E2 | exact E1].
  - destruct (Nats.AddConsumer srv stream (EmbeddedNats.consumer_config consumer filter))
      as [srv' [made|e'|e']] eqn:Add; cbn [fst snd] in S1, R1.
    + pose proof (ConsumerInfo_after_AddConsumer _ _ _ _ _ Add) as Info'.
      change (Nats.ConsumerConfig.Durable (EmbeddedNats.consumer_config consumer filter))
        with consumer in Info'.
      rewrite S1 in S2, R2. rewrite Info' in S2, R2.
      rewrite R1. cbn [fst].
      split; [split; [|intros _; exact R2]|].
      * split; [exact S1|]. now rewrite S1.
      * split; [now rewrite S2, S1|]. split; [exact E2 | exact E1].
    + assert (Hsrv : srv' = srv)
        by (apply (AddConsumer_refused _ _ _ _ _ Add); discriminate).
      rewrite Hsrv in Add, S1.
      rewrite S1 in S2, R2. rewrite Info, Add in S2, R2. cbn [fst snd] in S2, R2.
      rewrite R1. cbn [fst]. rewrite Hsrv.
      split; [split; [|discriminate]|].
      * split; exact S1.
      * split; [now rewrite S2, S1|]. split; [exact E2 | exact E1].
    + assert (Hsrv : srv' = srv)
        by (apply (AddConsumer_refused _ _ _ _ _ Add); discriminate).
      rewrite Hsrv in Add, S1.
      rewrite S1 in S2, R2. rewrite Info, Add in S2, R2. cbn [fst snd] in S2, R2.
      rewrite R1. cbn [fst]. rewrite Hsrv.
      split; [split; [|discriminate]|].
      * split; exact S1.
      * split; [now rewrite S2, S1|]. split; [exact E2 | exact E1].
Qed.

(* ===================================================================== *)
(** ** C9: the four streams *)
(* ===================================================================== *)

(** Whatever the outcome, declaring a list of streams leaves consumers,
    messages and what the server refuses as they were, and every stream
    that is not of the list. *)
Lemma add_streams_frame (l : list EmbeddedNats.StreamConfig)
    (en : EmbeddedNats.EmbeddedNATS) (srv : Nats.JetStream) :
  EmbeddedNats.js en = Some tt ->
  let o := EmbeddedNats.add_streams en srv l in
  Nats.js_consumers (EmbeddedNats.srv_after o) = Nats.js_consumers srv
  /\ Nats.js_msgs (EmbeddedNats.srv_after o) = Nats.js_msgs srv
  /\ Nats.js_refuses (EmbeddedNats.srv_after o) = Nats.js_refuses srv
  /\ (forall name, name ∉ map EmbeddedNats.Name l ->
        Nats.js_streams (EmbeddedNats.srv_after o) !! name
        = Nats.js_streams srv !! name)
  /\ (forall p, EmbeddedNats.returned o <> Panic p).
Proof.
  revert en srv. induction l as [|sc l IH]; intros en srv Hjs;
    [repeat split; discriminate|].
  cbn zeta. cbn [EmbeddedNats.add_streams].
  destruct (AddStream_outcome en srv sc Hjs) as (C & M & R & _ & O).
  destruct (EmbeddedNats.returned (EmbeddedNats.AddStream en srv sc))
    as [[]|err|p] eqn:Ret.
  - destruct O as (_ & E & S).
    assert (Hjs' : EmbeddedNats.js (EmbeddedNats.en_after (EmbeddedNats.AddStream en srv sc))
                   = Some tt) by (rewrite E; exact Hjs).
    destruct (IH _ (EmbeddedNats.srv_after (EmbeddedNats.AddStream en srv sc)) Hjs')
      as (C' & M' & R' & F' & P').
    cbn [EmbeddedNats.srv_after EmbeddedNats.returned].
    rewrite C', M', R', C, M, R. repeat split; [|exact P'].
    intros name Hname. cbn [map] in Hname. apply not_elem_of_cons in Hname as [Hn Hname].
    rewrite F' by exact Hname. rewrite S. now apply lookup_insert_ne.
  - destruct O as (_ & S & _). rewrite S, Ret. repeat split; discriminate.
  - destruct O.
Qed.

(** When the loop returns nil, each stream of the list is on the server
    with the definition [AddStream] makes of it. *)
Lemma add_streams_declares (l : list EmbeddedNats.StreamConfig)
    (en : EmbeddedNats.EmbeddedNATS) (srv : Nats.JetStream) :
  EmbeddedNats.js en = Some tt ->
  let o := EmbeddedNats.add_streams en srv l in
  EmbeddedNats.returned o = Ok tt ->
  Nats.js_streams (EmbeddedNats.srv_after o) = Tuning.declared (Nats.js_streams srv) l
  /\ EmbeddedNats.js (EmbeddedNats.en_after o) = Some tt
  /\ EmbeddedNats.nc (EmbeddedNats.en_after o) = EmbeddedNats.nc en
  /\ EmbeddedNats.server (EmbeddedNats.en_after o) = EmbeddedNats.server en.
Proof.
  revert en srv. induction l as [|sc l IH]; intros en srv Hjs;
    [repeat split; assumption|].
  cbn zeta. cbn [EmbeddedNats.add_streams Tuning.declared foldl].
  destruct (AddStream_outcome en srv sc Hjs) as (_ & _ & _ & _ & O).
  destruct (EmbeddedNats.returned (EmbeddedNats.AddStream en srv sc))
    as [[]|err|p] eqn:Ret; [|congruence|destruct O].
  destruct O as (_ & E & S).
  cbn [EmbeddedNats.srv_after EmbeddedNats.returned EmbeddedNats.en_after].
  intros Hret. rewrite <- S.
  assert (Hjs' : EmbeddedNats.js (EmbeddedNats.en_after (EmbeddedNats.AddStream en srv sc))
                 = Some tt) by (rewrite E; exact Hjs).
  destruct (IH _ (EmbeddedNats.srv_after (EmbeddedNats.AddStream en srv sc)) Hjs' Hret)
    as (D & J & N & V).
  rewrite D, J, N, V, E. repeat split.
Qed.

(** A server that refuses no stream definition takes the whole list. *)
Lemma add_streams_taken (l : list EmbeddedNats.StreamConfig)
    (en : EmbeddedNats.EmbeddedNATS) (srv : Nats.JetStream) :
  EmbeddedNats.js en = Some tt ->
  Tuning.takes_streams srv ->
  EmbeddedNats.returned (EmbeddedNats.add_streams en srv l) = Ok tt.
Proof.
  revert en srv. induction l as [|sc l IH]; intros en srv Hjs Htakes; [reflexivity|].
  cbn [EmbeddedNats.add_streams].
  destruct (AddStream_outcome en srv sc Hjs) as (_ & _ & R & _ & O).
  destruct (EmbeddedNats.returned (EmbeddedNats.AddStream en srv sc))
    as [[]|err|p] eqn:Ret.
  - destruct O as (_ & E & _). cbn [EmbeddedNats.returned].
    apply IH; [rewrite E; exact Hjs|].
    unfold Tuning.takes_streams. rewrite R. exact Htakes.
  - destruct O as (_ & _ & Href). now rewrite Htakes in Href.
  - destruct O.
Qed.

(** Declaring streams the server already holds, each with the definition
    [AddStream] makes of it, returns nil and changes nothing on the server. *)
Lemma add_streams_held (l : list EmbeddedNats.StreamConfig)
    (en : EmbeddedNats.EmbeddedNATS) (srv : Nats.JetStream) :
  EmbeddedNats.js en = Some tt ->
  Forall (fun sc => Nats.js_streams srv !! EmbeddedNats.Name sc
                    = Some (EmbeddedNats.nats_config sc)) l ->
  let o := EmbeddedNats.add_streams en srv l in
  EmbeddedNats.returned o = Ok tt
  /\ EmbeddedNats.srv_after o = srv
  /\ EmbeddedNats.js (EmbeddedNats.en_after o) = Some tt.
Proof.
  intros Hjs Hl. revert en Hjs.
  induction Hl as [|sc l Hsc _ IH]; intros en Hjs; [now repeat split|].
  cbn zeta. cbn [EmbeddedNats.add_streams].
  destruct (AddStream_again en srv sc Hjs Hsc) as (R & S & E).
  rewrite R. cbn [EmbeddedNats.returned EmbeddedNats.srv_after EmbeddedNats.en_after].
  rewrite S. apply IH. rewrite E. exact Hjs.
Qed.

(** The same facts for [CreateConstellationStreams], which is that loop over
    the four streams. *)
Lemma CreateConstellationStreams_frame (en : EmbeddedNats.EmbeddedNATS)
    (srv : Nats.JetStream) :
  EmbeddedNats.js en = Some tt ->
  Nats.js_consumers (EmbeddedNats.srv_after (EmbeddedNats.CreateConstellationStreams en srv))
  = Nats.js_consumers srv
  /\ Nats.js_msgs (EmbeddedNats.srv_after (EmbeddedNats.CreateConstellationStreams en srv))
     = Nats.js_msgs srv
  /\ Nats.js_refuses (EmbeddedNats.srv_after (EmbeddedNats.CreateConstellationStreams en srv))
     = Nats.js_refuses srv
  /\ (forall name, name ∉ map EmbeddedNats.Name EmbeddedNats.constellation_streams ->
        Nats.js_streams
          (EmbeddedNats.srv_after (EmbeddedNats.CreateConstellationStreams en srv)) !! name
        = Nats.js_streams srv !! name)
  /\ (forall p,
        EmbeddedNats.returned (EmbeddedNats.CreateConstellationStreams en srv) <> Panic p).
Proof. exact (add_streams_frame EmbeddedNats.constellation_streams en srv). Qed.

Lemma CreateConstellationStreams_declares (en : EmbeddedNats.EmbeddedNATS)
    (srv : Nats.JetStream) :
  EmbeddedNats.js en = Some tt ->
  EmbeddedNats.returned (EmbeddedNats.CreateConstellationStreams en srv) = Ok tt ->
  Nats.js_streams (EmbeddedNats.srv_after (EmbeddedNats.CreateConstellationStreams en srv))
  = Tuning.declared (Nats.js_streams srv) EmbeddedNats.constellation_streams
  /\ EmbeddedNats.js (EmbeddedNats.en_after (EmbeddedNats.CreateConstellationStreams en srv))
     = Some tt
  /\ EmbeddedNats.nc (EmbeddedNats.en_after (EmbeddedNats.CreateConstellationStreams en srv))
     = EmbeddedNats.nc en
  /\ EmbeddedNats.server
       (EmbeddedNats.en_after (EmbeddedNats.CreateConstellationStreams en srv))
     = EmbeddedNats.server en.
Proof. exact (add_streams_declares EmbeddedNats.constellation_streams en srv). Qed.

Lemma CreateConstellationStreams_taken (en : EmbeddedNats.EmbeddedNATS)
    (srv : Nats.JetStream) :
  EmbeddedNats.js en = Some tt ->
  Tuning.takes_streams srv ->
  EmbeddedNats.returned (EmbeddedNats.CreateConstellationStreams en srv) = Ok tt.
Proof. exact (add_streams_taken EmbeddedNats.constellation_streams en srv). Qed.

Lemma CreateConstellationStreams_held (en : EmbeddedNats.EmbeddedNATS)
    (srv : Nats.JetStream) :
  EmbeddedNats.js en = Some tt ->
  Forall (fun sc => Nats.js_streams srv !! EmbeddedNats.Name sc
                    = Some (EmbeddedNats.nats_config sc))
         EmbeddedNats.constellation_streams ->
  EmbeddedNats.returned (EmbeddedNats.CreateConstellationStreams en srv) = Ok tt
  /\ EmbeddedNats.srv_after (EmbeddedNats.CreateConstellationStreams en srv) = srv
  /\ EmbeddedNats.js (EmbeddedNats.en_after (EmbeddedNats.CreateConstellationStreams en srv))
     = Some tt.
Proof. exact (add_streams_held EmbeddedNats.constellation_streams en srv). Qed.

(** C9.  [CreateConstellationStreams] declares four streams, with the
    settings of the tuning table: entities, events, telemetry and commands.
    When it returns nil, the server holds each of the four under its name
    with exactly those settings; it returns nil whenever the server refuses
    no definition; and whatever it returns, any other stream is as before. *)
Theorem C9_four_streams_with_documented_settings
    (en : EmbeddedNats.EmbeddedNATS) (srv : Nats.JetStream) :
  EmbeddedNats.js en = Some tt ->
  let o := EmbeddedNats.CreateConstellationStreams en srv in
  length EmbeddedNats.constellation_streams = 4%nat
  /\ map Tuning.settings EmbeddedNats.constellation_streams = Tuning.documented
  /\ (EmbeddedNats.returned o = Ok tt ->
        Forall (fun d =>
                  exists cfg,
                    Nats.StreamInfo (EmbeddedNats.srv_after o) (Tuning.stream d) = Ok cfg
                    /\ Tuning.held cfg = d)
               Tuning.documented)
  /\ (Tuning.takes_streams srv -> EmbeddedNats.returned o = Ok tt)
  /\ (forall name, name ∉ map EmbeddedNats.Name EmbeddedNats.constellation_streams ->
        Nats.js_streams (EmbeddedNats.srv_after o) !! name
        = Nats.js_streams srv !! name).
Proof.
  intros Hjs o.
  split; [reflexivity|]. split; [vm_compute; reflexivity|].
  split; [|split].
  - intros Hret.
    destruct (CreateConstellationStreams_declares en srv Hjs Hret) as (S & _).
    fold o in S.
    unfold Nats.StreamInfo. rewrite S.
    unfold Tuning.declared, EmbeddedNats.constellation_streams, Tuning.documented.
    cbn [foldl EmbeddedNats.Name].
    repeat constructor; cbn [Tuning.stream]; eexists;
      (split; [simplify_map_eq; reflexivity | vm_compute; reflexivity]).
  - intros Htakes. now apply CreateConstellationStreams_taken.
  - apply (CreateConstellationStreams_frame en srv Hjs).
Qed.

Lemma C9_four_streams_with_documented_settings_witness :
  let o := EmbeddedNats.CreateConstellationStreams Examples.en Nats.empty_server in
  length EmbeddedNats.constellation_streams = 4%nat
  /\ map Tuning.settings EmbeddedNats.constellation_streams = Tuning.documented
  /\ (EmbeddedNats.returned o = Ok tt ->
        Forall (fun d =>
                  exists cfg,
                    Nats.StreamInfo (EmbeddedNats.srv_after o) (Tuning.stream d) = Ok cfg
                    /\ Tuning.held cfg = d)
               Tuning.documented)
  /\ (Tuning.takes_streams Nats.empty_server -> EmbeddedNats.returned o = Ok tt)
  /\ (forall name, name ∉ map EmbeddedNats.Name EmbeddedNats.constellation_streams ->
        Nats.js_streams (EmbeddedNats.srv_after o) !! name
        = Nats.js_streams Nats.empty_server !! name).
Proof.
  apply (C9_four_streams_with_documented_settings Examples.en Nats.empty_server).
  vm_compute. reflexivity.
Defined.

(* ===================================================================== *)
(** ** C10: what UpdateEntity can change *)
(* ===================================================================== *)

Section Update.

Variable json_Marshal : GoValue -> string.

(** Each key with a case appends one assignment; any other key appends
    nothing, neither text nor argument. *)
Lemma update_case_text (key : string) (value : GoValue) :
  fst (Services.update_case json_Marshal key value)
  = if Services.is_recognized key then ", " +:+ key +:+ " = ?" else "".
Proof.
  unfold Services.update_case, Services.is_recognized, Services.recognized.
  cbn [existsb].
  repeat match goal with
  | |- context [String.eqb key ?s] =>
      destruct (String.eqb key s) eqn:?; cbn [orb fst]; try reflexivity
  end.
  match goal with
  | H : String.eqb key "is_live" = true |- _ => apply String.eqb_eq in H; subst key
  end.
  reflexivity.
Qed.

Lemma update_case_ignored (key : string) (value : GoValue) :
  Services.is_recognized key = false ->
  Services.update_case json_Marshal key value = ("", []).
Proof.
  unfold Services.update_case, Services.is_recognized, Services.recognized.
  cbn [existsb].
  repeat match goal with
  | |- context [String.eqb key ?s] =>
      destruct (String.eqb key s) eqn:?; cbn [orb]; try discriminate
  end.
  reflexivity.
Qed.

Lemma build_update_text (updates : list (string * GoValue)) (query : string)
    (args : list GoValue) :
  fst (Services.build_update json_Marshal query args updates)
  = query +:+ Services.assignments (List.filter Services.is_recognized (map fst updates)).
Proof.
  revert query args. induction updates as [|[key value] updates IH]; intros query args.
  - cbn. now rewrite append_empty_r.
  - cbn [Services.build_update map fst List.filter].
    pose proof (update_case_text key value) as T.
    destruct (Services.update_case json_Marshal key value) as [text more].
    cbn [fst] in T. subst text. rewrite IH.
    destruct (Services.is_recognized key).
    + cbn [Services.assignments]. now rewrite !append_assoc.
    + now rewrite append_empty_r.
Qed.

Lemma build_update_recognized (updates : list (string * GoValue)) (query : string)
    (args : list GoValue) :
  Services.build_update json_Marshal query args updates
  = Services.build_update json_Marshal query args (Services.recognized_entries updates).
Proof.
  revert query args. induction updates as [|[key value] updates IH]; intros query args;
    [reflexivity|].
  unfold Services.recognized_entries. cbn [List.filter fst].
  destruct (Services.is_recognized key) eqn:K.
  - cbn [Services.build_update].
    destruct (Services.update_case json_Marshal key value). apply IH.
  - cbn [Services.build_update]. rewrite (update_case_ignored key value K).
    rewrite append_empty_r, app_nil_r. apply IH.
Qed.

Lemma set_columns_recognized (updates : list (string * GoValue)) :
  Services.set_columns updates
  = Services.set_columns (Services.recognized_entries updates).
Proof.
  unfold Services.set_columns, Services.recognized_entries. f_equal.
  induction updates as [|[key value] updates IH]; [reflexivity|].
  cbn [map fst List.filter].
  destruct (Services.is_recognized key) eqn:K; cbn [map fst List.filter];
    rewrite ?K; now rewrite IH.
Qed.

Lemma set_columns_named (updates : list (string * GoValue)) :
  Forall (fun c => c = "updated_at"
                   \/ (c ∈ Services.recognized /\ c ∈ map fst updates))
         (Services.set_columns updates).
Proof.
  unfold Services.set_columns. constructor; [now left|].
  apply Forall_forall. intros c Hc. right.
  apply list_elem_of_In, List.filter_In in Hc as [Hin Hrec].
  split; [|now apply list_elem_of_In].
  unfold Services.is_recognized in Hrec.
  apply List.existsb_exists in Hrec as (k & Hk & E).
  apply String.eqb_eq in E. subst k. now apply list_elem_of_In.
Qed.

Lemma assign_frame (columns : list string) (values : list GoValue) (r : Sql.Row)
    (c : string) :
  c ∉ columns -> Sql.assign r columns values !! c = r !! c.
Proof.
  revert r values. induction columns as [|k columns IH]; intros r values Hc;
    [reflexivity|].
  destruct values as [|v values]; [reflexivity|].
  cbn [Sql.assign]. apply not_elem_of_cons in Hc as [Hk Hc].
  rewrite IH by exact Hc. now apply lookup_insert_ne.
Qed.

(** Whatever [exec_update] answers, rows keep their place and a column that
    the statement does not assign keeps its value. *)
Lemma exec_update_frame (table : list Sql.Row) (columns : list string)
    (args : list GoValue) (table' : list Sql.Row) (n : Z) :
  Sql.exec_update table columns args = Ok (table', n) ->
  Forall2 (fun r r' => forall c, c ∉ columns -> r' !! c = r !! c) table table'.
Proof.
  unfold Sql.exec_update.
  destruct (negb (Nat.eqb (length args) (length columns + 2))); [discriminate|].
  destruct (negb (forallb Sql.bindable args)); [discriminate|].
  intros [= <- _].
  induction table as [|r table IH]; cbn [map]; constructor; [|exact IH].
  intros c Hc.
  match goal with |- context [if ?b then _ else _] => destruct b end;
    [now apply assign_frame | reflexivity].
Qed.

Lemma frame_refl (columns : list string) (table : list Sql.Row) :
  Forall2 (fun r r' : Sql.Row => forall c, c ∉ columns -> r' !! c = r !! c) table table.
Proof. induction table; constructor; auto. Qed.

(** C10.  For a call to [UpdateEntity] with a non-empty updates map:
    the statement it runs is an UPDATE whose SET clause assigns [updated_at]
    and then the keys of the map that are among the twelve recognized ones,
    and nothing else; every row keeps, in every other column, the value it
    had; and the outcome depends on the map only through its recognized
    entries, so a key outside the set changes nothing and raises no error. *)
Theorem C10_update_changes_only_recognized_columns
    (s : Services.EntityService) (now orgID entityID : string)
    (updates : list (string * GoValue)) :
  updates <> [] ->
  let u := Services.UpdateEntity json_Marshal s now orgID entityID updates in
  fst (Services.update_statement json_Marshal now orgID entityID updates)
  = Services.update_text (Services.set_columns updates)
  /\ Forall (fun c => c = "updated_at"
                      \/ (c ∈ Services.recognized /\ c ∈ map fst updates))
            (Services.set_columns updates)
  /\ Forall2 (fun r r' : Sql.Row =>
                forall c, c ∉ Services.set_columns updates -> r' !! c = r !! c)
             (Services.db s) (Services.db_after u)
  /\ (forall others,
        others <> [] ->
        Services.recognized_entries others = Services.recognized_entries updates ->
        Services.UpdateEntity json_Marshal s now orgID entityID others = u).
Proof.
  intros Hne u. split; [|split; [apply set_columns_named|split]].
  - unfold Services.update_statement.
    pose proof (build_update_text updates "UPDATE entities SET updated_at = ?"
                  [VString now]) as T.
    destruct (Services.build_update json_Marshal "UPDATE entities SET updated_at = ?"
                [VString now] updates) as [query args].
    cbn [fst] in *. subst query.
    unfold Services.update_text, Services.set_columns. reflexivity.
  - subst u. unfold Services.UpdateEntity.
    destruct updates as [|p updates]; [contradiction|]. cbn [length Nat.eqb].
    destruct (Services.update_statement json_Marshal now orgID entityID (p :: updates))
      as [query args].
    destruct (Sql.exec_update (Services.db s) (Services.set_columns (p :: updates)) args)
      as [[table n]|e|e] eqn:X; cbn [Services.db_after]; try apply frame_refl.
    apply exec_update_frame in X.
    destruct (Z.eqb n 0); [exact X|].
    destruct (Sql.query_row table orgID entityID); exact X.
  - intros others Hothers Hsame. subst u. unfold Services.UpdateEntity.
    destruct updates as [|p updates]; [contradiction|].
    destruct others as [|q others]; [contradiction|]. cbn [length Nat.eqb].
    unfold Services.update_statement.
    rewrite (build_update_recognized (q :: others)),
            (build_update_recognized (p :: updates)),
            (set_columns_recognized (q :: others)),
            (set_columns_recognized (p :: updates)), Hsame.
    reflexivity.
Qed.

End Update.

Lemma C10_update_changes_only_recognized_columns_witness :
  let u := Services.UpdateEntity Examples.encode_value Examples.stored "t1" "org1" "e1"
             Examples.patch in
  Examples.patch <> []
  /\ fst (Services.update_statement Examples.encode_value "t1" "org1" "e1" Examples.patch)
     = Services.update_text (Services.set_columns Examples.patch)
  /\ Forall (fun c => c = "updated_at"
                      \/ (c ∈ Services.recognized /\ c ∈ map fst Examples.patch))
            (Services.set_columns Examples.patch)
  /\ Forall2 (fun r r' : Sql.Row =>
                forall c, c ∉ Services.set_columns Examples.patch -> r' !! c = r !! c)
             (Services.db Examples.stored) (Services.db_after u)
  /\ (forall others,
        others <> [] ->
        Services.recognized_entries others = Services.recognized_entries Examples.patch ->
        Services.UpdateEntity Examples.encode_value Examples.stored "t1" "org1" "e1" others
        = u).
Proof.
  split; [discriminate|].
  apply (C10_update_changes_only_recognized_columns Examples.encode_value
           Examples.stored "t1" "org1" "e1" Examples.patch).
  discriminate.
Defined.

(* ===================================================================== *)
(** ** The pull loop over a whole run *)
(* ===================================================================== *)

Lemma loop_app (w : Workers.BaseWorker) (handler : Workers.Handler)
    (first second : list Workers.Observation) :
  Workers.loop w handler (first ++ second)
  = match snd (Workers.loop w handler first) with
    | Workers.Fetching =>
        (fst (Workers.loop w handler first) ++ fst (Workers.loop w handler second),
         snd (Workers.loop w handler second))
    | _ => Workers.loop w handler first
    end.
Proof.
  induction first as [|o first IH]; cbn [app Workers.loop].
  - now destruct (Workers.loop w handler second).
  - destruct (Workers.turn w handler o) as [effects [| err | p]]; [|reflexivity..].
    rewrite IH.
    destruct (Workers.loop w handler first) as [later [| err | p]]; cbn [fst snd];
      try reflexivity.
    now rewrite app_assoc.
Qed.

(** X2.  Cancellation ends the loop: whatever a run holds after the first
    turn that finds the context cancelled has no effect, and a loop that
    reaches that turn logs that it stops and returns the context's error. *)
Theorem X2_nothing_after_cancellation (w : Workers.BaseWorker)
    (handler : Workers.Handler) (before after : list Workers.Observation)
    (err : string) :
  Workers.loop w handler (before ++ Workers.Cancelled err :: after)
  = Workers.loop w handler (before ++ [Workers.Cancelled err])
  /\ match snd (Workers.loop w handler before) with
     | Workers.Fetching =>
         Workers.loop w handler (before ++ Workers.Cancelled err :: after)
         = (fst (Workers.loop w handler before)
            ++ [Workers.Log ("[" +:+ Workers.name w +:+ "] Worker stopping")],
            Workers.Returned err)
     | _ =>
         Workers.loop w handler (before ++ Workers.Cancelled err :: after)
         = Workers.loop w handler before
     end.
Proof.
  rewrite !loop_app.
  destruct (Workers.loop w handler before) as [effects [| e | p]]; cbn [fst snd];
    split; try reflexivity.
Qed.

Section WorkerRuns.

Variable JSON : Type.
Variable json_Unmarshal : string -> option JSON.
Variable json_MarshalIndent : JSON -> string.

Lemma worker_turn_fetched (w : Workers.Worker) (msgs : list Workers.Delivery)
    (err : option string) :
  let t := Workers.turn (Workers.base w)
             (Workers.handler_of JSON json_Unmarshal json_MarshalIndent w)
             (Workers.Fetched msgs err) in
  snd t = Workers.Continue
  /\ Batch.acks (fst t) = if Runs.worked err then map Workers.msg msgs else [].
Proof.
  cbn zeta. unfold Workers.turn, Runs.worked.
  assert (H : forall l,
    snd (Workers.range_msgs (Workers.base w)
           (Workers.handler_of JSON json_Unmarshal json_MarshalIndent w) l)
    = Workers.Continue
    /\ Batch.acks (fst (Workers.range_msgs (Workers.base w)
           (Workers.handler_of JSON json_Unmarshal json_MarshalIndent w) l))
       = map Workers.msg l).
  { intros l. split.
    - apply range_msgs_handled, handler_of_handles.
    - rewrite acks_range_msgs, unpanicked_all; [reflexivity|].
      apply handler_of_handles. }
  destruct err as [e|]; [|apply H].
  destruct (String.eqb e Nats.ErrTimeout); [apply H|]. split; reflexivity.
Qed.

(** X3.  Each of the four workers, over any run of its loop, attempts to
    acknowledge exactly the messages of the batches it fetched without a
    fetch error (a timeout is not one), in order, up to the turn that finds
    the context cancelled.  Messages that come with a fetch error are neither
    handled nor acknowledged.  The loop ends only by cancellation, returning
    the context's error. *)
Theorem X3_worker_acknowledges_what_it_fetched (w : Workers.Worker)
    (run : list Workers.Observation) :
  let done_ := Workers.loop (Workers.base w)
                 (Workers.handler_of JSON json_Unmarshal json_MarshalIndent w) run in
  Batch.acks (fst done_) = Runs.delivered run
  /\ snd done_ = match Runs.cancellation run with
                 | Some err => Workers.Returned err
                 | None => Workers.Fetching
                 end.
Proof.
  cbn zeta. induction run as [|o run [IHa IHe]]; [split; reflexivity|].
  cbn [Workers.loop Runs.delivered Runs.cancellation].
  destruct o as [err | msgs err].
  - split; reflexivity.
  - destruct (worker_turn_fetched w msgs err) as [Hn Ha].
    destruct (Workers.turn (Workers.base w)
                (Workers.handler_of JSON json_Unmarshal json_MarshalIndent w)
                (Workers.Fetched msgs err)) as [effects next].
    cbn [fst snd] in Hn, Ha. subst next.
    destruct (Workers.loop (Workers.base w)
                (Workers.handler_of JSON json_Unmarshal json_MarshalIndent w) run)
      as [later e].
    cbn [fst snd] in *. split; [|exact IHe].
    now rewrite acks_app, Ha, IHa.
Qed.

(** X4.  A worker with a JetStream context that cannot bind to its durable
    consumer does not enter the loop: [Start] returns the error of the
    subscription, nothing is handled or acknowledged whatever the run would
    have held, the worker keeps no subscription, and stopping it drains
    nothing. *)
Theorem X4_failed_subscription_leaves_nothing_to_drain (w : Workers.Worker)
    (srv : Nats.JetStream) (run : list Workers.Observation)
    (drain : option string) (err : string) :
  Workers.js (Workers.base w) = Some tt ->
  Workers.sub (Workers.base w) = None ->
  Nats.ConsumerInfo srv (Workers.stream (Workers.base w))
    (Workers.consumer (Workers.base w)) = Error err ->
  let started := Workers.Start JSON json_Unmarshal json_MarshalIndent w srv run in
  started = (w, [], Workers.Returned err)
  /\ Workers.Stop (fst (fst started)) drain = ([], None).
Proof.
  intros Hjs Hsub Hinfo. cbn zeta.
  assert (E : Workers.Start JSON json_Unmarshal json_MarshalIndent w srv run
              = (w, [], Workers.Returned err)).
  { unfold Workers.Start, Workers.processMessages, Workers.PullSubscribe.
    rewrite Hjs, Hinfo. destruct w as [[b]|[b]|[b]|[b]]; reflexivity. }
  rewrite E. split; [reflexivity|].
  cbn [fst]. unfold Workers.Stop, Workers.BaseWorker_Stop. now rewrite Hsub.
Qed.

End WorkerRuns.

Lemma X4_failed_subscription_leaves_nothing_to_drain_witness :
  let started := Workers.Start unit Examples.decode Examples.indent
                   Examples.entity_worker Nats.empty_server
                   [Workers.Fetched [Examples.delivery "{}"] None] in
  started = (Examples.entity_worker, [], Workers.Returned Nats.ErrStreamNotFound)
  /\ Workers.Stop (fst (fst started)) None = ([], None).
Proof.
  apply (X4_failed_subscription_leaves_nothing_to_drain unit Examples.decode
           Examples.indent Examples.entity_worker Nats.empty_server).
  - reflexivity.
  - reflexivity.
  - vm_compute. reflexivity.
Defined.

(* ===================================================================== *)
(** ** Start-up of the broker *)
(* ===================================================================== *)

(** X5.  [Start] returns nil exactly when the server could be created, was
    ready in time, the client connected and a JetStream context was obtained;
    then the server, the connection and the context are all set.  When it
    returns an error, the connection and the context are as they were; the
    server handle is set as soon as the server was ready, also when the
    client then fails to connect. *)
Theorem X5_start_sets_handles_iff_broker_comes_up
    (en : EmbeddedNats.EmbeddedNATS) (b : EmbeddedNats.Boot) :
  let started := EmbeddedNats.Start en b in
  let en' := fst (fst started) in
  match snd started with
  | None =>
      Startup.comes_up b = true
      /\ EmbeddedNats.server en' = Some tt
      /\ EmbeddedNats.nc en' = Some tt
      /\ EmbeddedNats.js en' = Some tt
  | Some _ =>
      Startup.comes_up b = false
      /\ EmbeddedNats.nc en' = EmbeddedNats.nc en
      /\ EmbeddedNats.js en' = EmbeddedNats.js en
      /\ EmbeddedNats.server en'
         = match EmbeddedNats.new_server b with
           | None => if EmbeddedNats.ready b then Some tt else EmbeddedNats.server en
           | Some _ => EmbeddedNats.server en
           end
  end.
Proof.
  cbn zeta. unfold EmbeddedNats.Start, EmbeddedNats.connect, Startup.comes_up.
  destruct b as [[e|] [|] [e'|] [e''|]]; cbn; repeat split; reflexivity.
Qed.

Lemma Start_comes_up (en : EmbeddedNats.EmbeddedNATS) (b : EmbeddedNats.Boot) :
  Startup.comes_up b = true ->
  exists lines,
    EmbeddedNats.Start en b
    = ({| EmbeddedNats.server := Some tt; EmbeddedNats.nc := Some tt;
          EmbeddedNats.js := Some tt; EmbeddedNats.config := EmbeddedNats.config en;
          EmbeddedNats.streams := EmbeddedNats.streams en |}, lines, None).
Proof.
  unfold EmbeddedNats.Start, EmbeddedNats.connect, Startup.comes_up.
  destruct b as [[e|] rd [e'|] [e''|]]; cbn; try discriminate.
  intros ->. cbn. eexists. reflexivity.
Qed.

Lemma Start_fails (en : EmbeddedNats.EmbeddedNATS) (b : EmbeddedNats.Boot) :
  Startup.comes_up b = false ->
  exists err, snd (EmbeddedNats.Start en b) = Some err.
Proof.
  unfold EmbeddedNats.Start, EmbeddedNats.connect, Startup.comes_up.
  destruct b as [[e|] rd [e'|] [e''|]]; cbn; try destruct rd; cbn;
    intros; try discriminate; eexists; reflexivity.
Qed.

(** Adding a consumer that [ConsumerInfo] does not find leaves streams and
    messages alone and every consumer the server has as it is. *)
Lemma AddConsumer_absent (srv : Nats.JetStream) (stream : string)
    (cfg : Nats.ConsumerConfig.t) :
  (forall found,
     Nats.ConsumerInfo srv stream (Nats.ConsumerConfig.Durable cfg) <> Ok found) ->
  let r := Nats.AddConsumer srv stream cfg in
  Nats.js_streams (fst r) = Nats.js_streams srv
  /\ Nats.js_msgs (fst r) = Nats.js_msgs srv
  /\ Nats.js_refuses (fst r) = Nats.js_refuses srv
  /\ (forall k c, Nats.js_consumers srv !! k = Some c ->
        Nats.js_consumers (fst r) !! k = Some c)
  /\ (forall p, snd r <> Panic p).
Proof.
  unfold Nats.ConsumerInfo, Nats.AddConsumer. intros Hinfo.
  destruct (Nats.js_streams srv !! stream); [|repeat split; auto; discriminate].
  destruct (Nats.js_consumers srv !! (stream, Nats.ConsumerConfig.Durable cfg)) as [c0|] eqn:K;
    [now destruct (Hinfo c0)|].
  destruct (Nats.consumer_refused _ _ _ _ _); cbn; repeat split; auto; try discriminate.
  intros k c Hk. rewrite lookup_insert_ne; [exact Hk|]. intros <-. congruence.
Qed.

Lemma ConsumerInfo_kept (srv srv' : Nats.JetStream) (stream consumer : string)
    (cfg : Nats.ConsumerConfig.t) :
  Nats.js_streams srv' = Nats.js_streams srv ->
  (forall k c, Nats.js_consumers srv !! k = Some c ->
     Nats.js_consumers srv' !! k = Some c) ->
  Nats.ConsumerInfo srv stream consumer = Ok cfg ->
  Nats.ConsumerInfo srv' stream consumer = Ok cfg.
Proof.
  unfold Nats.ConsumerInfo. intros -> Hk.
  destruct (Nats.js_streams srv !! stream); [|discriminate].
  destruct (Nats.js_consumers srv !! (stream, consumer)) as [c|] eqn:K; [|discriminate].
  intros [= <-]. now rewrite (Hk _ _ K).
Qed.

(** What [CreateDurableConsumer] leaves behind: streams, messages and the
    consumers the server had are as they were, and when it returns nil the
    consumer is there. *)
Lemma CreateDurableConsumer_frame (en : EmbeddedNats.EmbeddedNATS)
    (srv : Nats.JetStream) (stream consumer filter : string) :
  EmbeddedNats.js en = Some tt ->
  let o := EmbeddedNats.CreateDurableConsumer en srv stream consumer filter in
  EmbeddedNats.en_after o = en
  /\ Nats.js_streams (EmbeddedNats.srv_after o) = Nats.js_streams srv
  /\ Nats.js_msgs (EmbeddedNats.srv_after o) = Nats.js_msgs srv
  /\ Nats.js_refuses (EmbeddedNats.srv_after o) = Nats.js_refuses srv
  /\ (forall k c, Nats.js_consumers srv !! k = Some c ->
        Nats.js_consumers (EmbeddedNats.srv_after o) !! k = Some c)
  /\ (forall p, EmbeddedNats.returned o <> Panic p)
  /\ (EmbeddedNats.returned o = Ok tt ->
        exists cfg, Nats.ConsumerInfo (EmbeddedNats.srv_after o) stream consumer = Ok cfg).
Proof.
  intros Hjs o.
  destruct (CreateDurableConsumer_state en srv stream consumer filter Hjs)
    as (E & S & R).
  fold o in E, S, R. split; [exact E|].
  destruct (Nats.ConsumerInfo srv stream consumer) as [found|e|e] eqn:Info.
  - rewrite S, R. repeat split; auto; try discriminate; eauto.
  - destruct (AddConsumer_absent srv stream (EmbeddedNats.consumer_config consumer filter))
      as (A1 & A2 & A3 & A4 & A5).
    { intros found. cbn [EmbeddedNats.consumer_config Nats.ConsumerConfig.Durable].
      rewrite Info. discriminate. }
    rewrite S, R. repeat split; auto.
    + destruct (snd (Nats.AddConsumer srv stream
                       (EmbeddedNats.consumer_config consumer filter))); discriminate.
    + destruct (Nats.AddConsumer srv stream (EmbeddedNats.consumer_config consumer filter))
        as [srv' [made|e'|e']] eqn:Add; cbn [fst snd]; try discriminate.
      intros _. exists (EmbeddedNats.consumer_config consumer filter).
      apply (ConsumerInfo_after_AddConsumer _ _ _ _ _ Add).
  - exfalso. unfold Nats.ConsumerInfo in Info.
    destruct (Nats.js_streams srv !! stream); [|discriminate].
    destruct (Nats.js_consumers srv !! (stream, consumer)); discriminate.
Qed.

(** The same for the loop of [initNATS] over the consumers. *)
Lemma create_consumers_frame (l : list (string * string * string))
    (en : EmbeddedNats.EmbeddedNATS) (srv : Nats.JetStream) :
  EmbeddedNats.js en = Some tt ->
  let o := Main.create_consumers en srv l in
  EmbeddedNats.en_after o = en
  /\ Nats.js_streams (EmbeddedNats.srv_after o) = Nats.js_streams srv
  /\ Nats.js_msgs (EmbeddedNats.srv_after o) = Nats.js_msgs srv
  /\ Nats.js_refuses (EmbeddedNats.srv_after o) = Nats.js_refuses srv
  /\ (forall k c, Nats.js_consumers srv !! k = Some c ->
        Nats.js_consumers (EmbeddedNats.srv_after o) !! k = Some c)
  /\ (forall p, EmbeddedNats.returned o <> Panic p)
  /\ (EmbeddedNats.returned o = Ok tt ->
        forall p, p ∈ l ->
          exists cfg,
            Nats.ConsumerInfo (EmbeddedNats.srv_after o) (fst (fst p)) (snd (fst p))
            = Ok cfg).
Proof.
  revert en srv. induction l as [|[[stream consumer] filter] l IH]; intros en srv Hjs.
  - cbn. repeat split; auto; try discriminate.
    intros _ p Hp. now apply elem_of_nil in Hp.
  - cbn zeta. cbn [Main.create_consumers].
    destruct (CreateDurableConsumer_frame en srv stream consumer filter Hjs)
      as (E & S & M & R & K & P & Made).
    destruct (EmbeddedNats.returned
                (EmbeddedNats.CreateDurableConsumer en srv stream consumer filter))
      as [[]|err|p] eqn:Ret.
    + rewrite E.
      destruct (IH en (EmbeddedNats.srv_after
                         (EmbeddedNats.CreateDurableConsumer en srv stream consumer filter))
                  Hjs)
        as (E' & S' & M' & R' & K' & P' & Made').
      cbn [EmbeddedNats.en_after EmbeddedNats.srv_after EmbeddedNats.returned].
      rewrite E', S', S, M', M, R', R. repeat split; auto.
      intros Hret p Hp. apply elem_of_cons in Hp as [-> | Hp]; [|now apply Made'].
      cbn [fst snd]. destruct (Made eq_refl) as [cfg Hcfg].
      exists cfg. now apply (ConsumerInfo_kept _ _ _ _ _ S' K').
    + cbn [EmbeddedNats.en_after EmbeddedNats.srv_after EmbeddedNats.returned].
      repeat split; auto; discriminate.
    + now destruct (P p).
Qed.

(** Provisioning consumers that are all there returns nil and changes
    nothing on the server. *)
Lemma create_consumers_present (l : list (string * string * string))
    (en : EmbeddedNats.EmbeddedNATS) (srv : Nats.JetStream) :
  EmbeddedNats.js en = Some tt ->
  Forall (fun p => exists cfg,
            Nats.ConsumerInfo srv (fst (fst p)) (snd (fst p)) = Ok cfg) l ->
  let o := Main.create_consumers en srv l in
  EmbeddedNats.returned o = Ok tt /\ EmbeddedNats.srv_after o = srv.
Proof.
  intros Hjs Hl. induction Hl as [|[[stream consumer] filter] l [cfg Hcfg] _ IH];
    [now split|].
  cbn zeta. cbn [Main.create_consumers]. cbn [fst snd] in Hcfg.
  unfold EmbeddedNats.CreateDurableConsumer. rewrite Hjs, Hcfg.
  cbn [EmbeddedNats.returned EmbeddedNats.srv_after EmbeddedNats.en_after].
  exact IH.
Qed.

(** A server that refuses no consumer provisions every consumer whose
    stream it holds. *)
Lemma create_consumers_taken (l : list (string * string * string))
    (en : EmbeddedNats.EmbeddedNATS) (srv : Nats.JetStream) :
  EmbeddedNats.js en = Some tt ->
  Startup.takes_consumers srv ->
  Forall (fun p => is_Some (Nats.js_streams srv !! fst (fst p))) l ->
  EmbeddedNats.returned (Main.create_consumers en srv l) = Ok tt.
Proof.
  intros Hjs Htakes Hl. revert srv Htakes Hl.
  induction l as [|[[stream consumer] filter] l IH]; intros srv Htakes Hl; [reflexivity|].
  apply Forall_cons in Hl as [[sc Hs] Hl]. cbn [fst] in Hs.
  cbn [Main.create_consumers].
  destruct (CreateDurableConsumer_frame en srv stream consumer filter Hjs)
    as (E & S & M & R & K & P & Made).
  assert (Hret : EmbeddedNats.returned
                   (EmbeddedNats.CreateDurableConsumer en srv stream consumer filter)
                 = Ok tt).
  { unfold EmbeddedNats.CreateDurableConsumer, Nats.ConsumerInfo, Nats.AddConsumer.
    rewrite Hjs, Hs.
    destruct (Nats.js_consumers srv !! (stream, consumer)); [reflexivity|].
    now rewrite Htakes. }
  rewrite Hret. cbn [EmbeddedNats.returned]. rewrite E.
  apply IH.
  - unfold Startup.takes_consumers. rewrite R. exact Htakes.
  - rewrite S. exact Hl.
Qed.

Lemma declared_streams_held (m : gmap string Nats.StreamConfig.t) :
  Forall (fun sc => Tuning.declared m EmbeddedNats.constellation_streams
                    !! EmbeddedNats.Name sc
                    = Some (EmbeddedNats.nats_config sc))
         EmbeddedNats.constellation_streams.
Proof.
  unfold Tuning.declared, EmbeddedNats.constellation_streams.
  cbn [foldl EmbeddedNats.Name].
  repeat constructor; cbn [EmbeddedNats.Name]; simplify_map_eq; reflexivity.
Qed.

Lemma declared_streams_exist (m : gmap string Nats.StreamConfig.t) :
  Forall (fun p : string * string * string =>
            is_Some (Tuning.declared m EmbeddedNats.constellation_streams
                     !! fst (fst p)))
         Main.consumers.
Proof.
  unfold Tuning.declared, EmbeddedNats.constellation_streams, Main.consumers.
  cbn [foldl EmbeddedNats.Name].
  repeat constructor; cbn [fst]; simplify_map_eq; eauto.
Qed.

(** [initNATS] once the broker has come up: the struct [Start] leaves, and
    what the function returns and leaves behind, read off the outcomes of
    the two steps that follow. *)
Lemma initNATS_up (b : EmbeddedNats.Boot) (srv : Nats.JetStream) :
  Startup.comes_up b = true ->
  exists en0,
    (EmbeddedNats.server en0 = Some tt /\ EmbeddedNats.nc en0 = Some tt
     /\ EmbeddedNats.js en0 = Some tt)
    /\ EmbeddedNats.srv_after (Main.initNATS b srv)
       = match EmbeddedNats.returned (EmbeddedNats.CreateConstellationStreams en0 srv) with
         | Ok _ =>
             EmbeddedNats.srv_after
               (Main.create_consumers
                  (EmbeddedNats.en_after (EmbeddedNats.CreateConstellationStreams en0 srv))
                  (EmbeddedNats.srv_after (EmbeddedNats.CreateConstellationStreams en0 srv))
                  Main.consumers)
         | Error _ | Panic _ =>
             EmbeddedNats.srv_after (EmbeddedNats.CreateConstellationStreams en0 srv)
         end
    /\ EmbeddedNats.en_after (Main.initNATS b srv)
       = match EmbeddedNats.returned (EmbeddedNats.CreateConstellationStreams en0 srv) with
         | Ok _ =>
             EmbeddedNats.en_after
               (Main.create_consumers
                  (EmbeddedNats.en_after (EmbeddedNats.CreateConstellationStreams en0 srv))
                  (EmbeddedNats.srv_after (EmbeddedNats.CreateConstellationStreams en0 srv))
                  Main.consumers)
         | Error _ | Panic _ =>
             EmbeddedNats.en_after (EmbeddedNats.CreateConstellationStreams en0 srv)
         end
    /\ EmbeddedNats.returned (Main.initNATS b srv)
       = match EmbeddedNats.returned (EmbeddedNats.CreateConstellationStreams en0 srv) with
         | Ok _ =>
             EmbeddedNats.returned
               (Main.create_consumers
                  (EmbeddedNats.en_after (EmbeddedNats.CreateConstellationStreams en0 srv))
                  (EmbeddedNats.srv_after (EmbeddedNats.CreateConstellationStreams en0 srv))
                  Main.consumers)
         | Error err =>
             Error (Fmt.Sprintf "failed to create constellation streams: %w" [Fmt.Str err])
         | Panic p => Panic p
         end.
Proof.
  intros Hup. unfold Main.initNATS.
  match goal with
  | |- context [EmbeddedNats.Start ?e b] =>
      destruct (Start_comes_up e b Hup) as [lines ->]
  end.
  match goal with
  | |- context [EmbeddedNats.CreateConstellationStreams ?e srv] =>
      exists e; split; [repeat split|];
      generalize (EmbeddedNats.CreateConstellationStreams e srv)
  end.
  intros [en1 srv1 log1 [[]|err|p]];
    cbn [EmbeddedNats.returned EmbeddedNats.srv_after EmbeddedNats.en_after];
    [|repeat split..].
  generalize (Main.create_consumers en1 srv1 Main.consumers).
  intros [en2 srv2 log2 [[]|err|p]]; repeat split.
Qed.

Lemma initNATS_down (b : EmbeddedNats.Boot) (srv : Nats.JetStream) :
  Startup.comes_up b = false ->
  EmbeddedNats.srv_after (Main.initNATS b srv) = srv
  /\ exists err, EmbeddedNats.returned (Main.initNATS b srv) = Error err.
Proof.
  intros Hup. unfold Main.initNATS.
  match goal with
  | |- context [EmbeddedNats.Start ?e b] =>
      destruct (Start_fails e b Hup) as [err Herr];
      destruct (EmbeddedNats.Start e b) as [[en' lines] r]
  end.
  cbn [snd] in Herr. subst r. cbn. eauto.
Qed.

(** What [initNATS] never touches, whatever it returns: the messages, what
    the server refuses, the consumers the server had, and the streams other
    than the four. *)
Lemma initNATS_frame (b : EmbeddedNats.Boot) (srv : Nats.JetStream) :
  Nats.js_msgs (EmbeddedNats.srv_after (Main.initNATS b srv)) = Nats.js_msgs srv
  /\ Nats.js_refuses (EmbeddedNats.srv_after (Main.initNATS b srv)) = Nats.js_refuses srv
  /\ (forall k c, Nats.js_consumers srv !! k = Some c ->
        Nats.js_consumers (EmbeddedNats.srv_after (Main.initNATS b srv)) !! k = Some c)
  /\ (forall name, name ∉ map EmbeddedNats.Name EmbeddedNats.constellation_streams ->
        Nats.js_streams (EmbeddedNats.srv_after (Main.initNATS b srv)) !! name
        = Nats.js_streams srv !! name)
  /\ (forall p, EmbeddedNats.returned (Main.initNATS b srv) <> Panic p).
Proof.
  destruct (Startup.comes_up b) eqn:Hup.
  2:{ destruct (initNATS_down b srv Hup) as (-> & err & ->).
      repeat split; auto; discriminate. }
  destruct (initNATS_up b srv Hup) as (en0 & (_ & _ & Hjs) & -> & _ & ->).
  destruct (CreateConstellationStreams_frame en0 srv Hjs) as (C & M & R & F & P).
  pose proof (CreateConstellationStreams_declares en0 srv Hjs) as D.
  destruct (EmbeddedNats.CreateConstellationStreams en0 srv) as [en1 srv1 log1 r1].
  cbn [EmbeddedNats.returned EmbeddedNats.srv_after EmbeddedNats.en_after] in *.
  destruct r1 as [[]|err|p].
  - destruct (D eq_refl) as (_ & Hjs' & _).
    destruct (create_consumers_frame Main.consumers en1 srv1 Hjs')
      as (_ & S' & M' & R' & K' & P' & _).
    destruct (Main.create_consumers en1 srv1 Main.consumers) as [en2 srv2 log2 r2].
    cbn [EmbeddedNats.returned EmbeddedNats.srv_after EmbeddedNats.en_after] in *.
    rewrite M', M, R', R. repeat split; auto.
    + intros k c Hk. apply K'. now rewrite C.
    + intros name Hname. rewrite S'. now apply F.
  - rewrite M, R. repeat split; auto; try discriminate.
    intros k c Hk. now rewrite C.
  - now destruct (P p).
Qed.

(** What a start-up that returns nil leaves behind. *)
Lemma initNATS_done (b : EmbeddedNats.Boot) (srv : Nats.JetStream) :
  EmbeddedNats.returned (Main.initNATS b srv) = Ok tt ->
  Startup.comes_up b = true
  /\ (EmbeddedNats.nc (EmbeddedNats.en_after (Main.initNATS b srv)) = Some tt
      /\ EmbeddedNats.js (EmbeddedNats.en_after (Main.initNATS b srv)) = Some tt)
  /\ Nats.js_streams (EmbeddedNats.srv_after (Main.initNATS b srv))
     = Tuning.declared (Nats.js_streams srv) EmbeddedNats.constellation_streams
  /\ (forall p, p ∈ Main.consumers ->
        exists cfg,
          Nats.ConsumerInfo (EmbeddedNats.srv_after (Main.initNATS b srv))
            (fst (fst p)) (snd (fst p))
          = Ok cfg).
Proof.
  destruct (Startup.comes_up b) eqn:Hup.
  2:{ destruct (initNATS_down b srv Hup) as (_ & err & ->). discriminate. }
  destruct (initNATS_up b srv Hup) as (en0 & (_ & Hnc & Hjs) & -> & -> & ->).
  pose proof (CreateConstellationStreams_declares en0 srv Hjs) as D.
  destruct (EmbeddedNats.CreateConstellationStreams en0 srv) as [en1 srv1 log1 r1].
  cbn [EmbeddedNats.returned EmbeddedNats.srv_after EmbeddedNats.en_after] in *.
  destruct r1 as [[]|err|p]; [|discriminate|discriminate].
  destruct (D eq_refl) as (S & Hjs' & Hnc' & _).
  destruct (create_consumers_frame Main.consumers en1 srv1 Hjs')
    as (E' & S' & _ & _ & _ & _ & Made).
  destruct (Main.create_consumers en1 srv1 Main.consumers) as [en2 srv2 log2 r2].
  cbn [EmbeddedNats.returned EmbeddedNats.srv_after EmbeddedNats.en_after] in *.
  intros Hret. subst en2. split; [reflexivity|].
  rewrite S', S, Hjs', Hnc', Hnc. repeat split. exact (Made Hret).
Qed.

(** X6.  When [initNATS] returns nil, the broker has come up, the server
    holds each of the four streams with a definition equal, field by field,
    to the one of the source, and each of the four durable consumers is on
    its stream.  It returns nil whenever the broker comes up and the server
    refuses neither a stream nor a consumer.  When the broker does not come
    up, it returns an error and the JetStream state is as it was found.
    Whatever it returns, the stored messages are untouched, a consumer that
    was already there keeps the configuration it had, and the streams other
    than the four are as before. *)
Theorem X6_init_provisions_what_the_server_takes
    (b : EmbeddedNats.Boot) (srv : Nats.JetStream) :
  let o := Main.initNATS b srv in
  (EmbeddedNats.returned o = Ok tt ->
     Startup.comes_up b = true
     /\ Forall (fun sc =>
                  exists cfg,
                    Nats.StreamInfo (EmbeddedNats.srv_after o) (EmbeddedNats.Name sc)
                    = Ok cfg
                    /\ Tuning.matches sc cfg)
               EmbeddedNats.constellation_streams
     /\ (forall p, p ∈ Main.consumers ->
           exists cfg,
             Nats.ConsumerInfo (EmbeddedNats.srv_after o) (fst (fst p)) (snd (fst p))
             = Ok cfg))
  /\ (Startup.comes_up b = true ->
      Tuning.takes_streams srv -> Startup.takes_consumers srv ->
      EmbeddedNats.returned o = Ok tt)
  /\ (Startup.comes_up b = false ->
      EmbeddedNats.srv_after o = srv
      /\ exists err, EmbeddedNats.returned o = Error err)
  /\ Nats.js_msgs (EmbeddedNats.srv_after o) = Nats.js_msgs srv
  /\ (forall k cfg, Nats.js_consumers srv !! k = Some cfg ->
        Nats.js_consumers (EmbeddedNats.srv_after o) !! k = Some cfg)
  /\ (forall name, name ∉ map EmbeddedNats.Name EmbeddedNats.constellation_streams ->
        Nats.js_streams (EmbeddedNats.srv_after o) !! name
        = Nats.js_streams srv !! name).
Proof.
  intros o. subst o.
  destruct (initNATS_frame b srv) as (M & _ & K & F & _).
  split; [|split; [|split; [apply initNATS_down|auto]]].
  - intros Hret. destruct (initNATS_done b srv Hret) as (Hup & _ & S & C).
    split; [exact Hup|]. split; [|exact C].
    pose proof (declared_streams_held (Nats.js_streams srv)) as Hheld.
    rewrite <- S in Hheld. eapply Forall_impl; [exact Hheld|].
    intros sc Hsc. cbn beta in Hsc.
    exists (EmbeddedNats.nats_config sc). unfold Nats.StreamInfo. rewrite Hsc.
    split; [reflexivity | apply nats_config_matches].
  - intros Hup Hstreams Hconsumers.
    destruct (initNATS_up b srv Hup) as (en0 & (_ & _ & Hjs) & _ & _ & ->).
    pose proof (CreateConstellationStreams_taken en0 srv Hjs Hstreams) as Ret.
    destruct (CreateConstellationStreams_declares en0 srv Hjs Ret) as (S & Hjs' & _).
    destruct (CreateConstellationStreams_frame en0 srv Hjs) as (_ & _ & R & _).
    destruct (EmbeddedNats.CreateConstellationStreams en0 srv) as [en1 srv1 log1 r1].
    cbn [EmbeddedNats.returned EmbeddedNats.srv_after EmbeddedNats.en_after] in *.
    subst r1.
    apply create_consumers_taken; [exact Hjs'| |].
    + unfold Startup.takes_consumers. rewrite R. exact Hconsumers.
    + rewrite S. apply declared_streams_exist.
Qed.

(** X7.  Start-up converges: when the process is started again over the
    JetStream state that a start-up which returned nil has left, and the
    broker comes up, the second start-up returns nil and leaves that state
    exactly as it found it. *)
Theorem X7_restart_leaves_the_server_as_it_is
    (b b' : EmbeddedNats.Boot) (srv : Nats.JetStream) :
  EmbeddedNats.returned (Main.initNATS b srv) = Ok tt ->
  Startup.comes_up b' = true ->
  let first := Main.initNATS b srv in
  let second := Main.initNATS b' (EmbeddedNats.srv_after first) in
  EmbeddedNats.returned second = Ok tt
  /\ EmbeddedNats.srv_after second = EmbeddedNats.srv_after first.
Proof.
  intros Hret Hb' first second. subst second first.
  destruct (initNATS_done b srv Hret) as (_ & _ & S & C).
  revert S C. generalize (EmbeddedNats.srv_after (Main.initNATS b srv)).
  intros srv1 S C.
  destruct (initNATS_up b' srv1 Hb') as (en0 & (_ & _ & Hjs) & -> & _ & ->).
  destruct (CreateConstellationStreams_held en0 srv1 Hjs) as (R1 & S1 & Hjs').
  { rewrite S. apply declared_streams_held. }
  destruct (EmbeddedNats.CreateConstellationStreams en0 srv1) as [en1 srv1' log1 r1].
  cbn [EmbeddedNats.returned EmbeddedNats.srv_after EmbeddedNats.en_after] in *.
  subst r1 srv1'.
  apply create_consumers_present; [exact Hjs'|].
  apply Forall_forall. intros p Hp. now apply C.
Qed.

Lemma X7_restart_leaves_the_server_as_it_is_witness :
  let first := Main.initNATS Examples.boot Nats.empty_server in
  let second := Main.initNATS Examples.boot (EmbeddedNats.srv_after first) in
  EmbeddedNats.returned second = Ok tt
  /\ EmbeddedNats.srv_after second = EmbeddedNats.srv_after first.
Proof.
  apply (X7_restart_leaves_the_server_as_it_is Examples.boot Examples.boot
           Nats.empty_server); reflexivity.
Defined.

Section ManagerRuns.

Variable JSON : Type.
Variable json_Unmarshal : string -> option JSON.
Variable json_MarshalIndent : JSON -> string.




End ManagerRuns.


(* ===================================================================== *)
(** ** Subjects and the streams that take them *)
(* ===================================================================== *)

Lemma tokens_from_nonempty (s cur : string) :
  exists t ts, Nats.tokens_from cur s = t :: ts.
Proof.
  revert cur. induction s as [|c s IH]; intros cur; cbn [Nats.tokens_from]; [eauto|].
  destruct (Ascii.eqb c "."); eauto.
Qed.

Lemma tokens_from_token (p s cur : string) :
  Routing.no_dot p = true ->
  Nats.tokens_from cur (p +:+ String "." s) = (cur +:+ p) :: Nats.tokens_from "" s.
Proof.
  revert cur. induction p as [|c p IH]; intros cur Hp.
  - change ("" +:+ String "." s) with (String "." s). cbn [Nats.tokens_from].
    now rewrite append_empty_r.
  - cbn [Routing.no_dot] in Hp. apply andb_prop in Hp as [Hc Hp].
    change (String c p +:+ String "." s) with (String c (p +:+ String "." s)).
    cbn [Nats.tokens_from].
    apply negb_true_iff in Hc. rewrite Hc, IH by exact Hp.
    rewrite append_assoc. reflexivity.
Qed.

Lemma tokens_from_last (p cur : string) :
  Routing.no_dot p = true -> Nats.tokens_from cur p = [cur +:+ p].
Proof.
  revert cur. induction p as [|c p IH]; intros cur Hp.
  - cbn [Nats.tokens_from]. now rewrite append_empty_r.
  - cbn [Routing.no_dot] in Hp. apply andb_prop in Hp as [Hc Hp].
    cbn [Nats.tokens_from]. apply negb_true_iff in Hc. rewrite Hc, IH by exact Hp.
    rewrite append_assoc. reflexivity.
Qed.

(** A plain identifier is one token, and not the empty one. *)
Lemma plain_token (s : string) :
  Routing.plain s = true -> Routing.no_dot s = true /\ String.eqb s "" = false.
Proof.
  unfold Routing.plain. intros H. apply andb_prop in H as [Hne Hall].
  split; [|now apply negb_true_iff].
  clear Hne. induction s as [|c s IH]; [reflexivity|].
  cbn [Routing.all_ordinary Routing.no_dot] in *.
  apply andb_prop in Hall as [Hc Hall]. rewrite IH by exact Hall.
  unfold Routing.ordinary in Hc. cbn [existsb] in Hc.
  apply negb_true_iff, orb_false_elim in Hc as [Hc _].
  now rewrite Hc.
Qed.

(** A subject of four tokens, of which the first is [constellation] and
    the last two are not empty, is admitted by the catch-all filter of the
    domain its second token names, and by no other. *)
Lemma admitting_four (domain a b : string) :
  domain ∈ ["entities"; "events"; "telemetry"; "commands"] ->
  Routing.no_dot a = true -> String.eqb a "" = false ->
  Routing.no_dot b = true -> String.eqb b "" = false ->
  Routing.admitting
    ("constellation" +:+ String "." (domain +:+ String "." (a +:+ String "." b)))
  = ["constellation." +:+ domain +:+ ".>"].
Proof.
  intros Hd Ha Ha' Hb Hb'.
  unfold Routing.admitting, Routing.filters, Nats.subject_matches, Nats.tokens.
  assert (Routing.no_dot domain = true) as Hdot.
  { repeat (apply elem_of_cons in Hd as [-> | Hd]); [..|now apply elem_of_nil in Hd];
      reflexivity. }
  rewrite (tokens_from_token "constellation") by reflexivity.
  rewrite (tokens_from_token domain) by exact Hdot.
  rewrite (tokens_from_token a) by exact Ha.
  rewrite (tokens_from_last b) by exact Hb.
  change ("" +:+ a) with a. change ("" +:+ b) with b.
  assert (Hlit : Nats.literal ["" +:+ "constellation"; "" +:+ domain; a; b] = true).
  { cbn [Nats.literal forallb]. rewrite Ha', Hb'.
    repeat (apply elem_of_cons in Hd as [-> | Hd]); [..|now apply elem_of_nil in Hd];
      reflexivity. }
  cbn [List.filter]. rewrite Hlit. cbn [andb].
  repeat (apply elem_of_cons in Hd as [-> | Hd]); [..|now apply elem_of_nil in Hd];
    vm_compute; reflexivity.
Qed.

Lemma TelemetryEntitySubject_text (orgID entityID : string) :
  Shared.TelemetryEntitySubject orgID entityID
  = "constellation" +:+ String "." ("telemetry" +:+ String "." (orgID +:+ String "." entityID)).
Proof.
  transitivity ("constellation" +:+ String "."
                  ("telemetry" +:+ String "." (orgID +:+ String "." (entityID +:+ ""))));
    [reflexivity | now rewrite append_empty_r].
Qed.

Lemma CommandEntitySubject_text (orgID entityID : string) :
  Shared.CommandEntitySubject orgID entityID
  = "constellation" +:+ String "." ("commands" +:+ String "." (orgID +:+ String "." entityID)).
Proof.
  transitivity ("constellation" +:+ String "."
                  ("commands" +:+ String "." (orgID +:+ String "." (entityID +:+ ""))));
    [reflexivity | now rewrite append_empty_r].
Qed.

(** X9.  For identifiers that make one token each (not empty, without dot,
    wildcard or white space), every subject the helpers of pkg/shared build
    is admitted by the catch-all filter of its own domain and by none of the
    other three: entity subjects go to the entities stream, telemetry
    subjects to the telemetry stream, command subjects to the commands
    stream.  With an empty identifier no filter admits the subject. *)
Theorem X9_helper_subjects_reach_their_own_stream (orgID entityID : string) :
  Routing.plain orgID = true ->
  Routing.plain entityID = true ->
  (Routing.admitting (Shared.EntityCreatedSubject orgID) = [Shared.SubjectEntitiesAll]
   /\ Routing.admitting (Shared.EntityUpdatedSubject orgID) = [Shared.SubjectEntitiesAll]
   /\ Routing.admitting (Shared.EntityDeletedSubject orgID) = [Shared.SubjectEntitiesAll]
   /\ Routing.admitting (Shared.EntityStatusSubject orgID) = [Shared.SubjectEntitiesAll]
   /\ Routing.admitting (Shared.EntityTelemetrySubject orgID) = [Shared.SubjectEntitiesAll]
   /\ Routing.admitting (Shared.TelemetryEntitySubject orgID entityID)
      = [Shared.SubjectTelemetryAll]
   /\ Routing.admitting (Shared.CommandEntitySubject orgID entityID)
      = [Shared.SubjectCommandsAll]
   /\ Routing.admitting (Shared.CommandBroadcastSubject orgID)
      = [Shared.SubjectCommandsAll])
  /\ Routing.admitting (Shared.EntityCreatedSubject "") = []
  /\ Routing.admitting (Shared.TelemetryEntitySubject orgID "") = [].
Proof.
  intros Horg Hent.
  apply plain_token in Horg as [Ho Ho']. apply plain_token in Hent as [He He'].
  split; [repeat split|split].
  - apply (admitting_four "entities" orgID "created"); auto. set_solver.
  - apply (admitting_four "entities" orgID "updated"); auto. set_solver.
  - apply (admitting_four "entities" orgID "deleted"); auto. set_solver.
  - apply (admitting_four "entities" orgID "status"); auto. set_solver.
  - apply (admitting_four "entities" orgID "telemetry"); auto. set_solver.
  - rewrite TelemetryEntitySubject_text.
    apply (admitting_four "telemetry" orgID entityID); auto. set_solver.
  - rewrite CommandEntitySubject_text.
    apply (admitting_four "commands" orgID entityID); auto. set_solver.
  - apply (admitting_four "commands" orgID "broadcast"); auto. set_solver.
  - vm_compute. reflexivity.
  - rewrite TelemetryEntitySubject_text.
    unfold Routing.admitting, Routing.filters, Nats.subject_matches, Nats.tokens.
    rewrite (tokens_from_token "constellation") by reflexivity.
    rewrite (tokens_from_token "telemetry") by reflexivity.
    rewrite (tokens_from_token orgID) by exact Ho.
    cbn [Nats.tokens_from Nats.literal forallb List.filter].
    replace (String.eqb "" "") with true by reflexivity.
    cbn [negb andb]. rewrite !andb_false_r. reflexivity.
Qed.

Lemma X9_helper_subjects_reach_their_own_stream_witness :
  (Routing.admitting (Shared.EntityCreatedSubject "org1") = [Shared.SubjectEntitiesAll]
   /\ Routing.admitting (Shared.EntityUpdatedSubject "org1") = [Shared.SubjectEntitiesAll]
   /\ Routing.admitting (Shared.EntityDeletedSubject "org1") = [Shared.SubjectEntitiesAll]
   /\ Routing.admitting (Shared.EntityStatusSubject "org1") = [Shared.SubjectEntitiesAll]
   /\ Routing.admitting (Shared.EntityTelemetrySubject "org1") = [Shared.SubjectEntitiesAll]
   /\ Routing.admitting (Shared.TelemetryEntitySubject "org1" "e1")
      = [Shared.SubjectTelemetryAll]
   /\ Routing.admitting (Shared.CommandEntitySubject "org1" "e1")
      = [Shared.SubjectCommandsAll]
   /\ Routing.admitting (Shared.CommandBroadcastSubject "org1")
      = [Shared.SubjectCommandsAll])
  /\ Routing.admitting (Shared.EntityCreatedSubject "") = []
  /\ Routing.admitting (Shared.TelemetryEntitySubject "org1" "") = [].
Proof.
  apply (X9_helper_subjects_reach_their_own_stream "org1" "e1"); reflexivity.
Defined.

Lemma catch_all_match (domain t1 : string) (rest : list string) :
  Nats.tokens_match ["constellation"; domain; ">"] (t1 :: rest)
  = (String.eqb "constellation" "*" || String.eqb "constellation" t1)
    && match rest with
       | [] => false
       | t2 :: more =>
           (String.eqb domain "*" || String.eqb domain t2)
           && match more with [] => false | _ :: _ => true end
       end.
Proof. destruct rest as [|t2 [|t3 more]]; reflexivity. Qed.

(** X10.  The subject filters of the four streams do not overlap: no subject
    is admitted by two of them. *)
Theorem X10_stream_filters_do_not_overlap (subject : string) :
  (length (Routing.admitting subject) <= 1)%nat.
Proof.
  unfold Routing.admitting, Routing.filters, Nats.subject_matches, Nats.tokens.
  destruct (tokens_from_nonempty subject "") as (t1 & ts & ->).
  cbn [List.filter].
  destruct (Nats.literal (t1 :: ts)); cbn [andb length]; [|lia].
  change (Nats.tokens_from "" Shared.SubjectEntitiesAll)
    with ["constellation"; "entities"; ">"].
  change (Nats.tokens_from "" Shared.SubjectEventsAll)
    with ["constellation"; "events"; ">"].
  change (Nats.tokens_from "" Shared.SubjectTelemetryAll)
    with ["constellation"; "telemetry"; ">"].
  change (Nats.tokens_from "" Shared.SubjectCommandsAll)
    with ["constellation"; "commands"; ">"].
  rewrite !catch_all_match.
  destruct (String.eqb "constellation" "*" || String.eqb "constellation" t1);
    cbn [andb length]; [|lia].
  destruct ts as [|t2 more]; [cbn; lia|].
  replace (String.eqb "entities" "*") with false by reflexivity.
  replace (String.eqb "events" "*") with false by reflexivity.
  replace (String.eqb "telemetry" "*") with false by reflexivity.
  replace (String.eqb "commands" "*") with false by reflexivity.
  cbn [orb].
  destruct (match more with [] => false | _ :: _ => true end);
    rewrite ?andb_false_r; [|cbn; lia].
  rewrite !andb_true_r.
  destruct (String.eqb_spec "entities" t2) as [<-|]; [cbn; lia|].
  destruct (String.eqb_spec "events" t2) as [<-|]; [cbn; lia|].
  destruct (String.eqb_spec "telemetry" t2) as [<-|]; [cbn; lia|].
  destruct (String.eqb "commands" t2); cbn; lia.
Qed.

(* ===================================================================== *)
(** ** The publish bridge *)
(* ===================================================================== *)

Lemma streams_for_same (a b : Nats.JetStream) (subject : string) :
  Nats.js_streams a = Nats.js_streams b ->
  Nats.streams_for a subject = Nats.streams_for b subject.
Proof. unfold Nats.streams_for. now intros ->. Qed.

(** [PublishWithDedup] with a JetStream context, case by case. *)
Lemma PublishWithDedup_cases (en : EmbeddedNats.EmbeddedNATS) (srv : Nats.JetStream)
    (subject data msgID : string) :
  EmbeddedNats.js en = Some tt ->
  EmbeddedNats.PublishWithDedup en srv subject data msgID
  = match Nats.streams_for srv subject with
    | [] => (srv, Error ("failed to publish message: " +:+ Nats.ErrNoStreamResponse))
    | stream :: _ =>
        if negb (String.eqb msgID "") && bool_decide (msgID ∈ Nats.stored_ids srv stream)
        then (srv, Ok tt)
        else
          match Nats.msg_refused (Nats.js_refuses srv) (Nats.js_streams srv)
                  (Nats.js_msgs srv) stream
                  {| Nats.Subject := subject; Nats.Data := data;
                     Nats.Header := <[Nats.MsgIdHdr := msgID]> ∅ |} with
          | Some err => (srv, Error ("failed to publish message: " +:+ err))
          | None =>
              ({| Nats.js_streams := Nats.js_streams srv;
                  Nats.js_consumers := Nats.js_consumers srv;
                  Nats.js_msgs :=
                    Nats.js_msgs srv
                    ++ [(stream, {| Nats.Subject := subject; Nats.Data := data;
                                    Nats.Header := <[Nats.MsgIdHdr := msgID]> ∅ |})];
                  Nats.js_refuses := Nats.js_refuses srv |},
               Ok tt)
          end
    end.
Proof.
  intros Hjs. unfold EmbeddedNats.PublishWithDedup, Nats.PublishMsg, Nats.duplicate.
  rewrite Hjs. cbn [Nats.NewMsg Nats.Subject Nats.Data Nats.Header].
  destruct (Nats.streams_for srv subject) as [|stream others]; [reflexivity|].
  rewrite lookup_insert_eq.
  destruct (negb (String.eqb msgID "") && bool_decide (msgID ∈ Nats.stored_ids srv stream));
    [reflexivity|].
  destruct (Nats.msg_refused _ _ _ _ _) as [err|]; [|reflexivity].
  cbn [Fmt.Sprintf Fmt.verb]. now rewrite append_empty_r.
Qed.

(** X11.  [PublishWithDedup] never changes the streams or the consumers.
    When it returns nil the server has taken at most one message, which
    carries the given subject and payload and the given identifier in the
    [Nats-Msg-Id] header.  When it returns an error, the error is the
    server's, wrapped, and the server is as it was; when no stream takes the
    subject, that is the error of a publish without response. *)
Theorem X11_publish_stores_at_most_one_message
    (en : EmbeddedNats.EmbeddedNATS) (srv : Nats.JetStream)
    (subject data msgID : string) :
  EmbeddedNats.js en = Some tt ->
  let done_ := EmbeddedNats.PublishWithDedup en srv subject data msgID in
  Nats.js_streams (fst done_) = Nats.js_streams srv
  /\ Nats.js_consumers (fst done_) = Nats.js_consumers srv
  /\ match snd done_ with
     | Ok _ =>
         Nats.js_msgs (fst done_) = Nats.js_msgs srv
         \/ exists stream,
              Nats.js_msgs (fst done_)
              = Nats.js_msgs srv
                ++ [(stream, {| Nats.Subject := subject; Nats.Data := data;
                                Nats.Header := <[Nats.MsgIdHdr := msgID]> ∅ |})]
     | Error err =>
         fst done_ = srv
         /\ exists cause, err = "failed to publish message: " +:+ cause
     | Panic _ => False
     end
  /\ (Nats.streams_for srv subject = [] ->
      snd done_ = Error ("failed to publish message: " +:+ Nats.ErrNoStreamResponse)).
Proof.
  intros Hjs. cbn zeta. rewrite (PublishWithDedup_cases en srv subject data msgID Hjs).
  destruct (Nats.streams_for srv subject) as [|stream others]; cbn [fst snd].
  - repeat split; eauto.
  - destruct (negb (String.eqb msgID "")
              && bool_decide (msgID ∈ Nats.stored_ids srv stream));
      [cbn [fst snd]; repeat split; auto; discriminate|].
    destruct (Nats.msg_refused _ _ _ _ _) as [err|]; cbn [fst snd Nats.js_streams
      Nats.js_consumers Nats.js_msgs]; repeat split; eauto; discriminate.
Qed.

Lemma X11_publish_stores_at_most_one_message_witness :
  let done_ := EmbeddedNats.PublishWithDedup Examples.en Examples.srv
                 "constellation.entities.org1.created" "{}" "e1-created-100" in
  Nats.js_streams (fst done_) = Nats.js_streams Examples.srv
  /\ Nats.js_consumers (fst done_) = Nats.js_consumers Examples.srv
  /\ match snd done_ with
     | Ok _ =>
         Nats.js_msgs (fst done_) = Nats.js_msgs Examples.srv
         \/ exists stream,
              Nats.js_msgs (fst done_)
              = Nats.js_msgs Examples.srv
                ++ [(stream, {| Nats.Subject := "constellation.entities.org1.created";
                                Nats.Data := "{}";
                                Nats.Header := <[Nats.MsgIdHdr := "e1-created-100"]> ∅ |})]
     | Error err =>
         fst done_ = Examples.srv
         /\ exists cause, err = "failed to publish message: " +:+ cause
     | Panic _ => False
     end
  /\ (Nats.streams_for Examples.srv "constellation.entities.org1.created" = [] ->
      snd done_ = Error ("failed to publish message: " +:+ Nats.ErrNoStreamResponse)).
Proof.
  apply (X11_publish_stores_at_most_one_message Examples.en Examples.srv).
  vm_compute. reflexivity.
Defined.

(** X12.  Publishing again under a non-empty identifier that a publish on
    the same subject has returned nil for stores nothing: the second call
    returns nil and leaves the server as the first left it, whatever payload
    it carries. *)
Theorem X12_same_identifier_is_stored_once
    (en : EmbeddedNats.EmbeddedNATS) (srv : Nats.JetStream)
    (subject data again msgID : string) :
  EmbeddedNats.js en = Some tt ->
  msgID <> "" ->
  snd (EmbeddedNats.PublishWithDedup en srv subject data msgID) = Ok tt ->
  EmbeddedNats.PublishWithDedup en
    (fst (EmbeddedNats.PublishWithDedup en srv subject data msgID)) subject again msgID
  = (fst (EmbeddedNats.PublishWithDedup en srv subject data msgID), Ok tt).
Proof.
  intros Hjs Hid. rewrite (PublishWithDedup_cases en srv subject data msgID Hjs).
  apply String.eqb_neq in Hid.
  destruct (Nats.streams_for srv subject) as [|stream others] eqn:Hs;
    cbn [fst snd]; [discriminate|].
  destruct (negb (String.eqb msgID "")
            && bool_decide (msgID ∈ Nats.stored_ids srv stream)) eqn:Hd;
    cbn [fst snd].
  - intros _. rewrite PublishWithDedup_cases by exact Hjs. now rewrite Hs, Hd.
  - destruct (Nats.msg_refused _ _ _ _ _) as [err|]; cbn [fst snd]; [discriminate|].
    intros _. rewrite PublishWithDedup_cases by exact Hjs.
    rewrite (streams_for_same _ srv subject) by reflexivity. rewrite Hs.
    rewrite Hid. cbn [negb andb].
    rewrite bool_decide_eq_true_2; [reflexivity|].
    unfold Nats.stored_ids. cbn [Nats.js_msgs]. rewrite omap_app.
    apply elem_of_app. right. cbn [omap list_omap fst snd Nats.Header].
    rewrite String.eqb_refl, lookup_insert_eq. apply list_elem_of_here.
Qed.

Lemma X12_same_identifier_is_stored_once_witness :
  EmbeddedNats.PublishWithDedup Examples.en
    (fst (EmbeddedNats.PublishWithDedup Examples.en Examples.srv
            "constellation.entities.org1.created" "{}" "e1-created-100"))
    "constellation.entities.org1.created" "other" "e1-created-100"
  = (fst (EmbeddedNats.PublishWithDedup Examples.en Examples.srv
            "constellation.entities.org1.created" "{}" "e1-created-100"), Ok tt).
Proof.
  apply (X12_same_identifier_is_stored_once Examples.en Examples.srv).
  - vm_compute. reflexivity.
  - discriminate.
  - vm_compute. reflexivity.
Defined.

(** X13.  Publishing an entity event never changes the streams or the
    consumers and stores at most one message; a stored message carries the
    subject built by [EntityCreatedSubject], and in its [Nats-Msg-Id] header
    the identifier built from the entity, the kind and the clock.  When
    nothing is handed to the bridge (no broker, no JetStream context, or the
    event does not encode), the server is left as it was. *)
Theorem X13_entity_event_adds_at_most_one_message
    (marshal : Services.Event -> res string) (s : Services.EntityService)
    (srv : Nats.JetStream) (amb : Services.Ambient) (e : Ontology.Entity)
    (kind : string) :
  let r := Services.publishEntityEvent marshal s srv amb e kind in
  Nats.js_streams (Services.srv_after r) = Nats.js_streams srv
  /\ Nats.js_consumers (Services.srv_after r) = Nats.js_consumers srv
  /\ (Nats.js_msgs (Services.srv_after r) = Nats.js_msgs srv
      \/ exists stream payload,
           Nats.js_msgs (Services.srv_after r)
           = Nats.js_msgs srv
             ++ [(stream,
                  {| Nats.Subject := Shared.EntityCreatedSubject (Ontology.OrgID e);
                     Nats.Data := payload;
                     Nats.Header :=
                       <[Nats.MsgIdHdr := Services.msgID e kind (Services.now_nano amb)]>
                         ∅ |})])
  /\ (Services.handed r = None -> Services.srv_after r = srv).
Proof.
  cbn zeta. unfold Services.publishEntityEvent.
  destruct (Services.nats s) as [en|]; [|cbn; auto].
  unfold EmbeddedNats.JetStream.
  destruct (EmbeddedNats.js en) as [[]|] eqn:Hjs; [|cbn; auto].
  match goal with |- context [marshal ?ev] => destruct (marshal ev) as [data|err|err] end;
    [|cbn; auto..].
  assert (Hsubject : forall b : bool,
            Services.Subject
              (if b
               then {| Services.ID := Services.uuid amb; Services.Type_ := kind;
                       Services.Subject := Shared.EntityCreatedSubject (Ontology.OrgID e);
                       Services.Data :=
                         <["entity" := Services.DEntity e]>
                         (<["priority" := Services.DString (Ontology.Priority e)]>
                         (<["status" := Services.DString (Ontology.Status e)]>
                         (<["entity_type" := Services.DString (Ontology.EntityType e)]>
                         (<["org_id" := Services.DString (Ontology.OrgID e)]>
                         (<["entity_id" := Services.DString (Ontology.EntityID e)]> ∅)))));
                       Services.Timestamp := Services.now_utc amb;
                       Services.Source := "entity-service" |}
               else {| Services.ID := Services.uuid amb; Services.Type_ := kind;
                       Services.Subject := Shared.EntityCreatedSubject (Ontology.OrgID e);
                       Services.Data :=
                         <["priority" := Services.DString (Ontology.Priority e)]>
                         (<["status" := Services.DString (Ontology.Status e)]>
                         (<["entity_type" := Services.DString (Ontology.EntityType e)]>
                         (<["org_id" := Services.DString (Ontology.OrgID e)]>
                         (<["entity_id" := Services.DString (Ontology.EntityID e)]> ∅))));
                       Services.Timestamp := Services.now_utc amb;
                       Services.Source := "entity-service" |})
            = Shared.EntityCreatedSubject (Ontology.OrgID e)).
  { now intros []. }
  cbn [Services.ID Services.Type_ Services.Subject Services.Data Services.Timestamp
       Services.Source].
  rewrite !Hsubject.
  rewrite (PublishWithDedup_cases en srv _ data _ Hjs).
  destruct (Nats.streams_for srv (Shared.EntityCreatedSubject (Ontology.OrgID e)))
    as [|stream others]; [cbn; repeat split; auto; discriminate|].
  destruct (negb _ && bool_decide _); [cbn; repeat split; auto; discriminate|].
  destruct (Nats.msg_refused _ _ _ _ _); cbn; repeat split; eauto; discriminate.
Qed.

(* ===================================================================== *)
(** ** Health *)
(* ===================================================================== *)

(** X14.  The health endpoint answers 200 exactly when the database answers
    the ping, the broker connection exists and is connected, and the broker
    process, if the service holds one, is running; otherwise it answers 503.
    The body always reports on both the database and the broker. *)
Theorem X14_health_is_ok_iff_database_and_broker_are
    (ping : option string) (en : EmbeddedNats.EmbeddedNATS) (connected running : bool) :
  let answer := Health.Handler ping en connected running in
  fst answer
  = (if bool_decide (ping = None)
        && bool_decide (EmbeddedNats.nc en <> None)
        && connected
        && (bool_decide (EmbeddedNats.server en = None) || running)
     then 200 else 503)
  /\ (Health.Status (snd answer) = "healthy" <-> fst answer = 200)
  /\ is_Some (Health.Details (snd answer) !! "database")
  /\ is_Some (Health.Details (snd answer) !! "nats").
Proof.
  cbn zeta. unfold Health.Handler, Health.HealthCheck.
  destruct ping, (EmbeddedNats.nc en) as [[]|], connected,
    (EmbeddedNats.server en) as [[]|], running;
    cbn; (split; [reflexivity|]); (split; [split; (discriminate || reflexivity)|]);
    split; simplify_map_eq; eauto.
Qed.

(* ===================================================================== *)
(** ** Updating an entity *)
(* ===================================================================== *)

Section Updating.

Variable json_Marshal : GoValue -> string.

Lemma build_update_args (updates : list (string * GoValue)) (query : string)
    (args : list GoValue) :
  exists more,
    snd (Services.build_update json_Marshal query args updates) = args ++ more
    /\ (length more
        <= length (List.filter Services.is_recognized (map fst updates)))%nat
    /\ (existsb Rows.odd_is_live updates = true ->
        (length more
         < length (List.filter Services.is_recognized (map fst updates)))%nat).
Proof.
  revert query args. induction updates as [|[key value] updates IH]; intros query args.
  - exists []. cbn. rewrite app_nil_r. repeat split; [lia | discriminate].
  - cbn [Services.build_update map fst List.filter existsb].
    pose proof (update_case_ignored json_Marshal key value) as Hign.
    destruct (Services.update_case json_Marshal key value) as [text extra] eqn:Hcase.
    destruct (IH (query +:+ text) (args ++ extra)) as (more & -> & Hle & Hlt).
    exists (extra ++ more). rewrite <- app_assoc. split; [reflexivity|].
    rewrite length_app.
    destruct (Services.is_recognized key) eqn:Hrec.
    + assert (Hextra : (length extra <= 1)%nat
                       /\ (Rows.odd_is_live (key, value) = true -> length extra = 0%nat)).
      { unfold Services.update_case in Hcase. unfold Rows.odd_is_live. cbn [fst snd].
        destruct (existsb (String.eqb key) ["status"; "priority"; "entity_type"]) eqn:E1.
        - injection Hcase as <- <-. split; [cbn; lia|].
          cbn [existsb] in E1. destruct (String.eqb_spec key "is_live") as [->|];
            [discriminate E1 | discriminate].
        - destruct (String.eqb key "is_live") eqn:E2.
          + injection Hcase as <- <-.
            destruct value as [| [|] | | | | |]; cbn; split; (lia || discriminate || auto).
          + cbn [andb]. split; [|discriminate].
            destruct (existsb (String.eqb key)
                        ["latitude"; "longitude"; "altitude"; "heading"; "velocity"]);
              [injection Hcase as <- <-; cbn; lia|].
            destruct (existsb (String.eqb key) ["metadata"; "components"; "tags"]);
              injection Hcase as <- <-; cbn; lia. }
      destruct Hextra as [H1 H0]. cbn [length]. split; [lia|].
      intros Hodd. apply orb_prop in Hodd as [Hodd|Hodd].
      * rewrite (H0 Hodd). lia.
      * specialize (Hlt Hodd). lia.
    + specialize (Hign eq_refl). injection Hign as -> ->. cbn [length].
      split; [lia|].
      intros Hodd. apply orb_prop in Hodd as [Hodd|Hodd]; [|apply Hlt, Hodd].
      unfold Rows.odd_is_live in Hodd. cbn [fst] in Hodd.
      apply andb_prop in Hodd as [Hk _]. apply String.eqb_eq in Hk. subst key.
      discriminate Hrec.
Qed.

(** The columns a statement of [UpdateEntity] assigns never include the two
    of the WHERE clause, and [updated_at] comes first and once. *)
Lemma set_columns_shape (updates : list (string * GoValue)) :
  exists rest,
    Services.set_columns updates = "updated_at" :: rest
    /\ ("updated_at" ∉ rest)
    /\ ("org_id" ∉ Services.set_columns updates)
    /\ ("entity_id" ∉ Services.set_columns updates).
Proof.
  unfold Services.set_columns. eexists. split; [reflexivity|].
  assert (H : forall c, Services.is_recognized c = false ->
                        c ∉ List.filter Services.is_recognized (map fst updates)).
  { intros c Hc Hin. apply list_elem_of_In, List.filter_In in Hin as [_ Hin].
    congruence. }
  split; [now apply H|].
  split; apply not_elem_of_cons; (split; [discriminate|]); now apply H.
Qed.

Lemma has_assign (columns : list string) (values : list GoValue) (r : Sql.Row)
    (c : string) (v : GoValue) :
  c ∉ columns -> Sql.has (Sql.assign r columns values) c v = Sql.has r c v.
Proof. intros H. unfold Sql.has. now rewrite assign_frame. Qed.

(** What running the statement of [UpdateEntity] does, once the arguments
    match the placeholders and can be bound. *)
Lemma exec_update_where (table : list Sql.Row) (columns : list string)
    (values : list GoValue) (org ent : string) :
  length values = length columns ->
  forallb Sql.bindable values = true ->
  Sql.exec_update table columns (values ++ [VString org; VString ent])
  = Ok (map (fun r => if Rows.of_entity org ent r
                      then Sql.assign r columns values else r) table,
        Z.of_nat (length (List.filter (Rows.of_entity org ent) table))).
Proof.
  intros Hlen Hbind. unfold Sql.exec_update. rewrite <- Hlen.
  rewrite length_app. cbn [length].
  rewrite Nat.eqb_refl. cbn [negb].
  rewrite forallb_app, Hbind. cbn [forallb Sql.bindable andb negb].
  rewrite take_app_length.
  replace (nth (length values) (values ++ [VString org; VString ent]) VNil)
    with (VString org)
    by (rewrite List.app_nth2, Nat.sub_diag by lia; reflexivity).
  replace (nth (S (length values)) (values ++ [VString org; VString ent]) VNil)
    with (VString ent)
    by (rewrite List.app_nth2 by lia;
        replace (S (length values) - length values)%nat with 1%nat by lia;
        reflexivity).
  reflexivity.
Qed.

Lemma exec_update_refused (table : list Sql.Row) (columns : list string)
    (values : list GoValue) (org ent : string) :
  length values <> length columns ->
  exists err,
    Sql.exec_update table columns (values ++ [VString org; VString ent]) = Error err.
Proof.
  intros Hlen. unfold Sql.exec_update. rewrite length_app. cbn [length].
  destruct (Nat.eqb_spec (length values + 2) (length columns + 2)); [lia|].
  cbn [negb]. eauto.
Qed.

Lemma untouched_without_hit (table : list Sql.Row) (f : Sql.Row -> Sql.Row)
    (p : Sql.Row -> bool) :
  length (List.filter p table) = 0%nat ->
  map (fun r => if p r then f r else r) table = table.
Proof.
  induction table as [|r table IH]; [reflexivity|].
  cbn [List.filter map]. destruct (p r); [discriminate|].
  intros H. now rewrite IH.
Qed.

Lemma find_after_update (table : list Sql.Row) (f : Sql.Row -> Sql.Row)
    (p : Sql.Row -> bool) :
  (forall r, p (f r) = p r) ->
  List.find p (map (fun r => if p r then f r else r) table)
  = option_map f (List.find p table).
Proof.
  intros Hp. induction table as [|r table IH]; [reflexivity|].
  cbn [map List.find]. destruct (p r) eqn:E.
  - now rewrite Hp, E.
  - now rewrite E.
Qed.

Lemma find_some_when_counted (table : list Sql.Row) (p : Sql.Row -> bool) :
  length (List.filter p table) <> 0%nat ->
  exists r, List.find p table = Some r /\ r ∈ table /\ p r = true.
Proof.
  induction table as [|r table IH]; [now intros []|].
  cbn [List.filter List.find]. destruct (p r) eqn:E.
  - intros _. exists r. repeat split; [apply list_elem_of_here | exact E].
  - intros H. destruct (IH H) as (r' & F & I & P).
    exists r'. repeat split; [exact F | now apply list_elem_of_further | exact P].
Qed.

End Updating.

Section UpdateOutcome.

Variable json_Marshal : GoValue -> string.

Lemma exec_update_unbindable (table : list Sql.Row) (columns : list string)
    (args : list GoValue) :
  forallb Sql.bindable args = false ->
  exists err, Sql.exec_update table columns args = Error err.
Proof.
  intros H. unfold Sql.exec_update.
  destruct (negb (Nat.eqb (length args) (length columns + 2))); [eauto|].
  rewrite H. cbn [negb]. eauto.
Qed.

(** The two ways [UpdateEntity] can go on a non-empty map: it returns an
    error and leaves the table as it was, or the statement ran on at least
    one row and the first such row, as updated, is returned. *)
Lemma UpdateEntity_outcome (s : Services.EntityService) (now orgID entityID : string)
    (updates : list (string * GoValue)) :
  updates <> [] ->
  let u := Services.UpdateEntity json_Marshal s now orgID entityID updates in
  let columns := Services.set_columns updates in
  (exists err, u = Services.mkUpdated (Services.db s) (Error err) None)
  \/ (exists more r,
        snd (Services.build_update json_Marshal "UPDATE entities SET updated_at = ?"
               [VString now] updates) = VString now :: more
        /\ length (VString now :: more) = length columns
        /\ List.find (Rows.of_entity orgID entityID) (Services.db s) = Some r
        /\ u = Services.mkUpdated
                 (map (fun r => if Rows.of_entity orgID entityID r
                                then Sql.assign r columns (VString now :: more) else r)
                      (Services.db s))
                 (Ok (Sql.assign r columns (VString now :: more)))
                 (Some Shared.EventTypeUpdated)).
Proof.
  intros Hne. cbn zeta. unfold Services.UpdateEntity.
  destruct updates as [|p updates]; [contradiction|]. cbn [length Nat.eqb].
  set (ups := p :: updates). unfold Services.update_statement.
  destruct (build_update_args json_Marshal ups "UPDATE entities SET updated_at = ?"
              [VString now]) as (more & Hargs & Hle & _).
  destruct (Services.build_update json_Marshal "UPDATE entities SET updated_at = ?"
              [VString now] ups) as [query args].
  cbn [snd] in Hargs. subst args. cbn [app].
  destruct (set_columns_shape ups) as (rest & Hcols & Hup & Horg & Hent).
  destruct (Nat.eq_dec (length (VString now :: more)) (length (Services.set_columns ups)))
    as [Hlen|Hlen].
  - destruct (forallb Sql.bindable (VString now :: more)) eqn:Hbind.
    + change (VString now :: more ++ [VString orgID; VString entityID])
        with ((VString now :: more) ++ [VString orgID; VString entityID]).
      rewrite (exec_update_where _ _ _ _ _ Hlen Hbind).
      destruct (Z.eqb_spec
                  (Z.of_nat (length (List.filter (Rows.of_entity orgID entityID)
                                       (Services.db s)))) 0) as [Hz|Hz].
      * left. rewrite untouched_without_hit by lia. eauto.
      * destruct (find_some_when_counted (Services.db s)
                    (Rows.of_entity orgID entityID)) as (r & Hfind & _ & _); [lia|].
        right. exists more, r. repeat split; [exact Hlen | exact Hfind |].
        unfold Sql.query_row.
        change (fun r0 : Sql.Row =>
                  Sql.has r0 "org_id" (VString orgID)
                  && Sql.has r0 "entity_id" (VString entityID))
          with (Rows.of_entity orgID entityID).
        rewrite find_after_update, Hfind; [reflexivity|].
        intros r0. unfold Rows.of_entity. now rewrite !has_assign.
    + left.
      destruct (exec_update_unbindable (Services.db s) (Services.set_columns ups)
                  (VString now :: more ++ [VString orgID; VString entityID]))
        as [err ->]; [|eauto].
      change (VString now :: more ++ [VString orgID; VString entityID])
        with ((VString now :: more) ++ [VString orgID; VString entityID]).
      rewrite forallb_app, Hbind. reflexivity.
  - left.
    change (VString now :: more ++ [VString orgID; VString entityID])
      with ((VString now :: more) ++ [VString orgID; VString entityID]).
    destruct (exec_update_refused (Services.db s) (Services.set_columns ups)
                (VString now :: more) orgID entityID Hlen) as [err ->].
    eauto.
Qed.

(** X16.  [UpdateEntity] never writes to the row of another entity: a row
    whose organisation or entity identifier differs from the ones given is
    afterwards exactly as it was, whatever the call returns. *)
Theorem X16_update_leaves_other_entities_alone (s : Services.EntityService)
    (now orgID entityID : string) (updates : list (string * GoValue)) :
  let u := Services.UpdateEntity json_Marshal s now orgID entityID updates in
  Forall2 (fun r r' : Sql.Row => Rows.of_entity orgID entityID r = false -> r' = r)
          (Services.db s) (Services.db_after u).
Proof.
  cbn zeta.
  assert (Hsame : forall t : list Sql.Row,
            Forall2 (fun r r' : Sql.Row =>
                       Rows.of_entity orgID entityID r = false -> r' = r) t t).
  { induction t; constructor; auto. }
  destruct updates as [|p updates]; [apply Hsame|].
  destruct (UpdateEntity_outcome s now orgID entityID (p :: updates)) as
    [[err ->] | (more & r & _ & _ & _ & ->)]; [discriminate | apply Hsame |].
  cbn [Services.db_after].
  induction (Services.db s) as [|r0 t IH]; cbn [map]; constructor; [|exact IH].
  now intros ->.
Qed.

(** X17.  An update whose [is_live] is not a boolean is refused: the
    statement gets a placeholder for the column but no argument, the call
    returns an error, the table is as it was and no event is started. *)
Theorem X17_is_live_must_be_a_boolean (s : Services.EntityService)
    (now orgID entityID : string) (updates : list (string * GoValue)) :
  existsb Rows.odd_is_live updates = true ->
  let u := Services.UpdateEntity json_Marshal s now orgID entityID updates in
  (exists err, Services.result u = Error err)
  /\ Services.db_after u = Services.db s
  /\ Services.spawned u = None.
Proof.
  intros Hodd. cbn zeta.
  destruct updates as [|p updates]; [discriminate|].
  destruct (UpdateEntity_outcome s now orgID entityID (p :: updates)) as
    [[err ->] | (more & r & Hargs & Hlen & _ & _)]; [discriminate | cbn; eauto |].
  exfalso.
  destruct (build_update_args json_Marshal (p :: updates)
              "UPDATE entities SET updated_at = ?" [VString now])
    as (more' & Hargs' & _ & Hlt).
  rewrite Hargs in Hargs'. injection Hargs' as ->.
  specialize (Hlt Hodd). unfold Services.set_columns in Hlen. cbn [length] in Hlen. lia.
Qed.

End UpdateOutcome.

Lemma X17_is_live_must_be_a_boolean_witness :
  let u := Services.UpdateEntity Examples.encode_value Examples.stored "t1" "org1" "e1"
             [("is_live", VString "yes")] in
  (exists err, Services.result u = Error err)
  /\ Services.db_after u = Services.db Examples.stored
  /\ Services.spawned u = None.
Proof.
  apply (X17_is_live_must_be_a_boolean Examples.encode_value Examples.stored
           "t1" "org1" "e1" [("is_live", VString "yes")]).
  reflexivity.
Defined.

(* ===================================================================== *)
(** ** Reading, deleting and creating entities *)
(* ===================================================================== *)

Section EntityOperations.

Variable scan : Sql.Row -> res Entities.Scanned.
Variable time_Parse : string -> Z.
Variable json_Marshal : GoValue -> string.

Lemma scanEntity_error (scanner : option Sql.Row) (err : string) :
  Entities.scanEntity scan time_Parse scanner = Error err ->
  exists cause, err = "failed to scan entity: " +:+ cause.
Proof.
  unfold Entities.scanEntity.
  destruct scanner as [row|]; [destruct (scan row) as [v|e|e]|];
    intros [= <-]; eexists; cbn [Fmt.Sprintf Fmt.verb]; rewrite append_empty_r;
    reflexivity.
Qed.

Lemma scanEntity_no_panic (scanner : option Sql.Row) (p : string) :
  Entities.scanEntity scan time_Parse scanner <> Panic p.
Proof.
  unfold Entities.scanEntity.
  destruct scanner as [row|]; [destruct (scan row) as [v|e|e]|]; discriminate.
Qed.

(** [GetEntity] hands on what [scanEntity] returned. *)
Lemma GetEntity_is_scanEntity (s : Services.EntityService) (orgID entityID : string) :
  Entities.GetEntity scan time_Parse s orgID entityID
  = Entities.scanEntity scan time_Parse (Sql.query_row (Services.db s) orgID entityID).
Proof.
  unfold Entities.GetEntity.
  destruct (Entities.scanEntity scan time_Parse
              (Sql.query_row (Services.db s) orgID entityID)) as [e|err|p] eqn:E;
    [reflexivity| |now apply scanEntity_no_panic in E].
  destruct (scanEntity_error _ _ E) as [cause ->]. reflexivity.
Qed.

(** X18.  [scanEntity] wraps every error of the scan, so the test of
    [GetEntity] for [sql.ErrNoRows] never holds: [GetEntity] never returns
    the error [entity not found], and the handler of GET never answers 404.
    For an entity that is not in the table, [GetEntity] returns the wrapped
    scan error and the handler answers 500 with code GET_FAILED. *)
Theorem X18_missing_entity_reads_as_scan_failure
    (s : Services.EntityService) (orgID entityID : string) :
  Sql.query_row (Services.db s) orgID entityID = None ->
  orgID <> "" -> entityID <> "" ->
  Entities.GetEntity scan time_Parse s orgID entityID
  = Error ("failed to scan entity: " +:+ Entities.ErrNoRows)
  /\ Entities.Handlers_GetEntity scan time_Parse s orgID entityID
     = Entities.sendError 500 "GET_FAILED"
         ("failed to scan entity: " +:+ Entities.ErrNoRows)
  /\ (forall s' org ent,
        Entities.GetEntity scan time_Parse s' org ent <> Error "entity not found"
        /\ Entities.StatusCode (Entities.Handlers_GetEntity scan time_Parse s' org ent)
           <> 404).
Proof.
  intros Hnone Horg Hent.
  assert (Hget : Entities.GetEntity scan time_Parse s orgID entityID
                 = Error ("failed to scan entity: " +:+ Entities.ErrNoRows)).
  { rewrite GetEntity_is_scanEntity, Hnone. reflexivity. }
  split; [exact Hget|]. split.
  - unfold Entities.Handlers_GetEntity. rewrite Hget.
    destruct (String.eqb_spec orgID ""); [contradiction|].
    destruct (String.eqb_spec entityID ""); [contradiction|].
    reflexivity.
  - intros s' org ent.
    assert (Hnever : Entities.GetEntity scan time_Parse s' org ent
                     <> Error "entity not found").
    { rewrite GetEntity_is_scanEntity. intros E.
      destruct (scanEntity_error _ _ E) as [cause Hc]. discriminate Hc. }
    split; [exact Hnever|].
    unfold Entities.Handlers_GetEntity.
    destruct (String.eqb org "" || String.eqb ent ""); [discriminate|].
    destruct (Entities.GetEntity scan time_Parse s' org ent) as [e|err|p] eqn:E;
      [discriminate| |].
    + destruct (String.eqb_spec err "entity not found") as [->|]; [|discriminate].
      now destruct Hnever.
    + rewrite GetEntity_is_scanEntity in E. now apply scanEntity_no_panic in E.
Qed.

Lemma delete_without_hit (table : list Sql.Row) (p : Sql.Row -> bool) :
  length (List.filter p table) = 0%nat ->
  List.filter (fun r => negb (p r)) table = table.
Proof.
  induction table as [|r table IH]; [reflexivity|].
  cbn [List.filter]. destruct (p r); [discriminate|].
  cbn [negb]. intros H. now rewrite IH.
Qed.

Lemma find_after_delete (table : list Sql.Row) (p : Sql.Row -> bool) :
  List.find p (List.filter (fun r => negb (p r)) table) = None.
Proof.
  induction table as [|r table IH]; [reflexivity|].
  cbn [List.filter]. destruct (p r) eqn:E; cbn [negb]; [exact IH|].
  cbn [List.find]. now rewrite E.
Qed.

(** X19.  [DeleteEntity] is all or nothing.  When it returns nil, every row
    of that entity is gone and every other row is kept, in order; a delete
    event is started for the entity as it was read before the deletion; and
    the entity can no longer be found.  When it returns an error, the table
    is as it was and no event is started. *)
Theorem X19_delete_is_all_or_nothing (s : Services.EntityService)
    (exec : option string) (orgID entityID : string) :
  let d := Entities.DeleteEntity scan time_Parse s exec orgID entityID in
  match Entities.deleted d with
  | None =>
      (exists entity,
         Entities.GetEntity scan time_Parse s orgID entityID = Ok entity
         /\ Entities.deleted_spawned d = Some (entity, Shared.EventTypeDeleted))
      /\ Entities.deleted_db d
         = List.filter (fun r => negb (Rows.of_entity orgID entityID r)) (Services.db s)
      /\ Sql.query_row (Entities.deleted_db d) orgID entityID = None
  | Some _ =>
      Entities.deleted_spawned d = None /\ Entities.deleted_db d = Services.db s
  end.
Proof.
  cbn zeta. unfold Entities.DeleteEntity.
  destruct (Entities.GetEntity scan time_Parse s orgID entityID) as [entity|err|p];
    [|cbn; auto..].
  destruct exec as [err|]; [cbn; auto|].
  unfold Entities.exec_delete.
  change (fun r : Sql.Row =>
            Sql.has r "org_id" (VString orgID) && Sql.has r "entity_id" (VString entityID))
    with (Rows.of_entity orgID entityID).
  destruct (Z.eqb_spec
              (Z.of_nat (length (List.filter (Rows.of_entity orgID entityID)
                                   (Services.db s)))) 0) as [Hz|Hz];
    cbn [Entities.deleted Entities.deleted_spawned Entities.deleted_db].
  - split; [reflexivity|]. apply delete_without_hit.
    apply Nat2Z.inj. exact Hz.
  - split; [eauto|]. split; [reflexivity|].
    apply find_after_delete.
Qed.

(** X20.  What [CreateEntity] returns against what it stored.  On success
    the table gains one row, at the end, and the identifier, organisation,
    kind, status, priority and metadata of the returned entity are the
    values of that row; each coordinate of the row is the one of the
    returned entity, except that a coordinate that is not a number is stored
    as NULL while the returned entity still carries it; the status and the
    priority are never empty; an altitude of zero is stored as NULL and
    returned as absent; and a create event is started for the returned
    entity.  On failure the table is as it was and no event is started. *)
Theorem X20_created_entity_mirrors_the_stored_row (s : Services.EntityService)
    (entityID : string) (clock : Entities.Clock) (insert : option string)
    (orgID : string) (req : Entities.CreateEntityRequest) :
  let c := Entities.CreateEntity json_Marshal s entityID clock insert orgID req in
  match Entities.created c with
  | Ok e =>
      (exists row,
         Entities.created_db c = Services.db s ++ [row]
         /\ row !! "entity_id" = Some (VString (Ontology.EntityID e))
         /\ row !! "org_id" = Some (VString (Ontology.OrgID e))
         /\ row !! "entity_type" = Some (VString (Ontology.EntityType e))
         /\ row !! "status" = Some (VString (Ontology.Status e))
         /\ row !! "priority" = Some (VString (Ontology.Priority e))
         /\ row !! "metadata" = Some (VString (Ontology.Metadata e))
         /\ row !! "latitude" = Some (Rows.nullable (Ontology.Latitude e))
         /\ row !! "longitude" = Some (Rows.nullable (Ontology.Longitude e))
         /\ row !! "altitude" = Some (Rows.nullable (Ontology.Altitude e)))
      /\ Ontology.EntityID e = entityID
      /\ Ontology.OrgID e = orgID
      /\ Ontology.Status e <> ""
      /\ Ontology.Priority e <> ""
      /\ (forall bits, Ontology.Altitude e = Some bits -> Entities.is_zero bits = false)
      /\ Entities.created_spawned c = Some (e, Shared.EventTypeCreated)
  | Error _ | Panic _ =>
      Entities.created_db c = Services.db s /\ Entities.created_spawned c = None
  end.
Proof.
  cbn zeta. unfold Entities.CreateEntity.
  destruct insert as [err|]; [cbn; auto|].
  cbn [Entities.created Entities.created_db Entities.created_spawned
       Ontology.EntityID Ontology.OrgID Ontology.EntityType Ontology.Status
       Ontology.Priority Ontology.Metadata Ontology.Latitude Ontology.Longitude
       Ontology.Altitude].
  split; [|split; [reflexivity|split; [reflexivity|split; [|split; [|split]]]]].
  - eexists. split; [reflexivity|].
    repeat split; simplify_map_eq;
      try reflexivity;
      destruct (Entities.Position_ req) as [p|]; try reflexivity;
      destruct (Entities.is_zero (Entities.Altitude p)); reflexivity.
  - destruct (String.eqb_spec (Entities.Status req) ""); cbn [negb];
      [discriminate | assumption].
  - destruct (String.eqb_spec (Entities.Priority req) ""); cbn [negb];
      [discriminate | assumption].
  - intros bits. destruct (Entities.Position_ req) as [p|]; [|discriminate].
    destruct (Entities.is_zero (Entities.Altitude p)) eqn:E; cbn [negb];
      [discriminate|]. now intros [= <-].
  - reflexivity.
Qed.

End EntityOperations.

Lemma X18_missing_entity_reads_as_scan_failure_witness :
  Entities.GetEntity Inputs.scan Inputs.parse
    Examples.stored "org1" "e2"
  = Error ("failed to scan entity: " +:+ Entities.ErrNoRows)
  /\ Entities.Handlers_GetEntity Inputs.scan Inputs.parse
       Examples.stored "org1" "e2"
     = Entities.sendError 500 "GET_FAILED"
         ("failed to scan entity: " +:+ Entities.ErrNoRows)
  /\ (forall s' org ent,
        Entities.GetEntity Inputs.scan Inputs.parse s' org ent
        <> Error "entity not found"
        /\ Entities.StatusCode
             (Entities.Handlers_GetEntity Inputs.scan
                Inputs.parse s' org ent)
           <> 404).
Proof.
  apply (X18_missing_entity_reads_as_scan_failure Inputs.scan
           Inputs.parse Examples.stored "org1" "e2").
  - vm_compute. reflexivity.
  - discriminate.
  - discriminate.
Defined.

Section StatusChange.

Variable json_Marshal : GoValue -> string.

(** X21.  [UpdateEntityStatus] goes through [UpdateEntity] with the single
    key [status].  When it returns nil, two events are started, an update
    and then a status change, and every row of the entity holds the new
    status; when it returns an error, no event is started.  Whatever it
    returns, the rows of other entities are as they were, and so is every
    column other than [status] and [updated_at]. *)
Theorem X21_status_change_starts_two_events (s : Services.EntityService)
    (now orgID entityID status : string) :
  let r := Entities.UpdateEntityStatus json_Marshal s now orgID entityID status in
  match Entities.status_returned r with
  | None =>
      Entities.status_spawned r = [Shared.EventTypeUpdated; Shared.EventTypeStatus]
      /\ Forall2 (fun before after : Sql.Row =>
                    Rows.of_entity orgID entityID before = true ->
                    after !! "status" = Some (VString status))
                 (Services.db s) (Entities.status_db r)
  | Some _ => Entities.status_spawned r = []
  end
  /\ Forall2 (fun before after : Sql.Row =>
                (Rows.of_entity orgID entityID before = false -> after = before)
                /\ (forall c, c <> "status" -> c <> "updated_at" ->
                      after !! c = before !! c))
             (Services.db s) (Entities.status_db r).
Proof.
  cbn zeta. unfold Entities.UpdateEntityStatus.
  assert (Hsame : forall t : list Sql.Row,
            Forall2 (fun before after : Sql.Row =>
                       (Rows.of_entity orgID entityID before = false -> after = before)
                       /\ (forall c, c <> "status" -> c <> "updated_at" ->
                             after !! c = before !! c)) t t).
  { induction t; constructor; auto. }
  destruct (UpdateEntity_outcome json_Marshal s now orgID entityID
              [("status", VString status)])
    as [[err ->] | (more & r & Hargs & _ & _ & ->)];
    [discriminate | cbn; split; [reflexivity | apply Hsame] |].
  change (snd (Services.build_update json_Marshal "UPDATE entities SET updated_at = ?"
                 [VString now] [("status", VString status)]))
    with [VString now; VString status] in Hargs.
  injection Hargs as <-.
  cbn [Services.result Services.spawned Services.db_after Entities.status_returned
       Entities.status_spawned Entities.status_db app].
  split; [split; [reflexivity|]|];
    induction (Services.db s) as [|r0 t IH]; cbn [map]; constructor; try exact IH.
  - intros Hr0. rewrite Hr0.
    change (Sql.assign r0 (Services.set_columns [("status", VString status)])
              [VString now; VString status])
      with (<["status" := VString status]> (<["updated_at" := VString now]> r0)).
    apply lookup_insert_eq.
  - destruct (Rows.of_entity orgID entityID r0); [|auto].
    change (Sql.assign r0 (Services.set_columns [("status", VString status)])
              [VString now; VString status])
      with (<["status" := VString status]> (<["updated_at" := VString now]> r0)).
    split; [discriminate|]. intros c Hc Hc'.
    etransitivity; apply lookup_insert_ne; congruence.
Qed.

End StatusChange.

(* ===================================================================== *)
(** ** Bearer authentication *)
(* ===================================================================== *)

Lemma lower_space (c : Ascii.ascii) :
  Ascii.eqb (Middleware.lower c) " " = Ascii.eqb c " ".
Proof. destruct c as [[] [] [] [] [] [] [] []]; reflexivity. Qed.

Lemma no_space_ToLower (s : string) :
  Middleware.no_space (Middleware.ToLower s) = Middleware.no_space s.
Proof.
  induction s as [|c s IH]; [reflexivity|].
  cbn [Middleware.ToLower Middleware.no_space]. now rewrite lower_space, IH.
Qed.

Lemma Split_nonempty (s : string) : Middleware.Split s <> [].
Proof.
  destruct s as [|c s]; cbn [Middleware.Split]; [discriminate|].
  destruct (Ascii.eqb c " "); [discriminate|].
  destruct (Middleware.Split s); discriminate.
Qed.

Lemma Split_no_space (s : string) :
  Middleware.no_space s = true -> Middleware.Split s = [s].
Proof.
  induction s as [|c s IH]; [reflexivity|].
  cbn [Middleware.no_space Middleware.Split]. intros H.
  apply andb_prop in H as [Hc Hs]. apply negb_true_iff in Hc.
  now rewrite Hc, IH.
Qed.

Lemma Split_at_space (a t : string) :
  Middleware.no_space a = true ->
  Middleware.Split (a +:+ String " " t) = a :: Middleware.Split t.
Proof.
  induction a as [|c a IH]; [reflexivity|].
  cbn [Middleware.no_space]. intros H.
  apply andb_prop in H as [Hc Ha]. apply negb_true_iff in Hc.
  change (String c a +:+ String " " t) with (String c (a +:+ String " " t)).
  cbn [Middleware.Split]. now rewrite Hc, IH.
Qed.

Lemma Split_one (s a : string) :
  Middleware.Split s = [a] -> s = a /\ Middleware.no_space a = true.
Proof.
  revert a. induction s as [|c s IH]; intros a; cbn [Middleware.Split].
  - now intros [= <-].
  - destruct (Ascii.eqb c " ") eqn:Hc.
    + intros [= <- H]. now destruct (Split_nonempty s).
    + destruct (Middleware.Split s) as [|piece pieces] eqn:E;
        [now destruct (Split_nonempty s)|].
      intros [= <- ->]. destruct (IH piece eq_refl) as [-> Hp].
      cbn [Middleware.no_space]. now rewrite Hc, Hp.
Qed.

Lemma Split_two (s a b : string) :
  Middleware.Split s = [a; b] ->
  s = a +:+ String " " b
  /\ Middleware.no_space a = true /\ Middleware.no_space b = true.
Proof.
  revert a. induction s as [|c s IH]; intros a; cbn [Middleware.Split]; [discriminate|].
  destruct (Ascii.eqb_spec c " ") as [->|Hc].
  - intros [= <- H]. apply Split_one in H as [-> Hb]. now repeat split.
  - destruct (Middleware.Split s) as [|piece pieces] eqn:E; [discriminate|].
    intros [= <- ->]. destruct (IH piece eq_refl) as (-> & Hp & Hb).
    repeat split; [|exact Hb]. cbn [Middleware.no_space].
    destruct (Ascii.eqb_spec c " "); [contradiction|]. now rewrite Hp.
Qed.

(** When [BearerAuth] lets a request through. *)
Lemma BearerAuth_passes (env authHeader : string) :
  Middleware.BearerAuth env authHeader = Middleware.Next
  <-> exists scheme,
        authHeader = scheme +:+ String " " (Middleware.validToken env)
        /\ Middleware.ToLower scheme = "bearer"
        /\ Middleware.no_space (Middleware.validToken env) = true.
Proof.
  unfold Middleware.BearerAuth. split.
  - destruct (String.eqb authHeader ""); [discriminate|].
    destruct (Middleware.Split authHeader) as [|scheme [|token [|]]] eqn:E;
      try discriminate.
    destruct (String.eqb_spec (Middleware.ToLower scheme) "bearer") as [Hs|];
      [|discriminate].
    destruct (String.eqb_spec token (Middleware.validToken env)) as [->|];
      [|discriminate].
    intros _. apply Split_two in E as (-> & _ & Hv). eauto.
  - intros (scheme & -> & Hs & Hv).
    assert (Hn : Middleware.no_space scheme = true)
      by (rewrite <- no_space_ToLower, Hs; reflexivity).
    destruct (String.eqb_spec (scheme +:+ String " " (Middleware.validToken env)) "")
      as [E|_].
    { destruct scheme; discriminate E. }
    rewrite (Split_at_space _ _ Hn), (Split_no_space _ Hv).
    now rewrite Hs, !String.eqb_refl.
Qed.

(** X22.  [BearerAuth] lets a request through exactly when its Authorization
    header is a scheme that reads [bearer] in any mix of cases, one space,
    and the configured token, with no space inside the token; that token is
    [constellation-dev-token] when API_BEARER_TOKEN is unset.  [OptionalAuth]
    lets through, besides, exactly the requests without the header: a wrong
    token is refused although no token at all is accepted. *)
Theorem X22_bearer_token_accepted_iff_exact (env authHeader : string) :
  (Middleware.BearerAuth env authHeader = Middleware.Next
   <-> exists scheme,
         authHeader = scheme +:+ String " " (Middleware.validToken env)
         /\ Middleware.ToLower scheme = "bearer"
         /\ Middleware.no_space (Middleware.validToken env) = true)
  /\ (Middleware.OptionalAuth env authHeader = Middleware.Next
      <-> authHeader = ""
          \/ Middleware.BearerAuth env authHeader = Middleware.Next)
  /\ Middleware.validToken "" = "constellation-dev-token".
Proof.
  split; [apply BearerAuth_passes|]. split; [|reflexivity].
  unfold Middleware.OptionalAuth.
  destruct (String.eqb_spec authHeader "") as [->|Hne]; cbn [negb].
  - split; auto.
  - split; [auto|]. now intros [|].
Qed.

(** X23.  A configured token that contains a space can never be presented:
    with such a token [BearerAuth] refuses every request. *)
Theorem X23_token_with_space_locks_everyone_out (env authHeader : string) :
  Middleware.no_space env = false ->
  exists message,
    Middleware.BearerAuth env authHeader = Middleware.Unauthorized message.
Proof.
  intros Hspace.
  destruct (Middleware.BearerAuth env authHeader) as [|message] eqn:E; [|eauto].
  apply BearerAuth_passes in E as (scheme & _ & _ & Hv).
  unfold Middleware.validToken in Hv.
  destruct (String.eqb_spec env "") as [->|]; [discriminate Hspace|].
  congruence.
Qed.

Lemma X23_token_with_space_locks_everyone_out_witness :
  exists message,
    Middleware.BearerAuth "two words" "Bearer two words"
    = Middleware.Unauthorized message.
Proof.
  apply (X23_token_with_space_locks_everyone_out "two words" "Bearer two words").
  reflexivity.
Defined.

(* ===================================================================== *)
(** ** The answers of the entity routes for an entity that is not there *)
(* ===================================================================== *)

Section Absent.

Variable scan : Sql.Row -> res Entities.Scanned.
Variable time_Parse : string -> Z.
Variable json_Marshal : GoValue -> string.

(** X24.  [DeleteEntity] reads the entity first, and for an entity that is
    not in the table that read fails with the wrapped scan error: the
    handler of DELETE answers 500 with code DELETE_FAILED, not 404, and the
    table is as it was. *)
Theorem X24_delete_of_missing_entity_answers_500
    (s : Services.EntityService) (exec : option string) (orgID entityID : string) :
  Sql.query_row (Services.db s) orgID entityID = None ->
  orgID <> "" -> entityID <> "" ->
  Entities.Handlers_DeleteEntity scan time_Parse s exec orgID entityID
  = (Services.db s,
     Entities.sendError 500 "DELETE_FAILED"
       ("failed to scan entity: " +:+ Entities.ErrNoRows)).
Proof.
  intros Hq Horg Hent.
  unfold Entities.Handlers_DeleteEntity, Entities.DeleteEntity.
  rewrite GetEntity_is_scanEntity, Hq.
  destruct (String.eqb_spec orgID ""); [contradiction|].
  destruct (String.eqb_spec entityID ""); [contradiction|].
  reflexivity.
Qed.

End Absent.

Lemma X24_delete_of_missing_entity_answers_500_witness :
  Entities.Handlers_DeleteEntity Inputs.scan Inputs.parse
    Examples.stored None "org1" "e2"
  = (Services.db Examples.stored,
     Entities.sendError 500 "DELETE_FAILED"
       ("failed to scan entity: " +:+ Entities.ErrNoRows)).
Proof.
  apply (X24_delete_of_missing_entity_answers_500 Inputs.scan
           Inputs.parse Examples.stored None "org1" "e2").
  - vm_compute. reflexivity.
  - discriminate.
  - discriminate.
Defined.

Lemma is_recognized_cases (key : string) :
  Services.is_recognized key
  = existsb (String.eqb key) ["status"; "priority"; "entity_type"]
    || String.eqb key "is_live"
    || existsb (String.eqb key)
         ["latitude"; "longitude"; "altitude"; "heading"; "velocity"]
    || existsb (String.eqb key) ["metadata"; "components"; "tags"].
Proof.
  unfold Services.is_recognized, Services.recognized. cbn [existsb].
  rewrite ?orb_false_r, ?orb_assoc. reflexivity.
Qed.

Section AbsentUpdate.

Variable json_Marshal : GoValue -> string.

Lemma build_update_exact (updates : list (string * GoValue)) (query : string)
    (args : list GoValue) :
  existsb Rows.odd_is_live updates = false ->
  forallb (fun p => Sql.bindable (snd p)) updates = true ->
  exists more,
    snd (Services.build_update json_Marshal query args updates) = args ++ more
    /\ length more = length (List.filter Services.is_recognized (map fst updates))
    /\ forallb Sql.bindable more = true.
Proof.
  revert query args. induction updates as [|[key value] updates IH]; intros query args.
  - exists []. cbn. now rewrite app_nil_r.
  - cbn [existsb forallb snd]. intros Hodd Hbind.
    apply orb_false_elim in Hodd as [Hodd Hodds].
    apply andb_prop in Hbind as [Hv Hbind].
    cbn [Services.build_update map fst List.filter].
    pose proof (update_case_ignored json_Marshal key value) as Hign.
    destruct (Services.update_case json_Marshal key value) as [text extra] eqn:Hcase.
    destruct (IH (query +:+ text) (args ++ extra) Hodds Hbind) as (more & -> & Hlen & Hb).
    exists (extra ++ more). rewrite <- app_assoc. split; [reflexivity|].
    rewrite length_app, forallb_app, Hb, Hlen.
    destruct (Services.is_recognized key) eqn:Hrec.
    + assert (Hextra : length extra = 1%nat /\ forallb Sql.bindable extra = true).
      { unfold Services.update_case in Hcase. unfold Rows.odd_is_live in Hodd.
        cbn [fst snd] in Hodd. rewrite is_recognized_cases in Hrec.
        destruct (existsb (String.eqb key) ["status"; "priority"; "entity_type"]).
        - injection Hcase as <- <-. cbn. now rewrite Hv.
        - destruct (String.eqb key "is_live").
          + injection Hcase as <- <-.
            destruct value as [| [|] | | | | |]; try discriminate Hodd; now cbn.
          + destruct (existsb (String.eqb key)
                        ["latitude"; "longitude"; "altitude"; "heading"; "velocity"]);
              [injection Hcase as <- <-; cbn; now rewrite Hv|].
            destruct (existsb (String.eqb key) ["metadata"; "components"; "tags"]) eqn:E3.
            * injection Hcase as <- <-. now cbn.
            * discriminate Hrec. }
      destruct Hextra as [-> ->]. cbn [length]. split; [lia | reflexivity].
    + specialize (Hign eq_refl). injection Hign as -> ->. now cbn.
Qed.

Lemma uncounted_when_not_found (table : list Sql.Row) (p : Sql.Row -> bool) :
  List.find p table = None -> length (List.filter p table) = 0%nat.
Proof.
  induction table as [|r table IH]; [reflexivity|].
  cbn [List.find List.filter]. destruct (p r); [discriminate | exact IH].
Qed.

(** X25.  Updating an entity that is not in the table answers 404 with code
    NOT_FOUND and leaves the table as it was, provided the update itself is
    well formed: not empty, every value one the driver can bind, and
    [is_live], if given, a boolean. *)
Theorem X25_update_of_missing_entity_answers_404
    (s : Services.EntityService) (now orgID entityID : string)
    (updates : list (string * GoValue)) :
  updates <> [] ->
  existsb Rows.odd_is_live updates = false ->
  forallb (fun p => Sql.bindable (snd p)) updates = true ->
  Sql.query_row (Services.db s) orgID entityID = None ->
  orgID <> "" -> entityID <> "" ->
  Entities.Handlers_UpdateEntity json_Marshal s now orgID entityID (Ok updates)
  = (Services.db s, Entities.sendError 404 "NOT_FOUND" "entity not found").
Proof.
  intros Hne Hodd Hbind Hq Horg Hent.
  unfold Entities.Handlers_UpdateEntity.
  destruct (String.eqb_spec orgID ""); [contradiction|].
  destruct (String.eqb_spec entityID ""); [contradiction|]. cbn [orb].
  assert (Hu : Services.UpdateEntity json_Marshal s now orgID entityID updates
               = Services.mkUpdated (Services.db s) (Error "entity not found") None).
  { unfold Services.UpdateEntity.
    destruct updates as [|p updates]; [contradiction|]. cbn [length Nat.eqb].
    set (ups := p :: updates) in *. unfold Services.update_statement.
    destruct (build_update_exact ups "UPDATE entities SET updated_at = ?" [VString now]
                Hodd Hbind) as (more & Hargs & Hlen & Hb).
    destruct (Services.build_update json_Marshal "UPDATE entities SET updated_at = ?"
                [VString now] ups) as [query args].
    cbn [snd] in Hargs. subst args.
    rewrite (exec_update_where (Services.db s) (Services.set_columns ups)
               ([VString now] ++ more) orgID entityID).
    - unfold Sql.query_row in Hq.
      change (fun r : Sql.Row =>
                Sql.has r "org_id" (VString orgID)
                && Sql.has r "entity_id" (VString entityID))
        with (Rows.of_entity orgID entityID) in Hq.
      rewrite (uncounted_when_not_found _ _ Hq). cbn [Z.of_nat Z.eqb].
      rewrite untouched_without_hit by (now apply uncounted_when_not_found).
      reflexivity.
    - unfold Services.set_columns. cbn [length app]. now rewrite Hlen.
    - cbn [app forallb Sql.bindable andb]. exact Hb. }
  rewrite Hu. reflexivity.
Qed.

End AbsentUpdate.

Lemma X25_update_of_missing_entity_answers_404_witness :
  Entities.Handlers_UpdateEntity Examples.encode_value Examples.stored "t1" "org1" "e2"
    (Ok Examples.patch)
  = (Services.db Examples.stored,
     Entities.sendError 404 "NOT_FOUND" "entity not found").
Proof.
  apply (X25_update_of_missing_entity_answers_404 Examples.encode_value
           Examples.stored "t1" "org1" "e2" Examples.patch).
  - discriminate.
  - reflexivity.
  - reflexivity.
  - vm_compute. reflexivity.
  - discriminate.
  - discriminate.
Defined.

Section Listing.

Variable scan : Sql.Row -> res Entities.Scanned.
Variable time_Parse : string -> Z.

Lemma scan_rows_length (rows : list Sql.Row) (entities : list Ontology.Entity) :
  Entities.scan_rows scan time_Parse rows = Ok entities ->
  length entities = length rows.
Proof.
  revert entities. induction rows as [|row rows IH]; intros entities;
    cbn [Entities.scan_rows].
  - now intros [= <-].
  - destruct (Entities.scanEntity scan time_Parse (Some row)); try discriminate.
    destruct (Entities.scan_rows scan time_Parse rows) as [es|e|e]; try discriminate.
    intros [= <-]. cbn [length]. now rewrite (IH es).
Qed.

(** X26.  [ListEntities] reads only the rows of the organisation asked for: a
    row of another organisation, wherever it stands in the table, changes
    neither the result nor whether the call fails; and a successful call
    returns one entity for each row of the organisation. *)
Theorem X26_listing_reads_only_the_organisation (before after : list Sql.Row)
    (other : Sql.Row) (broker : option EmbeddedNats.EmbeddedNATS) (orgID : string) :
  Sql.has other "org_id" (VString orgID) = false ->
  Entities.ListEntities scan time_Parse
    {| Services.db := before ++ other :: after; Services.nats := broker |} orgID
  = Entities.ListEntities scan time_Parse
      {| Services.db := before ++ after; Services.nats := broker |} orgID
  /\ (forall entities,
        Entities.ListEntities scan time_Parse
          {| Services.db := before ++ after; Services.nats := broker |} orgID
        = Ok entities ->
        length entities
        = length (List.filter (fun r => Sql.has r "org_id" (VString orgID))
                    (before ++ after))).
Proof.
  intros Hother. unfold Entities.ListEntities. cbn [Services.db]. split.
  - rewrite !List.filter_app. cbn [List.filter]. now rewrite Hother.
  - intros entities H. now apply scan_rows_length in H.
Qed.

End Listing.

Lemma X26_listing_reads_only_the_organisation_witness :
  Entities.ListEntities Inputs.scan Inputs.parse
    {| Services.db := [] ++ Examples.row :: []; Services.nats := None |} "org2"
  = Entities.ListEntities Inputs.scan Inputs.parse
      {| Services.db := [] ++ []; Services.nats := None |} "org2"
  /\ (forall entities,
        Entities.ListEntities Inputs.scan Inputs.parse
          {| Services.db := [] ++ []; Services.nats := None |} "org2"
        = Ok entities ->
        length entities
        = length (List.filter (fun r => Sql.has r "org_id" (VString "org2")) ([] ++ []))).
Proof.
  apply (X26_listing_reads_only_the_organisation Inputs.scan Inputs.parse [] []
           Examples.row None "org2").
  vm_compute. reflexivity.
Defined.
